(** * DataMatch: key normalisation, reconciliation and SQL script emission

    A shallow embedding of the core of the DataMatch front end
    ([ExcelComparisonApp] and [FileCompress]): the identifier normaliser, the
    two-file reconciler [compareFiles], the update and query script generators
    and the chunked validation script of the text-file path.

    Conventions of the embedding.
    - A JavaScript string is a Rocq [string] holding its UTF-8 encoding.  The
      operations used by the program ([trim], [/^\d+$/], [.length] of an
      all-digit string, [===], concatenation) are defined on that encoding.
    - A row ([Record<string, any>]) is a finite map from column name to cell
      text: the dataset builder stores the result of [cleanValue], a string,
      under every key.
    - A JavaScript [Map] keeps its keys in insertion order; it is an
      association list without repeated keys ([JsMap]).
    - React state setters and toasts are explicit state passing. *)

From Stdlib Require Import Ascii String DecimalString.
From stdpp Require Import gmap strings list.

Local Open Scope stdpp_scope.

(** ** JavaScript strings *)

Module JsString.

(** The code points [String.prototype.trim] removes (WhiteSpace and
    LineTerminator of ECMAScript), each as the bytes of its UTF-8 encoding:
    U+0009..U+000D, U+0020, U+00A0, U+1680, U+2000..U+200A, U+2028, U+2029,
    U+202F, U+205F, U+3000 and U+FEFF. *)
Definition whiteSpaceCodes : list (list nat) :=
  [ [9]; [10]; [11]; [12]; [13]; [32]; [194; 160]; [225; 154; 128];
    [226; 128; 128]; [226; 128; 129]; [226; 128; 130]; [226; 128; 131];
    [226; 128; 132]; [226; 128; 133]; [226; 128; 134]; [226; 128; 135];
    [226; 128; 136]; [226; 128; 137]; [226; 128; 138];
    [226; 128; 168]; [226; 128; 169]; [226; 128; 175]; [226; 129; 159];
    [227; 128; 128]; [239; 187; 191] ].

Definition whiteSpace : list (list ascii) :=
  map (map ascii_of_nat) whiteSpaceCodes.

(** The same encodings read from the end of a string. *)
Definition whiteSpaceRev : list (list ascii) := map (@rev ascii) whiteSpace.

(** [strip_code w l] is [Some r] when [l = w ++ r]. *)
Fixpoint strip_code (w l : list ascii) : option (list ascii) :=
  match w, l with
  | [], _ => Some l
  | a :: w', b :: l' => if decide (a = b) then strip_code w' l' else None
  | _ :: _, [] => None
  end.

(** Removes one leading code of [codes], the first that matches. *)
Fixpoint strip_one (codes : list (list ascii)) (l : list ascii)
  : option (list ascii) :=
  match codes with
  | [] => None
  | w :: codes' =>
      match strip_code w l with
      | Some r => Some r
      | None => strip_one codes' l
      end
  end.

(** Removes leading codes while there is one; every code is at least one
    byte long, so [length l] rounds are enough (see [strip_all_done]). *)
Fixpoint strip_all (codes : list (list ascii)) (fuel : nat) (l : list ascii)
  : list ascii :=
  match fuel with
  | 0 => l
  | S fuel' =>
      match strip_one codes l with
      | Some r => strip_all codes fuel' r
      | None => l
      end
  end.

Definition trimStart (l : list ascii) : list ascii :=
  strip_all whiteSpace (length l) l.

Definition trimEnd (l : list ascii) : list ascii :=
  rev (strip_all whiteSpaceRev (length l) (rev l)).

(** [s.trim()] *)
Definition trim (s : string) : string :=
  string_of_list_ascii (trimEnd (trimStart (list_ascii_of_string s))).

(** [\d] *)
Definition isDigit (c : ascii) : bool :=
  let n := nat_of_ascii c in (48 <=? n) && (n <=? 57).

(** [/^\d+$/.test(s)]: at least one character, all of them digits. *)
Definition isDigits (s : string) : bool :=
  match s with
  | EmptyString => false
  | String _ _ => forallb isDigit (list_ascii_of_string s)
  end.

(** [c.repeat(n)] for a one-character string. *)
Fixpoint repeat (c : string) (n : nat) : string :=
  match n with
  | 0 => ""
  | S n' => c +:+ repeat c n'
  end.

(** Truthiness of a string value: only the empty string is falsy. *)
Definition nonEmpty (s : string) : bool :=
  match s with EmptyString => false | String _ _ => true end.

(** Truthiness of [row[key]]: [undefined] and the empty string are falsy. *)
Definition truthy (v : option string) : bool :=
  match v with Some s => nonEmpty s | None => false end.

(** [a || b] on values that are strings or [undefined]. *)
Definition or (a b : option string) : option string :=
  if truthy a then a else b.

(** [`${n}`] for a non-negative integer. *)
Definition ofNat (n : nat) : string := NilZero.string_of_uint (Nat.to_uint n).

End JsString.

Infix "|||" := JsString.or (at level 50, left associativity).

(** ** The key normaliser

    The body that [compareFiles] applies to every truthy [MATRICULA] value (it
    is written out twice there, once per file, and a third time in
    [generateQueryScript]); an earlier revision of the page names it
    [normalizeMatricula]. *)
Definition normalizeMatricula (matricula : string) : string :=
  let normalizedMatricula := JsString.trim matricula in
  if JsString.isDigits normalizedMatricula then
    let digitCount := String.length normalizedMatricula in
    if digitCount <? 6 then
      let zerosNeeded := 6 - digitCount in
      JsString.repeat "0" zerosNeeded +:+ normalizedMatricula
    else normalizedMatricula
  else normalizedMatricula.


(** ** Rows and insertion-ordered maps *)

(** A row of a dataset, [Record<string, any>]: column name to cell text. *)
Abbreviation Row := (gmap string string).

(** [value || ''] *)
Definition orEmpty (v : option string) : string :=
  if JsString.truthy v then default "" v else "".

(** A JavaScript [Map<string, V>]: the entries in insertion order.  [set] on a
    key already present replaces the value and keeps the position. *)
Module JsMap.

Definition t (V : Type) : Type := list (string * V).

Definition empty {V} : t V := [].

Fixpoint set {V} (k : string) (v : V) (m : t V) : t V :=
  match m with
  | [] => [(k, v)]
  | (k', v') :: m' =>
      if decide (k = k') then (k, v) :: m' else (k', v') :: set k v m'
  end.

Fixpoint get {V} (k : string) (m : t V) : option V :=
  match m with
  | [] => None
  | (k', v') :: m' => if decide (k = k') then Some v' else get k m'
  end.

Definition has {V} (k : string) (m : t V) : bool :=
  match get k m with Some _ => true | None => false end.

Definition keys {V} (m : t V) : list string := m.*1.

End JsMap.

(** ** The data model of [ExcelComparisonApp] *)

Record FileData := {
  name : string;
  size : string;
  records : nat;
  columns : list string;
  data : list Row;
  hojaProcesada : string;
  hojasDisponibles : list string
}.

Inductive Status :=
| actualizar_poligono
| actualizar_celda
| actualizar_ambos
| sin_cambios
| nuevo_registro.

Record AttrDiff := {
  archivo1 : string;
  archivo2 : string;
  necesitaActualizar : bool
}.

Record DiffEntry := {
  matricula : string;
  codigoPoligono : AttrDiff;
  codigoCelda : AttrDiff;
  status : Status
}.

Record ComparisonResult := {
  matching : nat;
  nonMatching : nat;
  total : nat;
  differences : list DiffEntry
}.

#[global] Instance Status_eq_dec : EqDecision Status.
Proof. solve_decision. Defined.
#[global] Instance AttrDiff_eq_dec : EqDecision AttrDiff.
Proof. solve_decision. Defined.
#[global] Instance DiffEntry_eq_dec : EqDecision DiffEntry.
Proof. solve_decision. Defined.

(** ** The reconciler, [compareFiles] *)

(** [row['MATRICULA'] || row['matricula'] || row['Matricula']] *)
Definition rowMatricula (row : Row) : option string :=
  row !! "MATRICULA" ||| row !! "matricula" ||| row !! "Matricula".

(** [row['CODIGO POLIGONO'] || row['CODIGO_POLIGONO'] || row['codigo_poligono'] || ''] *)
Definition rowPoligono (row : Row) : string :=
  orEmpty (row !! "CODIGO POLIGONO" ||| row !! "CODIGO_POLIGONO"
             ||| row !! "codigo_poligono").

(** [row['CODIGO CELDA'] || row['CODIGO_CELDA'] || row['codigo_celda'] || ''] *)
Definition rowCelda (row : Row) : string :=
  orEmpty (row !! "CODIGO CELDA" ||| row !! "CODIGO_CELDA"
             ||| row !! "codigo_celda").

(** One round of [fileN.data.forEach(row => ...)]: a row whose raw
    [MATRICULA] is truthy is stored under its normalised key. *)
Definition indexRow (fileMap : JsMap.t Row) (row : Row) : JsMap.t Row :=
  let matricula := rowMatricula row in
  if JsString.truthy matricula then
    JsMap.set (normalizeMatricula (default "" matricula)) row fileMap
  else fileMap.

Definition indexFile (rows : list Row) : JsMap.t Row :=
  foldl indexRow JsMap.empty rows.

(** The three variables the comparison loops mutate. *)
Record Tally := {
  t_matching : nat;
  t_nonMatching : nat;
  t_differences : list DiffEntry
}.

(** [a !== b] on strings. *)
Definition strictNe (a b : string) : bool := negb (String.eqb a b).

(** The body of [file1Map.forEach((row1, matricula) => ...)]. *)
Definition compareLeft (file2Map : JsMap.t Row) (acc : Tally)
    (entry : string * Row) : Tally :=
  let '(matricula, row1) := entry in
  match JsMap.get matricula file2Map with
  | Some row2 =>
      let codigoPoligono1 := rowPoligono row1 in
      let codigoPoligono2 := rowPoligono row2 in
      let codigoCelda1 := rowCelda row1 in
      let codigoCelda2 := rowCelda row2 in
      let poligonoDiferente := strictNe codigoPoligono1 codigoPoligono2 in
      let celdaDiferente := strictNe codigoCelda1 codigoCelda2 in
      if poligonoDiferente || celdaDiferente then
        let status :=
          if poligonoDiferente && celdaDiferente then actualizar_ambos
          else if poligonoDiferente then actualizar_poligono
          else actualizar_celda in
        {| t_matching := t_matching acc;
           t_nonMatching := S (t_nonMatching acc);
           t_differences := t_differences acc ++
             [ {| matricula := matricula;
                  codigoPoligono :=
                    {| archivo1 := codigoPoligono1;
                       archivo2 := codigoPoligono2;
                       necesitaActualizar := poligonoDiferente |};
                  codigoCelda :=
                    {| archivo1 := codigoCelda1;
                       archivo2 := codigoCelda2;
                       necesitaActualizar := celdaDiferente |};
                  status := status |} ] |}
      else
        {| t_matching := S (t_matching acc);
           t_nonMatching := t_nonMatching acc;
           t_differences := t_differences acc |}
  | None =>
      {| t_matching := t_matching acc;
         t_nonMatching := S (t_nonMatching acc);
         t_differences := t_differences acc ++
           [ {| matricula := matricula;
                codigoPoligono :=
                  {| archivo1 := rowPoligono row1;
                     archivo2 := "";
                     necesitaActualizar := true |};
                codigoCelda :=
                  {| archivo1 := rowCelda row1;
                     archivo2 := "";
                     necesitaActualizar := true |};
                status := nuevo_registro |} ] |}
  end.

(** The body of [file2Map.forEach((row2, matricula) => ...)]. *)
Definition compareRight (file1Map : JsMap.t Row) (acc : Tally)
    (entry : string * Row) : Tally :=
  let '(matricula, row2) := entry in
  if negb (JsMap.has matricula file1Map) then
    {| t_matching := t_matching acc;
       t_nonMatching := S (t_nonMatching acc);
       t_differences := t_differences acc ++
         [ {| matricula := matricula;
              codigoPoligono :=
                {| archivo1 := "";
                   archivo2 := rowPoligono row2;
                   necesitaActualizar := false |};
              codigoCelda :=
                {| archivo1 := "";
                   archivo2 := rowCelda row2;
                   necesitaActualizar := false |};
              status := sin_cambios |} ] |}
  else acc.

(** The callback [compareFiles] schedules once both files are loaded: the
    value handed to [setComparison]. *)
Definition compareFiles (file1 file2 : FileData) : ComparisonResult :=
  let file1Map := indexFile (data file1) in
  let file2Map := indexFile (data file2) in
  let start := {| t_matching := 0; t_nonMatching := 0; t_differences := [] |} in
  let afterLeft := foldl (compareLeft file2Map) start file1Map in
  let afterRight := foldl (compareRight file1Map) afterLeft file2Map in
  {| matching := t_matching afterRight;
     nonMatching := t_nonMatching afterRight;
     total := records file1 + records file2;
     differences := t_differences afterRight |}.

(** ** Text of the generated scripts *)

(** The line feed and the double quote of the templates. *)
Definition nl : string := String (ascii_of_nat 10) "".
Definition dq : string := String (ascii_of_nat 34) "".

(** [lines.join('\n')] *)
Definition joinLines (lines : list string) : string := String.concat nl lines.

(** [s || d] for a string [s]. *)
Definition orDefault (s d : string) : string :=
  if JsString.nonEmpty s then s else d.

(** ** Application state of [ExcelComparisonApp] *)

Record Toast := {
  title : string;
  description : string;
  variant : option string
}.

Record AppState := {
  file1 : option FileData;
  file2 : option FileData;
  comparison : option ComparisonResult;
  scripts : string;
  queryScript : string;
  isQueryScript : bool;
  isProcessing : bool;
  completedSteps : list nat;
  toasts : list Toast
}.

(** [toast({...})]: the notice is appended to the log shown to the operator. *)
Definition toast (t : Toast) (st : AppState) : AppState :=
  {| file1 := file1 st; file2 := file2 st; comparison := comparison st;
     scripts := scripts st; queryScript := queryScript st;
     isQueryScript := isQueryScript st; isProcessing := isProcessing st;
     completedSteps := completedSteps st; toasts := toasts st ++ [t] |}.

Definition setFile1 (f : FileData) (st : AppState) : AppState :=
  {| file1 := Some f; file2 := file2 st; comparison := comparison st;
     scripts := scripts st; queryScript := queryScript st;
     isQueryScript := isQueryScript st; isProcessing := isProcessing st;
     completedSteps := completedSteps st; toasts := toasts st |}.

Definition setFile2 (f : FileData) (st : AppState) : AppState :=
  {| file1 := file1 st; file2 := Some f; comparison := comparison st;
     scripts := scripts st; queryScript := queryScript st;
     isQueryScript := isQueryScript st; isProcessing := isProcessing st;
     completedSteps := completedSteps st; toasts := toasts st |}.

Definition setIsProcessing (b : bool) (st : AppState) : AppState :=
  {| file1 := file1 st; file2 := file2 st; comparison := comparison st;
     scripts := scripts st; queryScript := queryScript st;
     isQueryScript := isQueryScript st; isProcessing := b;
     completedSteps := completedSteps st; toasts := toasts st |}.

Definition setScripts (s : string) (st : AppState) : AppState :=
  {| file1 := file1 st; file2 := file2 st; comparison := comparison st;
     scripts := s; queryScript := queryScript st;
     isQueryScript := isQueryScript st; isProcessing := isProcessing st;
     completedSteps := completedSteps st; toasts := toasts st |}.

Definition setQueryScript (s : string) (st : AppState) : AppState :=
  {| file1 := file1 st; file2 := file2 st; comparison := comparison st;
     scripts := scripts st; queryScript := s;
     isQueryScript := isQueryScript st; isProcessing := isProcessing st;
     completedSteps := completedSteps st; toasts := toasts st |}.

Definition setIsQueryScript (b : bool) (st : AppState) : AppState :=
  {| file1 := file1 st; file2 := file2 st; comparison := comparison st;
     scripts := scripts st; queryScript := queryScript st;
     isQueryScript := b; isProcessing := isProcessing st;
     completedSteps := completedSteps st; toasts := toasts st |}.

Definition setCompletedSteps (l : list nat) (st : AppState) : AppState :=
  {| file1 := file1 st; file2 := file2 st; comparison := comparison st;
     scripts := scripts st; queryScript := queryScript st;
     isQueryScript := isQueryScript st; isProcessing := isProcessing st;
     completedSteps := l; toasts := toasts st |}.

(** [if (!completedSteps.includes(n)) setCompletedSteps([...completedSteps, n])] *)
Definition completeStep (n : nat) (st : AppState) : AppState :=
  if bool_decide (n ∈ completedSteps st) then st
  else setCompletedSteps (completedSteps st ++ [n]) st.

(** The file selected by [fileNumber === 1 ? file1 : file2]. *)
Inductive FileNumber := File1 | File2.

Definition currentFile (fileNumber : FileNumber) (st : AppState)
  : option FileData :=
  match fileNumber with File1 => file1 st | File2 => file2 st end.

(** [{ ...currentFile, hojaProcesada: sheetName }] *)
Definition withHojaProcesada (sheetName : string) (f : FileData) : FileData :=
  {| name := name f; size := size f; records := records f;
     columns := columns f; data := data f;
     hojaProcesada := sheetName;
     hojasDisponibles := hojasDisponibles f |}.

(** [reprocessFileWithSheet(fileNumber, sheetName)], the handler behind the
    sheet selector of a loaded file.  Nothing in its [try] block throws, so
    the [catch] branch is not reached. *)
Definition reprocessFileWithSheet (fileNumber : FileNumber)
    (sheetName : string) (st : AppState) : AppState :=
  match currentFile fileNumber st with
  | None => st
  | Some currentFile =>
      let st := setIsProcessing true st in
      let updatedFile := withHojaProcesada sheetName currentFile in
      let st :=
        match fileNumber with
        | File1 => setFile1 updatedFile st
        | File2 => setFile2 updatedFile st
        end in
      let st :=
        toast {| title := "Hoja cambiada exitosamente";
                 description :=
                   "Se cambió a la hoja " +:+ dq +:+ sheetName +:+ dq
                   +:+ " para el archivo "
                   +:+ match fileNumber with File1 => "1" | File2 => "2" end
                   +:+ ".";
                 variant := None |} st in
      setIsProcessing false st
  end.

(** The [onValueChange] handler of the sheet selector of file [fileNum]:
    [setFileN({ ...file, hojaProcesada: value })], [file] being the loaded
    file the selector is drawn for. *)
Definition onValueChange (fileNum : FileNumber) (value : string)
    (st : AppState) : AppState :=
  match currentFile fileNum st with
  | None => st
  | Some file =>
      match fileNum with
      | File1 => setFile1 (withHojaProcesada value file) st
      | File2 => setFile2 (withHojaProcesada value file) st
      end
  end.

(** ** The update script, [generateScripts] *)

(** The status test of both [filter] calls. *)
Definition isUpdateStatus (d : DiffEntry) : bool :=
  bool_decide (status d = actualizar_poligono)
  || bool_decide (status d = actualizar_celda)
  || bool_decide (status d = actualizar_ambos)
  || bool_decide (status d = nuevo_registro).

(** The [updates] array built for one entry. *)
Definition updates (d : DiffEntry) : list string :=
  (if necesitaActualizar (codigoPoligono d)
      && JsString.nonEmpty (archivo1 (codigoPoligono d))
   then ["cod_poligono = " +:+ archivo1 (codigoPoligono d)] else [])
  ++
  (if necesitaActualizar (codigoCelda d)
      && JsString.nonEmpty (archivo1 (codigoCelda d))
   then ["cod_celda = " +:+ archivo1 (codigoCelda d)] else []).

(** [/^\d{5}$/.test(s)] *)
Definition isFiveDigits (s : string) : bool :=
  (String.length s =? 5) && forallb JsString.isDigit (list_ascii_of_string s).

(** The callback of [.map(d => ...)]: the statement of one entry, or [null]. *)
Definition updateStatement (d : DiffEntry) : option string :=
  let updates := updates d in
  if 0 <? length updates then
    let matriculaCorregida :=
      if isFiveDigits (matricula d) then "0" +:+ matricula d
      else matricula d in
    Some ("UPDATE EDESURFLX_SGD.UTRANSFORMADORA_LT SET "
          +:+ String.concat ", " updates
          +:+ " WHERE instalacao = '" +:+ matriculaCorregida +:+ "';")
  else None.

(** The statements that survive [.filter(script => script !== null)]. *)
Definition updateStatementList (differences : list DiffEntry) : list string :=
  omap id (map updateStatement (List.filter isUpdateStatus differences)).

Definition updateStatements (differences : list DiffEntry) : string :=
  joinLines (updateStatementList differences).

Definition rule : string :=
  "-- =====================================================".

(** The text handed to [setScripts]; [now] is [new Date().toLocaleString()]. *)
Definition updateScriptText (now : string) (file1 file2 : option FileData)
    (comparison : ComparisonResult) : string :=
  let circuitName :=
    orDefault (default "" (hojaProcesada <$> file1)) "CIRCUITO" in
  let totalActualizaciones :=
    length (List.filter isUpdateStatus (differences comparison)) in
  joinLines
    [ rule;
      "-- SCRIPT DE ACTUALIZACIÓN DE BASE DE DATOS";
      rule;
      "-- INFORMACIÓN DE LA BASE DE DATOS";
      "-- Base de Datos: SGDPRO";
      "-- Esquema: EDESURFLX_SGD";
      "-- Tabla: UTRANSFORMADORA_LT";
      rule;
      "-- INFORMACIÓN DEL SCRIPT";
      "-- Generado: " +:+ now;
      "-- Circuito: " +:+ circuitName;
      "-- Archivo 1: " +:+ orDefault (default "" (name <$> file1)) "N/A";
      "-- Archivo 2: " +:+ orDefault (default "" (name <$> file2)) "N/A";
      rule;
      "-- ESTADÍSTICAS DE COMPARACIÓN";
      "-- Total de registros procesados: " +:+ JsString.ofNat (total comparison);
      "-- Registros con diferencias: "
        +:+ JsString.ofNat (length (differences comparison));
      rule;
      "";
      "-- ACTUALIZAR " +:+ circuitName;
      "-- Total de registros que se actualizarán: "
        +:+ JsString.ofNat totalActualizaciones;
      updateStatements (differences comparison);
      "";
      rule;
      "-- RESUMEN FINAL";
      rule;
      "-- TOTAL DE REGISTROS QUE SE ACTUALIZARÁN: "
        +:+ JsString.ofNat totalActualizaciones;
      rule;
      "-- FIN DEL SCRIPT";
      rule ].

Definition generateScripts (now : string) (st : AppState) : AppState :=
  match comparison st with
  | None => st
  | Some comparison =>
      let circuitName :=
        orDefault (default "" (hojaProcesada <$> file1 st)) "CIRCUITO" in
      let totalActualizaciones :=
        length (List.filter isUpdateStatus (differences comparison)) in
      let st :=
        setScripts (updateScriptText now (file1 st) (file2 st) comparison) st in
      let st :=
        toast {| title := "Scripts generados correctamente";
                 description :=
                   "Script SQL generado con "
                   +:+ JsString.ofNat totalActualizaciones
                   +:+ " actualizaciones para " +:+ circuitName;
                 variant := None |} st in
      completeStep 3 st
  end.

(** ** The query script, [generateQueryScript] *)

(** The twelve column names probed for the identifier. *)
Definition rowIdentifier (row : Row) : option string :=
  row !! "MATRICULA" ||| row !! "matricula" ||| row !! "Matricula"
  ||| row !! "INSTALACAO" ||| row !! "instalacao" ||| row !! "Instalacao"
  ||| row !! "CODIGO" ||| row !! "codigo" ||| row !! "Codigo"
  ||| row !! "ID" ||| row !! "id" ||| row !! "Id".

(** The callback of [file1.data.map((row, index) => ...)]: [null] for a row
    without identifier, its normalised identifier otherwise. *)
Definition extractMatricula (row : Row) : option string :=
  let matricula := rowIdentifier row in
  if JsString.truthy matricula then
    Some (normalizeMatricula (default "" matricula))
  else None.

(** [.filter(matricula => matricula && matricula !== '')] after the [map]. *)
Definition matriculas (f : FileData) : list string :=
  omap (fun m => if JsString.truthy m then m else None)
       (map extractMatricula (data f)).

Definition queryScriptText (now : string) (f : FileData)
    (matriculas : list string) : string :=
  joinLines
    [ rule;
      "-- SCRIPT DE CONSULTA PARA OBTENER DATOS ACTUALES DE LA BD";
      rule;
      "-- INFORMACIÓN DE LA BASE DE DATOS";
      "-- Base de Datos: SGDPRO";
      "-- Esquema: EDESURFLX_SGD";
      "-- Tabla: UTRANSFORMADORA_LT";
      rule;
      "-- INFORMACIÓN DEL SCRIPT";
      "-- Generado: " +:+ now;
      "-- Circuito: " +:+ hojaProcesada f;
      "-- Archivo fuente: " +:+ name f;
      "-- Total de matrículas a consultar: "
        +:+ JsString.ofNat (length matriculas);
      rule;
      "-- DIAGNÓSTICO DE MATRÍCULAS";
      "-- Total de matrículas extraídas: "
        +:+ JsString.ofNat (length matriculas);
      "-- Formato preservado del archivo original";
      rule;
      "-- EJEMPLOS DE MATRÍCULAS (primeras 5):";
      joinLines (map (fun m => "-- " +:+ m) (take 5 matriculas));
      rule;
      "";
      "-- CONSULTA PARA OBTENER DATOS ACTUALES DE LA BASE DE DATOS";
      "-- Ejecuta este script en Oracle para obtener el archivo 2";
      "";
      "SELECT ";
      "    instalacao,";
      "    cod_poligono,";
      "    cod_celda";
      "FROM EDESURFLX_SGD.UTRANSFORMADORA_LT ";
      "WHERE instalacao IN ("
        +:+ String.concat ", " (map (fun m => "'" +:+ m +:+ "'") matriculas)
        +:+ ")";
      "ORDER BY instalacao;";
      "";
      rule;
      "-- INSTRUCCIONES:";
      "-- 1. Ejecuta este script en Oracle";
      "-- 2. Exporta el resultado a CSV o XLSX";
      "-- 3. Carga ese archivo como " +:+ dq +:+ "Archivo 2" +:+ dq
        +:+ " en DataMatch";
      "-- 4. Ejecuta la comparación para generar el script de actualización";
      rule;
      "-- RESOLUCIÓN DE PROBLEMAS:";
      "-- Si obtienes menos registros de los esperados:";
      "-- 1. Verifica que el formato de matrículas en Oracle coincida con tu archivo";
      "-- 2. Ejecuta: SELECT DISTINCT instalacao FROM EDESURFLX_SGD.UTRANSFORMADORA_LT WHERE ROWNUM <= 5";
      "-- 3. Compara el formato con las matrículas de tu archivo";
      rule;
      "-- FIN DEL SCRIPT";
      rule ].

Definition generateQueryScript (now : string) (st : AppState) : AppState :=
  match file1 st with
  | None =>
      toast {| title := "Error";
               description := "Primero debes cargar el archivo 1";
               variant := Some "destructive" |} st
  | Some f =>
      let matriculas := matriculas f in
      if length matriculas =? 0 then
        toast {| title := "Error";
                 description := "No se encontraron matrículas en el archivo 1";
                 variant := Some "destructive" |} st
      else
        let st := setQueryScript (queryScriptText now f matriculas) st in
        let st := setIsQueryScript true st in
        let st :=
          toast {| title := "Script de consulta generado";
                   description :=
                     "Script SQL generado con "
                     +:+ JsString.ofNat (length matriculas)
                     +:+ " matrículas. Cópialo y ejecútalo en Oracle.";
                   variant := None |} st in
        completeStep 1 st
  end.

(** ** The validation script of [FileCompress] (text-file path) *)

Module FileCompress.

Record ProcessedFile := {
  id : string;
  name : string;
  size : nat;
  content : string;
  instalaciones : list string;
  circuito : string
}.

(** An element of [allInstalaciones], [{ instalacao, circuito }]; the second
    field is [item_circuito] here, [circuito] being taken by [ProcessedFile]. *)
Record Item := {
  instalacao : string;
  item_circuito : string
}.

Record State := {
  files : list ProcessedFile;
  compressedContent : string;
  validationScript : string;
  toasts : list Toast
}.

Definition setValidationScript (s : string) (st : State) : State :=
  {| files := files st; compressedContent := compressedContent st;
     validationScript := s; toasts := toasts st |}.

(** [fileList.flatMap(file => file.instalaciones.map(inst => ...))] *)
Definition allInstalaciones (fileList : list ProcessedFile) : list Item :=
  flat_map
    (fun file =>
       map (fun inst => {| instalacao := inst; item_circuito := circuito file |})
           (instalaciones file))
    fileList.

(** A script is accumulated by [script += `...\n`]: it is the list of the
    lines appended so far, each closed by a line feed. *)
Definition render (lines : list string) : string :=
  String.concat "" (map (fun l => l +:+ nl) lines).

(** [items[0]?.circuito || 'CIRCUITO'] *)
Definition firstCircuito (items : list Item) : string :=
  orDefault (default "" (item_circuito <$> head items)) "CIRCUITO".

(** The [forEach] that lists the identifiers of an [IN] clause; [indent] and
    [comment] tell the three places it is written at apart. *)
Definition inListLines (indent : string) (comment : bool) (items : list Item)
  : list string :=
  imap
    (fun index item =>
       indent +:+ "'" +:+ instalacao item +:+ "'"
       +:+ (if index <? length items - 1 then "," else "")
       +:+ (if comment then "  -- " +:+ item_circuito item else ""))
    items.

Definition generateNormalValidationScript (allInstalaciones : list Item)
  : list string :=
  [ "-- VALIDACIÓN DE EXISTENCIA EN UTRANSFORMADORA_LT";
    "SELECT ";
    "    'VALIDACION' as tipo,";
    "    instalacao,";
    "    '" +:+ firstCircuito allInstalaciones +:+ "' as circuito_origen,";
    "    CASE ";
    "        WHEN COUNT(*) > 0 THEN 'EXISTE'";
    "        ELSE 'NO_EXISTE'";
    "    END as estado,";
    "    COUNT(*) as registros_encontrados";
    "FROM EDESURFLX_SGD.UTRANSFORMADORA_LT ";
    "WHERE instalacao IN (" ]
  ++ inListLines "    " true allInstalaciones
  ++ [ ")";
       "GROUP BY instalacao";
       "ORDER BY instalacao;";
       "";
       "-- RESUMEN POR CIRCUITO";
       "SELECT ";
       "    circuito_origen,";
       "    COUNT(*) as total_instalaciones,";
       "    SUM(CASE WHEN estado = 'EXISTE' THEN 1 ELSE 0 END) as existentes,";
       "    SUM(CASE WHEN estado = 'NO_EXISTE' THEN 1 ELSE 0 END) as no_existentes";
       "FROM (";
       "    SELECT ";
       "        '" +:+ firstCircuito allInstalaciones +:+ "' as circuito_origen,";
       "        instalacao,";
       "        CASE ";
       "            WHEN COUNT(*) > 0 THEN 'EXISTE'";
       "            ELSE 'NO_EXISTE'";
       "        END as estado";
       "    FROM EDESURFLX_SGD.UTRANSFORMADORA_LT ";
       "    WHERE instalacao IN (" ]
  ++ inListLines "        " false allInstalaciones
  ++ [ "    )";
       "    GROUP BY instalacao";
       ") subquery";
       "GROUP BY circuito_origen;" ].

Definition CHUNK_SIZE : nat := 1000.

(** [l.slice(start, stop)] for [start <= stop]. *)
Definition slice {A} (start stop : nat) (l : list A) : list A :=
  take (stop - start) (drop start l).

(** [for (let i = ...; i < all.length; i += CHUNK_SIZE) chunks.push(...)],
    from the value [i] of the counter on.  The counter grows by [CHUNK_SIZE]
    each round, so [fuel] rounds are enough once [fuel] reaches the number of
    entries left (see [chunkLoop_fuel]). *)
Fixpoint chunkLoop {A} (fuel : nat) (allInstalaciones : list A) (i : nat)
  : list (list A) :=
  match fuel with
  | 0 => []
  | S fuel' =>
      if i <? length allInstalaciones then
        slice i (i + CHUNK_SIZE) allInstalaciones
        :: chunkLoop fuel' allInstalaciones (i + CHUNK_SIZE)
      else []
  end.

Definition chunks {A} (allInstalaciones : list A) : list (list A) :=
  chunkLoop (length allInstalaciones) allInstalaciones 0.

(** The lines one round of [chunks.forEach((chunk, chunkIndex) => ...)] adds. *)
Definition chunkLines (total nchunks chunkIndex : nat) (chunk : list Item)
  : list string :=
  [ "-- CHUNK " +:+ JsString.ofNat (chunkIndex + 1) +:+ " ("
      +:+ JsString.ofNat (chunkIndex * CHUNK_SIZE + 1) +:+ "-"
      +:+ JsString.ofNat (Nat.min ((chunkIndex + 1) * CHUNK_SIZE) total)
      +:+ ")";
    "SELECT ";
    "    'VALIDACION' as tipo,";
    "    instalacao,";
    "    '" +:+ firstCircuito chunk +:+ "' as circuito_origen,";
    "    CASE ";
    "        WHEN COUNT(*) > 0 THEN 'EXISTE'";
    "        ELSE 'NO_EXISTE'";
    "    END as estado,";
    "    COUNT(*) as registros_encontrados";
    "FROM EDESURFLX_SGD.UTRANSFORMADORA_LT ";
    "WHERE instalacao IN (" ]
  ++ inListLines "    " true chunk
  ++ [ ")";
       "GROUP BY instalacao";
       "ORDER BY instalacao" ]
  ++ (if chunkIndex <? nchunks - 1 then ["UNION ALL"; ""] else [";"; ""]).

(** The lines of the temporary-table alternative. *)
Definition tempTableLines (allInstalaciones : list Item) : list string :=
  [ "-- SOLUCIÓN 2: TABLA TEMPORAL (Alternativa más eficiente)";
    "-- Crear tabla temporal";
    "CREATE GLOBAL TEMPORARY TABLE TEMP_INSTALACIONES (";
    "    instalacao VARCHAR2(20),";
    "    circuito VARCHAR2(50)";
    ") ON COMMIT PRESERVE ROWS;";
    "";
    "-- Insertar todas las instalaciones" ]
  ++ map (fun item =>
            "INSERT INTO TEMP_INSTALACIONES VALUES ('" +:+ instalacao item
            +:+ "', '" +:+ item_circuito item +:+ "');")
         allInstalaciones
  ++ [ "";
       "-- Consulta usando JOIN (sin límite de 1000)";
       "SELECT ";
       "    t.instalacao,";
       "    t.circuito as circuito_origen,";
       "    CASE ";
       "        WHEN COUNT(u.instalacao) > 0 THEN 'EXISTE'";
       "        ELSE 'NO_EXISTE'";
       "    END as estado,";
       "    COUNT(u.instalacao) as registros_encontrados";
       "FROM TEMP_INSTALACIONES t";
       "LEFT JOIN EDESURFLX_SGD.UTRANSFORMADORA_LT u ON t.instalacao = u.instalacao";
       "GROUP BY t.instalacao, t.circuito";
       "ORDER BY t.circuito, t.instalacao;";
       "";
       "-- Limpiar tabla temporal";
       "DROP TABLE TEMP_INSTALACIONES;" ].

Definition generateChunkedValidationScript (allInstalaciones : list Item)
  : list string :=
  let chunks := chunks allInstalaciones in
  [ "-- SOLUCIÓN 1: DIVISIÓN EN CHUNKS (Recomendado para Oracle)";
    "-- Se dividieron " +:+ JsString.ofNat (length allInstalaciones)
      +:+ " instalaciones en " +:+ JsString.ofNat (length chunks)
      +:+ " chunks de máximo " +:+ JsString.ofNat CHUNK_SIZE;
    "" ]
  ++ concat (imap (chunkLines (length allInstalaciones) (length chunks)) chunks)
  ++ [ "-- RESUMEN POR CIRCUITO (Combinando todos los chunks)";
       "SELECT ";
       "    circuito_origen,";
       "    COUNT(*) as total_instalaciones,";
       "    SUM(CASE WHEN estado = 'EXISTE' THEN 1 ELSE 0 END) as existentes,";
       "    SUM(CASE WHEN estado = 'NO_EXISTE' THEN 1 ELSE 0 END) as no_existentes";
       "FROM (";
       "    -- Aquí debes ejecutar todos los chunks anteriores y combinar resultados";
       "    -- O usar la siguiente alternativa con tabla temporal";
       ") subquery";
       "GROUP BY circuito_origen;";
       "" ]
  ++ tempTableLines allInstalaciones.

(** The lines of the script [generateValidationScript] builds; [now] is
    [new Date().toLocaleString()]. *)
Definition validationScriptLines (now : string) (fileList : list ProcessedFile)
  : list string :=
  let allInstalaciones := allInstalaciones fileList in
  [ "-- ===========================================";
    "-- SCRIPT DE VALIDACIÓN GENERADO POR FILECOMPRESS";
    "-- Fecha: " +:+ now;
    "-- Total archivos procesados: " +:+ JsString.ofNat (length fileList);
    "-- Total instalaciones a validar: "
      +:+ JsString.ofNat (length allInstalaciones);
    "-- ===========================================";
    "" ]
  ++ (if 1000 <? length allInstalaciones then
        [ "-- ⚠️  ADVERTENCIA: Se supera el límite de 1000 expresiones en Oracle IN";
          "-- Se generará script con división automática en chunks";
          "" ]
        ++ generateChunkedValidationScript allInstalaciones
      else generateNormalValidationScript allInstalaciones).

Definition generateValidationScript (now : string)
    (fileList : list ProcessedFile) (st : State) : State :=
  setValidationScript (render (validationScriptLines now fileList)) st.

End FileCompress.

(** ** Vocabulary of the statements *)

(** The tally before the first round. *)
Definition noTally : Tally :=
  {| t_matching := 0; t_nonMatching := 0; t_differences := [] |}.

(** The entries of a comparison that carry the key [k]. *)
Definition entriesFor (k : string) (ds : list DiffEntry) : list DiffEntry :=
  filter (fun d => matricula d = k) ds.

(** What one round of the first loop, and of the second, appends. *)
Definition pushedLeft (file2Map : JsMap.t Row) (entry : string * Row)
  : list DiffEntry :=
  t_differences (compareLeft file2Map noTally entry).

Definition pushedRight (file1Map : JsMap.t Row) (entry : string * Row)
  : list DiffEntry :=
  t_differences (compareRight file1Map noTally entry).

(** The matched pairs one round of the first loop counts: 0 or 1. *)
Definition countedLeft (file2Map : JsMap.t Row) (entry : string * Row) : nat :=
  t_matching (compareLeft file2Map noTally entry).

(** The attribute flag agrees with the two values it sits next to. *)
Definition flagFollowsValues (a : AttrDiff) : Prop :=
  necesitaActualizar a = true <-> archivo1 a <> archivo2 a.

(** What the flags of an entry are, status by status. *)
Definition flagsByStatus (d : DiffEntry) : Prop :=
  match status d with
  | nuevo_registro =>
      necesitaActualizar (codigoPoligono d) = true
      /\ necesitaActualizar (codigoCelda d) = true
      /\ archivo2 (codigoPoligono d) = "" /\ archivo2 (codigoCelda d) = ""
  | sin_cambios =>
      necesitaActualizar (codigoPoligono d) = false
      /\ necesitaActualizar (codigoCelda d) = false
      /\ archivo1 (codigoPoligono d) = "" /\ archivo1 (codigoCelda d) = ""
  | _ =>
      flagFollowsValues (codigoPoligono d) /\ flagFollowsValues (codigoCelda d)
  end.

(** An attribute gets a [SET] clause: its flag is set and its left value is
    not empty. *)
Definition qualifies (a : AttrDiff) : Prop :=
  necesitaActualizar a = true /\ archivo1 a <> "".

(** The key as [updateStatement] writes it in the [WHERE] clause. *)
Definition matriculaCorregida (d : DiffEntry) : string :=
  if isFiveDigits (matricula d) then "0" +:+ matricula d else matricula d.

(** The number of lines of a script that pass a test. *)
Definition countLines (test : string -> bool) (lines : list string) : nat :=
  length (List.filter test lines).

(** The tests the statements about the validation script count lines by. *)
Definition isLine (target : string) : string -> bool := String.eqb target.


(** ** Sample data *)

(** A dataset holding the given rows, for the examples. *)
Definition fileOf (fileName sheet : string) (rows : list Row) : FileData :=
  {| name := fileName; size := "0.00 MB"; records := length rows;
     columns := []; data := rows; hojaProcesada := sheet;
     hojasDisponibles := [sheet] |}.

(** A row with the three mapped columns, as the dataset builder stores it. *)
Definition rowOf (matricula poligono celda : string) : Row :=
  {[ "MATRICULA" := matricula; "CODIGO POLIGONO" := poligono;
     "CODIGO CELDA" := celda ]}.

(** A dataset without rows. *)
Definition emptyFile : FileData := fileOf "vacio.xlsx" "Hoja1" [].

(** Two datasets in which every class of the reconciler occurs once. *)
Definition sampleLeft : FileData :=
  fileOf "fuente.xlsx" "LPRA110"
    [ rowOf "1" "10" "20"; rowOf "2" "10" "20"; rowOf "3" "10" "20";
      rowOf "4" "10" "20"; rowOf "5" "10" "20" ].

Definition sampleRight : FileData :=
  fileOf "actual.xlsx" "Export"
    [ rowOf "000001" "11" "20"; rowOf "000002" "10" "21";
      rowOf "000003" "11" "21"; rowOf "000004" "10" "20";
      rowOf "000006" "10" "20" ].

(** The entries the comparison of the two samples has for a key. *)
Definition sampleFound (k : string) : list DiffEntry :=
  entriesFor k (differences (compareFiles sampleLeft sampleRight)).

(** The first entry of the comparison of the two sample datasets. *)
Definition sampleEntry : DiffEntry :=
  {| matricula := "000001";
     codigoPoligono :=
       {| archivo1 := "10"; archivo2 := "11"; necesitaActualizar := true |};
     codigoCelda :=
       {| archivo1 := "20"; archivo2 := "20"; necesitaActualizar := false |};
     status := actualizar_poligono |}.

(** A left dataset whose only row has a polygon code and no cell code. *)
Definition newOnlyLeft : FileData :=
  fileOf "fuente.xlsx" "LPRA110"
    [ {[ "MATRICULA" := "100000"; "CODIGO POLIGONO" := "7" ]} ].

(** The row the dataset builder makes of the cells ["", "# #", "7"] under the
    headers ["ID", "matricula", "poligono"]: the identifier column it maps is
    [ID], whose cell is empty, and [cleanValue] turns ["# #"] into [" "]. *)
Definition blankIdRow : Row :=
  {[ "MATRICULA" := ""; "CODIGO POLIGONO" := "7"; "ID" := "";
     "matricula" := " "; "poligono" := "7" ]}.

Definition blankIdLeft : FileData :=
  fileOf "fuente.xlsx" "LPRA110" [ blankIdRow ].

(** An entry [actualizar_poligono] whose left polygon code is empty. *)
Definition emptyLeftEntry : DiffEntry :=
  {| matricula := "000517";
     codigoPoligono :=
       {| archivo1 := ""; archivo2 := "11"; necesitaActualizar := true |};
     codigoCelda :=
       {| archivo1 := "20"; archivo2 := "20"; necesitaActualizar := false |};
     status := actualizar_poligono |}.

(** An entry whose left polygon code is not a number. *)
Definition textEntry : DiffEntry :=
  {| matricula := "000517";
     codigoPoligono :=
       {| archivo1 := "AB"; archivo2 := "11"; necesitaActualizar := true |};
     codigoCelda :=
       {| archivo1 := "20"; archivo2 := "20"; necesitaActualizar := false |};
     status := actualizar_poligono |}.

(** The state of the page before any upload. *)
Definition initialState : AppState :=
  {| file1 := None; file2 := None; comparison := None; scripts := "";
     queryScript := ""; isQueryScript := false; isProcessing := false;
     completedSteps := []; toasts := [] |}.

(** A workbook with three sheets, loaded from its sheet [LPRA110]. *)
Definition workbookFile : FileData :=
  {| name := "circuitos.xlsx"; size := "0.01 MB"; records := 2;
     columns := ["MATRICULA"; "CODIGO POLIGONO"; "CODIGO CELDA"];
     data := [ rowOf "031517" "10" "20"; rowOf "031518" "10" "21" ];
     hojaProcesada := "LPRA110";
     hojasDisponibles := ["Hoja1"; "LPRA110"; "PALA103"] |}.

Definition loadedState : AppState := setFile1 workbookFile initialState.

(** The operator picks the sheet [PALA103] in the selector and applies it. *)
Definition relabelledState : AppState :=
  reprocessFileWithSheet File1 "PALA103"
    (onValueChange File1 "PALA103" loadedState).

(** The page with an uploaded file that has no row. *)
Definition emptyLoadedState : AppState := setFile1 emptyFile initialState.

(** The notice [generateQueryScript] gives when it finds no identifier. *)
Definition noMatriculasToast : Toast :=
  {| title := "Error";
     description := "No se encontraron matrículas en el archivo 1";
     variant := Some "destructive" |}.

(** An uploaded SQL file in which no [WHERE instalacao = ...] occurs. *)
Definition noIdsFile : FileCompress.ProcessedFile :=
  {| FileCompress.id := "1700000000000-0";
     FileCompress.name := "notas.sql";
     FileCompress.size := 9;
     FileCompress.content := "SELECT 1;";
     FileCompress.instalaciones := [];
     FileCompress.circuito := "notas" |}.

(** [FileCompress] before any upload. *)
Definition noFilesState : FileCompress.State :=
  {| FileCompress.files := []; FileCompress.compressedContent := "";
     FileCompress.validationScript := ""; FileCompress.toasts := [] |}.

(** [FileCompress] after the upload of [noIdsFile]. *)
Definition noIdsState : FileCompress.State :=
  FileCompress.generateValidationScript "2/11/2026, 10:00:00" [noIdsFile]
    noFilesState.

(** An uploaded SQL file of [n] statements on one installation each. *)
Definition fileOfIds (n : nat) : FileCompress.ProcessedFile :=
  {| FileCompress.id := "1700000000000-0";
     FileCompress.name := "LPRA110.sql";
     FileCompress.size := 64 * n;
     FileCompress.content := "";
     FileCompress.instalaciones := replicate n "031517";
     FileCompress.circuito := "LPRA110" |}.

(** ** Vocabulary of the further statements *)

(** The key a row is stored under by [indexRow], if it is stored. *)
Definition rowKey (row : Row) : option string :=
  if JsString.truthy (rowMatricula row) then
    Some (normalizeMatricula (default "" (rowMatricula row)))
  else None.

(** The entry has a row under the same key in the other map, with the same
    polygon code and the same cell code. *)
Definition agrees (otherMap : JsMap.t Row) (entry : string * Row) : bool :=
  match JsMap.get entry.1 otherMap with
  | Some other =>
      String.eqb (rowPoligono entry.2) (rowPoligono other)
      && String.eqb (rowCelda entry.2) (rowCelda other)
  | None => false
  end.

(** [nuevo_registro] and [sin_cambios] exchanged, the other statuses kept. *)
Definition swapStatus (s : Status) : Status :=
  match s with
  | nuevo_registro => sin_cambios
  | sin_cambios => nuevo_registro
  | other => other
  end.
(** ** Validation of a loaded file, [validateFileData] *)

(** The test of [data.filter(row => ...)]: the [MATRICULA] value is truthy
    and, trimmed, neither empty nor ['N/A']. *)
Definition validRow (row : Row) : bool :=
  JsString.truthy (row !! "MATRICULA")
  && strictNe (JsString.trim (default "" (row !! "MATRICULA"))) ""
  && strictNe (JsString.trim (default "" (row !! "MATRICULA"))) "N/A".

(** [row[key] !== undefined] *)
Definition hasColumn (key : string) (row : Row) : bool :=
  match row !! key with Some _ => true | None => false end.

Definition validateFileData (data : list Row) : list string :=
  match data with
  | [] => ["El archivo no contiene datos"]
  | firstRow :: _ =>
      let hasMatricula := hasColumn "MATRICULA" firstRow in
      let hasPoligono := hasColumn "CODIGO POLIGONO" firstRow in
      let hasCelda := hasColumn "CODIGO CELDA" firstRow in
      let validRows := List.filter validRow data in
      (if negb hasMatricula then ["No se detectó columna de matrícula"] else [])
      ++ (if negb hasPoligono
          then ["No se detectó columna de código de polígono"] else [])
      ++ (if negb hasCelda
          then ["No se detectó columna de código de celda"] else [])
      ++ (if length validRows =? 0 then
            ["No se encontraron matrículas válidas (todas aparecen como N/A o vacías)"]
          else if length validRows <? length data then
            [JsString.ofNat (length data - length validRows)
             +:+ " filas tienen datos inválidos o N/A"]
          else [])
  end.
(** ** Steps of the page, clearing files *)

(** The page state with the step the operator is on, which [AppState] leaves
    out. *)
Record PageState := {
  appState : AppState;
  currentStep : nat
}.

Definition setCurrentStep (step : nat) (ps : PageState) : PageState :=
  {| appState := appState ps; currentStep := step |}.

Definition updateStep (step : nat) (ps : PageState) : PageState :=
  {| appState := completeStep step (appState ps); currentStep := step |}.

Inductive StepStatus := completed | current | pending.

Definition getStepStatus (step : nat) (ps : PageState) : StepStatus :=
  if bool_decide (step ∈ completedSteps (appState ps)) then completed
  else if currentStep ps =? step then current
  else pending.

(** [Math.max(...completedSteps, currentStep)] *)
Definition maxStep (ps : PageState) : nat :=
  foldr Nat.max (currentStep ps) (completedSteps (appState ps)).

Definition canNavigateToStep (step : nat) (ps : PageState) : bool :=
  bool_decide (step ∈ completedSteps (appState ps)) || (step <=? maxStep ps).

(** The [onClick] of a breadcrumb:
    [if (canNavigateToStep(step)) setCurrentStep(step)]. *)
Definition navigateTo (step : nat) (ps : PageState) : PageState :=
  if canNavigateToStep step ps then setCurrentStep step ps else ps.

Definition setFile1Null (st : AppState) : AppState :=
  {| file1 := None; file2 := file2 st; comparison := comparison st;
     scripts := scripts st; queryScript := queryScript st;
     isQueryScript := isQueryScript st; isProcessing := isProcessing st;
     completedSteps := completedSteps st; toasts := toasts st |}.

Definition setFile2Null (st : AppState) : AppState :=
  {| file1 := file1 st; file2 := None; comparison := comparison st;
     scripts := scripts st; queryScript := queryScript st;
     isQueryScript := isQueryScript st; isProcessing := isProcessing st;
     completedSteps := completedSteps st; toasts := toasts st |}.

Definition setComparison (c : option ComparisonResult) (st : AppState)
  : AppState :=
  {| file1 := file1 st; file2 := file2 st; comparison := c;
     scripts := scripts st; queryScript := queryScript st;
     isQueryScript := isQueryScript st; isProcessing := isProcessing st;
     completedSteps := completedSteps st; toasts := toasts st |}.

(** [clearFile(fileNumber)].  The test [!file1 || !file2] reads the two files
    of the render the handler belongs to, that is, of the state before the
    call: [setFile1(null)] does not change them. *)
Definition clearFile (fileNumber : FileNumber) (st : AppState) : AppState :=
  let st1 :=
    match fileNumber with
    | File1 => setIsQueryScript false (setQueryScript "" (setFile1Null st))
    | File2 => setFile2Null st
    end in
  let st2 :=
    match file1 st, file2 st with
    | Some _, Some _ => st1
    | _, _ => setScripts "" (setComparison None st1)
    end in
  let n := match fileNumber with File1 => "1" | File2 => "2" end in
  toast {| title := "Archivo " +:+ n +:+ " eliminado";
           description :=
             "El archivo " +:+ n
             +:+ " ha sido eliminado. Puedes cargar uno nuevo.";
           variant := None |} st2.

(** The page after the comparison of the two sample files. *)
Definition comparedState : AppState :=
  setComparison (Some (compareFiles sampleLeft sampleRight))
    (setFile2 sampleRight (setFile1 sampleLeft initialState)).
(** ** [FileCompress] as the page has it: one list, and a message *)

Module FileCompressPage.

(** The lines of the script [generateValidationScript] hands to
    [setValidationScript] in this revision; [now] is
    [new Date().toLocaleString()]. *)
Definition validationScriptLines (now : string)
    (fileList : list FileCompress.ProcessedFile) : list string :=
  let allInstalaciones := FileCompress.allInstalaciones fileList in
  [ "-- ===========================================";
    "-- SCRIPT DE VALIDACIÓN SIMPLE";
    "-- Fecha: " +:+ now;
    "-- Total instalaciones: " +:+ JsString.ofNat (length allInstalaciones);
    "-- ===========================================";
    "";
    "-- VALIDAR EXISTENCIA EN UTRANSFORMADORA_LT";
    "SELECT ";
    "    instalacao,";
    "    CASE ";
    "        WHEN COUNT(*) > 0 THEN 'EXISTE'";
    "        ELSE 'NO_EXISTE'";
    "    END as estado";
    "FROM EDESURFLX_SGD.UTRANSFORMADORA_LT ";
    "WHERE instalacao IN (" ]
  ++ FileCompress.inListLines "    " true allInstalaciones
  ++ [ ")";
       "GROUP BY instalacao";
       "ORDER BY instalacao;";
       "";
       "-- RESUMEN TOTAL";
       "SELECT ";
       "    COUNT(*) as total_instalaciones,";
       "    SUM(CASE WHEN estado = 'EXISTE' THEN 1 ELSE 0 END) as existentes,";
       "    SUM(CASE WHEN estado = 'NO_EXISTE' THEN 1 ELSE 0 END) as no_existentes";
       "FROM (";
       "    SELECT ";
       "        instalacao,";
       "        CASE ";
       "            WHEN COUNT(*) > 0 THEN 'EXISTE'";
       "            ELSE 'NO_EXISTE'";
       "        END as estado";
       "    FROM EDESURFLX_SGD.UTRANSFORMADORA_LT ";
       "    WHERE instalacao IN (" ]
  ++ FileCompress.inListLines "        " false allInstalaciones
  ++ [ "    )";
       "    GROUP BY instalacao";
       ") subquery;" ].

(** [fileList.reduce((total, file) => total + file.instalaciones.length, 0)] *)
Definition totalInstalaciones (fileList : list FileCompress.ProcessedFile)
  : nat :=
  foldl (fun total file => total + length (FileCompress.instalaciones file))
        0 fileList.

(** [[...new Set(l)]]: the values of [l], each once, in the order they first
    come in. *)
Definition setValues (l : list string) : list string :=
  foldl (fun seen x => if bool_decide (x ∈ seen) then seen else seen ++ [x])
        [] l.

(** The line of one file in the message. *)
Definition fileLine (index : nat) (file : FileCompress.ProcessedFile)
  : string :=
  "• " +:+ JsString.ofNat (index + 1) +:+ ". " +:+ FileCompress.name file
  +:+ " (" +:+ JsString.ofNat (length (FileCompress.instalaciones file))
  +:+ " instalaciones)".

(** The text [generateEmailMessage] hands to [setEmailMessage]. *)
Definition emailMessage (fileList : list FileCompress.ProcessedFile)
  : string :=
  let circuitos := setValues (map FileCompress.circuito fileList) in
  joinLines
    [ "Hola equipo de mantenimiento,";
      "";
      "Necesitamos de su apoyo para ejecutar una actualización de polígonos y celdas en la base de datos.";
      "";
      "📊 RESUMEN DE LA ACTUALIZACIÓN:";
      "• Total de registros a actualizar: "
        +:+ JsString.ofNat (totalInstalaciones fileList);
      "• Archivos procesados: " +:+ JsString.ofNat (length fileList);
      "• Circuitos involucrados: " +:+ String.concat ", " circuitos;
      "";
      "🗄️ DETALLES TÉCNICOS:";
      "• Base de datos: EDESURFLX_SGD";
      "• Esquema: EDESURFLX_SGD";
      "• Tabla: UTRANSFORMADORA_LT";
      "• Campos a actualizar: cod_poligono, cod_celda";
      "";
      "📁 ARCHIVOS INCLUIDOS:";
      joinLines (imap fileLine fileList);
      "";
      "🔍 VALIDACIÓN REQUERIDA:";
      "Se debe ejecutar primero el script de validación para verificar que todas las instalaciones existan en la tabla antes de proceder con la actualización.";
      "";
      "Por favor, confírmenme cuando puedan proceder con esta tarea.";
      "";
      "Saludos cordiales." ].

End FileCompressPage.
(** ** The normaliser of the other revision *)

(** [s.padStart(targetLength, padString)], lengths counted in bytes: the page
    pads strings of digits only. *)
Definition padStart (targetLength : nat) (padString s : string) : string :=
  let stringLength := String.length s in
  if (targetLength <=? stringLength) || (String.length padString =? 0) then s
  else
    let fillLen := targetLength - stringLength in
    String.substring 0 fillLen (JsString.repeat padString fillLen) +:+ s.

(** [normalizeMatricula] as the other revision of the page declares it; the
    argument is the value of [row[...] || ...], a string or [undefined]. *)
Definition normalizeMatricula_padStart (matricula : option string) : string :=
  if negb (JsString.truthy matricula) then ""
  else
    let strMatricula := JsString.trim (default "" matricula) in
    if JsString.isDigits strMatricula then padStart 6 "0" strMatricula
    else strMatricula.

(** ** Reading a workbook, [processExcelFile] *)

(** [s.includes(needle)] *)
Fixpoint includes (needle s : string) : bool :=
  String.prefix needle s
  || match s with
     | EmptyString => false
     | String _ s' => includes needle s'
     end.

(** A cell of the arrays [XLSX.utils.sheet_to_json] returns with [header: 1],
    as far as the page looks at it: [null], [undefined] or a hole; a string;
    a number or a boolean, with the text [toString()] gives; a [Date], with
    the texts of [toString()] and of [toISOString().split('T')[0]]. *)
Inductive Cell :=
| CEmpty
| CString (s : string)
| CValue (text : string)
| CDate (text day : string).

(** [cell.toString()], also [String(cell)], of a cell that is not [CEmpty]. *)
Definition cellText (cell : Cell) : string :=
  match cell with
  | CEmpty => ""
  | CString s => s
  | CValue text => text
  | CDate text _ => text
  end.

(** What [XLSX.read] returns, as far as the page looks at it: the sheet names
    and, for a sheet name, the two arrays of rows the page asks for,
    [sheet_to_json(Sheets[name], { header: 1 })] ([None] when the call throws)
    and [sheet_to_json(Sheets[name], { header: 1, defval: '', blankrows:
    false })] (the message of the error when reading that sheet throws). *)
Record Workbook := {
  SheetNames : list string;
  sheetArrays : string -> option (list (list Cell));
  sheetTable : string -> string + list (list Cell)
}.

(** The uploaded file: its name, the text of
    [(file.size / 1024 / 1024).toFixed(2)], the workbook [XLSX.read] makes of
    it (or the message of the error the reader or [XLSX.read] raises), and the
    text [Math.random().toString(36).substr(2, 5)] gives when it is called for
    the header of column [i]. *)
Record ExcelFile := {
  fileName : string;
  fileSizeMB : string;
  workbook : string + Workbook;
  randomSuffix : nat -> string
}.

(** What the selection of the sheet leaves in its two variables. *)
Record Choice := {
  circuitSheet : string;
  detectionMethod : string
}.

Record ColumnMapping := {
  mapped_matricula : option string;
  mapped_poligono : option string;
  mapped_celda : option string
}.

(** The words looked for in the first row of a sheet and in the headers. *)
Definition sheetMatriculaWords : list string :=
  ["matricula"; "instalacion"; "codigo"; "matrícula"; "id"].
Definition matriculaWords : list string :=
  ["matricula"; "instalacao"; "codigo"; "matrícula"; "id"; "instalacao"].
Definition poligonoWords : list string :=
  ["poligono"; "polígono"; "cod_poligono"; "poligono"].
Definition celdaWords : list string := ["celda"; "cod_celda"; "celda"].

(** [cell !== null && cell !== undefined && cell !== '' &&
    String(cell).trim().length > 0] *)
Definition cellHasData (cell : Cell) : bool :=
  match cell with
  | CEmpty => false
  | CString EmptyString => false
  | _ => 0 <? String.length (JsString.trim (cellText cell))
  end.

(** The test of the filter on the rows under the header. *)
Definition cellHasContent (cell : Cell) : bool :=
  match cell with
  | CEmpty => false
  | _ =>
      let cellStr := JsString.trim (cellText cell) in
      strictNe cellStr "" && strictNe cellStr "null"
      && strictNe cellStr "undefined"
  end.

Definition rowHasContent (row : list Cell) : bool :=
  if length row =? 0 then false else existsb cellHasContent row.

(** [\w] *)
Definition isWord (c : ascii) : bool :=
  let n := nat_of_ascii c in
  ((48 <=? n) && (n <=? 57)) || ((65 <=? n) && (n <=? 90))
  || ((97 <=? n) && (n <=? 122)) || (n =? 95).

(** [s.replace(/\s+/g, ' ')] on the bytes of [s]: a run of white-space codes
    becomes one space.  Every round takes a byte at least, so [length l]
    rounds are enough. *)
Fixpoint collapseSpaces (fuel : nat) (l : list ascii) : list ascii :=
  match fuel with
  | 0 => l
  | S fuel' =>
      match JsString.strip_one JsString.whiteSpace l with
      | Some r =>
          " "%char
          :: collapseSpaces fuel'
               (JsString.strip_all JsString.whiteSpace (length r) r)
      | None =>
          match l with
          | [] => []
          | c :: l' => c :: collapseSpaces fuel' l'
          end
      end
  end.

(** [s.replace(/[^\w\s\-\.]/g, '')] on the bytes of [s]: a white-space code
    stays, and of the other bytes those of [\w], [-] and [.]; the bytes of
    any other character go. *)
Fixpoint removeSpecial (fuel : nat) (l : list ascii) : list ascii :=
  match fuel with
  | 0 => l
  | S fuel' =>
      match l with
      | [] => []
      | c :: l' =>
          match JsString.strip_one JsString.whiteSpace l with
          | Some r => take (length l - length r) l ++ removeSpecial fuel' r
          | None =>
              if isWord c || bool_decide (c = "-"%char)
                 || bool_decide (c = "."%char)
              then c :: removeSpecial fuel' l'
              else removeSpecial fuel' l'
          end
      end
  end.

(** [cleanValue(value, isKeyColumn)] *)
Definition cleanValue (value : Cell) (isKeyColumn : bool) : string :=
  match value with
  | CEmpty => ""
  | _ =>
      let strValue := JsString.trim (cellText value) in
      if String.eqb strValue "N/A" || String.eqb strValue "NULL"
         || String.eqb strValue "undefined"
      then ""
      else if isKeyColumn then strValue
      else
        let l := list_ascii_of_string strValue in
        let collapsed := collapseSpaces (length l) l in
        string_of_list_ascii (removeSpecial (length collapsed) collapsed)
  end.

(** [headers.indexOf(x)]; [None] is [-1]. *)
Fixpoint indexOf (x : string) (l : list string) : option nat :=
  match l with
  | [] => None
  | y :: l' => if decide (y = x) then Some 0 else S <$> indexOf x l'
  end.

(** [row[i]]: [undefined] beyond the end of the row and at [-1]. *)
Definition cellAt (row : list Cell) (i : option nat) : Cell :=
  match i with
  | Some i => default CEmpty (row !! i)
  | None => CEmpty
  end.

(** The names every object literal answers to without holding them: the
    properties of [Object.prototype], all of them truthy. *)
Definition objectPrototypeKeys : list string :=
  ["constructor"; "__defineGetter__"; "__defineSetter__"; "hasOwnProperty";
   "__lookupGetter__"; "__lookupSetter__"; "isPrototypeOf";
   "propertyIsEnumerable"; "toString"; "valueOf"; "__proto__";
   "toLocaleString"].

(** [!obj[header]] for the object a row is built in. *)
Definition unset (obj : Row) (header : string) : bool :=
  match obj !! header with
  | Some v => negb (JsString.nonEmpty v)
  | None => negb (bool_decide (header ∈ objectPrototypeKeys))
  end.

(** [if (columnMapping.k) { obj[key] = cleanValue(row[headers.indexOf(
    columnMapping.k)], true) }] *)
Definition setMapped (key : string) (mapped : option string)
    (headers : list string) (row : list Cell) (obj : Row) : Row :=
  if JsString.truthy mapped then
    let value := cellAt row (indexOf (default "" mapped) headers) in
    <[key := cleanValue value true]> obj
  else obj.

(** One round of [headers.forEach((header, colIndex) => ...)]. *)
Definition addColumn (row : list Cell) (obj : Row) (colIndex : nat)
    (header : string) : Row :=
  if unset obj header then
    let value := default CEmpty (row !! colIndex) in
    match value with
    | CDate _ day => <[header := day]> obj
    | _ => <[header := cleanValue value false]> obj
    end
  else obj.

Fixpoint addColumns (row : list Cell) (colIndex : nat) (headers : list string)
    (obj : Row) : Row :=
  match headers with
  | [] => obj
  | header :: rest =>
      addColumns row (S colIndex) rest (addColumn row obj colIndex header)
  end.

(** The body of [rows.map((row, index) => ...)]. *)
Definition buildRow (headers : list string) (columnMapping : ColumnMapping)
    (row : list Cell) : Row :=
  let obj1 :=
    setMapped "MATRICULA" (mapped_matricula columnMapping) headers row ∅ in
  let obj2 :=
    setMapped "CODIGO POLIGONO" (mapped_poligono columnMapping) headers row
      obj1 in
  let obj3 :=
    setMapped "CODIGO CELDA" (mapped_celda columnMapping) headers row obj2 in
  addColumns row 0 headers obj3.

(** [header?.toString() || `Columna_${Math.random()...}`] *)
Definition headerName (random : nat -> string) (i : nat) (header : Cell)
  : string :=
  orDefault (cellText header) ("Columna_" +:+ random i).

(** The notice [processExcelFile] shows once the sheet is chosen. *)
Definition sheetToast (choice : Choice) : Toast :=
  {| title := "Hoja detectada";
     description :=
       "Se seleccionó la hoja " +:+ dq +:+ circuitSheet choice +:+ dq
       +:+ " (" +:+ detectionMethod choice
       +:+ "). Si no es la correcta, puedes seleccionar otra manualmente.";
     variant := None |}.

(** One of the loops [for (const name of workbook.SheetNames) { if (test)
    { circuitSheet = name; detectionMethod = method; break } }]. *)
Definition firstWhere (test : string -> bool) (method : string)
    (names : list string) (choice : Choice) : Choice :=
  match List.find test names with
  | Some name => {| circuitSheet := name; detectionMethod := method |}
  | None => choice
  end.

Section Reading.

(** [String.prototype.toLowerCase] is left to the host. *)
Variable toLowerCase : string -> string.

(** [s.toLowerCase().includes(w)] for one of the words [w]. *)
Definition mentions (words : list string) (s : string) : bool :=
  existsb (fun word => includes word (toLowerCase s)) words.

(** [cell && typeof cell === 'string' && (...)] *)
Definition isStringWith (words : list string) (cell : Cell) : bool :=
  match cell with
  | CString s => JsString.nonEmpty s && mentions words s
  | _ => false
  end.

Definition detectValidSheet (wb : Workbook) (sheetName : string) : bool :=
  match sheetArrays wb sheetName with
  | None => false
  | Some jsonData =>
      if length jsonData <? 3 then false
      else
        match jsonData with
        | [] => false
        | firstRow :: _ =>
            if length firstRow <? 3 then false
            else
              let hasMatricula :=
                existsb (isStringWith sheetMatriculaWords) firstRow in
              let hasPoligono :=
                existsb (isStringWith poligonoWords) firstRow in
              let hasCelda := existsb (isStringWith celdaWords) firstRow in
              let keyColumnsFound :=
                length (List.filter id [hasMatricula; hasPoligono; hasCelda])
              in
              if 2 <=? keyColumnsFound then
                (* rows 1 to min(5, jsonData.length) - 1 *)
                existsb
                  (fun row =>
                     (0 <? length row) && existsb cellHasData row)
                  (take 4 (drop 1 jsonData))
              else false
        end
  end.

(** [h && typeof h === 'string' && (...)]: the headers are strings. *)
Definition headerWith (words : list string) (h : string) : bool :=
  JsString.nonEmpty h && mentions words h.

Definition mapColumns (headers : list string) : ColumnMapping :=
  {| mapped_matricula := List.find (headerWith matriculaWords) headers;
     mapped_poligono := List.find (headerWith poligonoWords) headers;
     mapped_celda := List.find (headerWith celdaWords) headers |}.

(** [!name.toLowerCase().includes('hoja') && !/^\d+$/.test(name) &&
    !name.toLowerCase().includes('sheet')] *)
Definition specificName (name : string) : bool :=
  negb (includes "hoja" (toLowerCase name))
  && negb (JsString.isDigits name)
  && negb (includes "sheet" (toLowerCase name)).

(** The five steps that choose the sheet; the workbook has a sheet, so that
    [SheetNames[0]] is defined. *)
Definition chooseSheet (wb : Workbook) : Choice :=
  let names := SheetNames wb in
  let c0 := {| circuitSheet := ""; detectionMethod := "" |} in
  let c1 := firstWhere (detectValidSheet wb) "contenido_válido" names c0 in
  let c2 :=
    if negb (JsString.nonEmpty (circuitSheet c1)) then
      firstWhere (fun name => specificName name && detectValidSheet wb name)
        "nombre_específico_con_validación" names c1
    else c1 in
  let c3 :=
    if negb (JsString.nonEmpty (circuitSheet c2)) then
      firstWhere specificName "nombre_específico_sin_validación" names c2
    else c2 in
  let c4 :=
    if negb (JsString.nonEmpty (circuitSheet c3)) && (1 <? length names) then
      {| circuitSheet := default "" (names !! 1);
         detectionMethod := "segunda_hoja" |}
    else c3 in
  if negb (JsString.nonEmpty (circuitSheet c4)) then
    {| circuitSheet := default "" (names !! 0);
       detectionMethod := "primera_hoja" |}
  else c4.

(** [processExcelFile(file)]: the notices shown, and the value the promise
    resolves to or the message of the error it rejects with. *)
Definition processExcelFile (file : ExcelFile)
  : list Toast * (string + FileData) :=
  match workbook file with
  | inl message => ([], inl message)
  | inr wb =>
      if length (SheetNames wb) =? 0 then
        ([], inl "El archivo Excel no contiene hojas")
      else
        let choice := chooseSheet wb in
        let sheetName := circuitSheet choice in
        match sheetTable wb sheetName with
        | inl message => ([sheetToast choice], inl message)
        | inr [] => ([sheetToast choice], inl "El archivo Excel está vacío")
        | inr (headerRow :: rest) =>
            let headers := imap (headerName (randomSuffix file)) headerRow in
            let columnMapping := mapColumns headers in
            let rows := List.filter rowHasContent rest in
            let processedData := map (buildRow headers columnMapping) rows in
            ([sheetToast choice],
             inr {| name := fileName file;
                    size := fileSizeMB file +:+ " MB";
                    records := length processedData;
                    columns := headers;
                    data := processedData;
                    hojaProcesada := sheetName;
                    hojasDisponibles := SheetNames wb |})
        end
  end.

(** [handleFileUpload(fileNumber, event)], [file] being
    [event.target.files?.[0]].  The test on the other file reads the state of
    the render the handler belongs to. *)
Definition handleFileUpload (fileNumber : FileNumber)
    (file : option ExcelFile) (ps : PageState) : PageState :=
  match file with
  | None => ps
  | Some file =>
      let '(notices, result) := processExcelFile file in
      let st1 :=
        foldl (fun st t => toast t st)
          (setIsProcessing true (appState ps)) notices in
      let ps2 :=
        match result with
        | inr processedData =>
            let st2 :=
              match fileNumber with
              | File1 => setFile1 processedData st1
              | File2 => setFile2 processedData st1
              end in
            let st3 :=
              toast
                {| title := "Archivo procesado exitosamente";
                   description :=
                     fileName file +:+ " ha sido cargado y analizado. "
                     +:+ JsString.ofNat (records processedData)
                     +:+ " registros encontrados.";
                   variant := None |} st2 in
            let ps3 := {| appState := st3; currentStep := currentStep ps |} in
            let other :=
              match fileNumber with
              | File1 => file2 (appState ps)
              | File2 => file1 (appState ps)
              end in
            match other with
            | Some _ => updateStep 2 ps3
            | None => ps3
            end
        | inl message =>
            {| appState :=
                 toast
                   {| title := "Error al procesar archivo";
                      description :=
                        orDefault message
                          "No se pudo procesar el archivo Excel. Verifica que el archivo tenga al menos 2 hojas.";
                      variant := Some "destructive" |} st1;
               currentStep := currentStep ps |}
        end in
      {| appState := setIsProcessing false (appState ps2);
         currentStep := currentStep ps2 |}
  end.

End Reading.

(** A lowering of the letters [A] to [Z], for the examples. *)
Definition lowerAscii (c : ascii) : ascii :=
  let n := nat_of_ascii c in
  if (65 <=? n) && (n <=? 90) then ascii_of_nat (n + 32) else c.

Definition asciiLower (s : string) : string :=
  string_of_list_ascii (map lowerAscii (list_ascii_of_string s)).

(** A workbook with an empty first sheet and the circuit in the second, and
    its upload. *)
Definition sampleSheet : list (list Cell) :=
  [ [CString "MATRICULA"; CString "CODIGO POLIGONO"; CString "CODIGO CELDA"];
    [CValue "517"; CString "P1"; CString "C1"];
    [CString " 000123 "; CString "N/A"; CString "C2"] ].

Definition sampleWorkbook : Workbook :=
  {| SheetNames := ["Hoja1"; "LPRA110"];
     sheetArrays :=
       fun name => if decide (name = "LPRA110") then Some sampleSheet
                   else Some [];
     sheetTable :=
       fun name => if decide (name = "LPRA110") then inr sampleSheet
                   else inr [] |}.

Definition sampleUpload : ExcelFile :=
  {| fileName := "circuito.xlsx";
     fileSizeMB := "0.01";
     workbook := inr sampleWorkbook;
     randomSuffix := fun _ => "k3x9q" |}.

(** Headers with the polygon code first. *)
Definition codesFirst : list string :=
  ["CODIGO POLIGONO"; "CODIGO CELDA"; "MATRICULA"].

(** [value instanceof Date] *)
Definition isDate (cell : Cell) : bool :=
  match cell with CDate _ _ => true | _ => false end.

(** The page with file 2 loaded, before file 1 is chosen. *)
Definition uploadPage : PageState :=
  {| appState := setFile2 sampleRight initialState; currentStep := 1 |}.

(** * Properties *)

(** ** Trimming *)

Section Strip.

Context (codes : list (list ascii)).

Lemma strip_code_Some w l r : JsString.strip_code w l = Some r <-> l = w ++ r.
Proof.
  revert l; induction w as [|a w IH]; intros [|b l]; simpl.
  - split; congruence.
  - split; congruence.
  - split; [discriminate | intros [=]].
  - case_decide as Hab.
    + subst b. rewrite IH. split; [intros ->; reflexivity | intros [=]; assumption].
    + split; [discriminate | intros [=]; congruence].
Qed.

Lemma strip_one_Some l r :
  JsString.strip_one codes l = Some r -> exists w, w ∈ codes /\ l = w ++ r.
Proof.
  induction codes as [|w ws IH]; simpl; [discriminate|].
  destruct (JsString.strip_code w l) as [r'|] eqn:Hw.
  - intros [= ->]. exists w. split; [left | by apply strip_code_Some].
  - intros H. destruct (IH H) as (w' & Hin & ->).
    exists w'. split; [by right | reflexivity].
Qed.

Lemma strip_one_None l :
  JsString.strip_one codes l = None <-> Forall (fun w => ~ w `prefix_of` l) codes.
Proof.
  induction codes as [|w ws IH]; simpl.
  - split; [constructor | reflexivity].
  - rewrite Forall_cons.
    destruct (JsString.strip_code w l) as [r|] eqn:Hw.
    + apply strip_code_Some in Hw.
      split; [discriminate | intros [Hn _]; destruct Hn; by exists r].
    + rewrite IH. split; [|tauto].
      intros H; split; [|assumption].
      intros [k Hk]. apply strip_code_Some in Hk. congruence.
Qed.

Lemma strip_one_None_prefix l t :
  JsString.strip_one codes (l ++ t) = None -> JsString.strip_one codes l = None.
Proof.
  rewrite !strip_one_None. intros H. eapply Forall_impl; [exact H|].
  intros w Hn Hp. apply Hn. by apply prefix_app_r.
Qed.

Lemma strip_all_suffix n l : JsString.strip_all codes n l `suffix_of` l.
Proof.
  revert l; induction n as [|n IH]; intros l; simpl; [reflexivity|].
  destruct (JsString.strip_one codes l) as [r|] eqn:Hr; [|reflexivity].
  destruct (strip_one_Some _ _ Hr) as (w & _ & ->).
  etrans; [apply IH | by apply suffix_app_r].
Qed.

Lemma strip_all_id n l :
  JsString.strip_one codes l = None -> JsString.strip_all codes n l = l.
Proof. intros H. destruct n; simpl; [reflexivity | by rewrite H]. Qed.

Lemma strip_all_done n l :
  Forall (fun w => w <> []) codes ->
  length l <= n ->
  JsString.strip_one codes (JsString.strip_all codes n l) = None.
Proof.
  intros Hne. revert l; induction n as [|n IH]; intros l Hlen; simpl.
  - destruct l; [|simpl in Hlen; lia].
    apply strip_one_None. eapply Forall_impl; [exact Hne|].
    intros w Hw [k Hk]. destruct w; [congruence | discriminate].
  - destruct (JsString.strip_one codes l) as [r|] eqn:Hr; [|assumption].
    destruct (strip_one_Some _ _ Hr) as (w & Hin & ->).
    apply IH. rewrite Forall_forall in Hne. specialize (Hne w Hin).
    rewrite length_app in Hlen. destruct w; [congruence|]. simpl in Hlen. lia.
Qed.

(** No code starts with the byte [c]: a string that starts with [c] loses
    nothing. *)
Lemma strip_one_head c l :
  Forall (fun w => exists a, head w = Some a /\ a <> c) codes ->
  JsString.strip_one codes (c :: l) = None.
Proof.
  intros H. apply strip_one_None. eapply Forall_impl; [exact H|].
  intros [|a w] (a' & Ha & Hne) [k Hk]; simpl in *; congruence.
Qed.

End Strip.

Lemma whiteSpace_head :
  Forall (fun w => exists a, head w = Some a /\ JsString.isDigit a = false)
         JsString.whiteSpace.
Proof. repeat constructor; eexists; split; reflexivity. Qed.

Lemma whiteSpaceRev_head :
  Forall (fun w => exists a, head w = Some a /\ JsString.isDigit a = false)
         JsString.whiteSpaceRev.
Proof. repeat constructor; eexists; split; reflexivity. Qed.

Lemma head_nonempty (codes : list (list ascii)) (P : ascii -> Prop) :
  Forall (fun w => exists a, head w = Some a /\ P a) codes ->
  Forall (fun w => w <> []) codes.
Proof.
  intros H. eapply Forall_impl; [exact H|].
  intros [|a w] (a' & Ha & _); [discriminate | discriminate].
Qed.

Lemma trimStart_done l :
  JsString.strip_one JsString.whiteSpace (JsString.trimStart l) = None.
Proof.
  apply strip_all_done; [|reflexivity].
  exact (head_nonempty _ _ whiteSpace_head).
Qed.

Lemma trimEnd_done l :
  JsString.strip_one JsString.whiteSpaceRev (rev (JsString.trimEnd l)) = None.
Proof.
  unfold JsString.trimEnd. rewrite rev_involutive.
  apply strip_all_done; [|by rewrite length_rev].
  exact (head_nonempty _ _ whiteSpaceRev_head).
Qed.

Lemma trimEnd_prefix l : JsString.trimEnd l `prefix_of` l.
Proof.
  unfold JsString.trimEnd.
  destruct (strip_all_suffix JsString.whiteSpaceRev (length l) (rev l))
    as [k Hk].
  exists (rev k). apply (f_equal (@rev ascii)) in Hk.
  rewrite rev_involutive, rev_app_distr in Hk. exact Hk.
Qed.

(** A string with no white space at either end is left alone. *)
Lemma trim_fixed l :
  JsString.strip_one JsString.whiteSpace l = None ->
  JsString.strip_one JsString.whiteSpaceRev (rev l) = None ->
  JsString.trimEnd (JsString.trimStart l) = l.
Proof.
  intros Hs He. unfold JsString.trimStart. rewrite strip_all_id by assumption.
  unfold JsString.trimEnd. rewrite strip_all_id by assumption.
  apply rev_involutive.
Qed.

Lemma trim_list_idemp l :
  let t := JsString.trimEnd (JsString.trimStart l) in
  JsString.trimEnd (JsString.trimStart t) = t.
Proof.
  intros t. apply trim_fixed.
  - destruct (trimEnd_prefix (JsString.trimStart l)) as [k Hk].
    apply strip_one_None_prefix with k. fold t in Hk. rewrite <- Hk.
    apply trimStart_done.
  - apply trimEnd_done.
Qed.

Lemma trim_idemp s : JsString.trim (JsString.trim s) = JsString.trim s.
Proof.
  unfold JsString.trim. rewrite list_ascii_of_string_of_list_ascii.
  f_equal. apply trim_list_idemp.
Qed.

Lemma isDigit_ne a c :
  JsString.isDigit a = false -> JsString.isDigit c = true -> a <> c.
Proof. intros Ha Hc ->. congruence. Qed.

Lemma strip_digit codes c l :
  Forall (fun w => exists a, head w = Some a /\ JsString.isDigit a = false)
         codes ->
  JsString.isDigit c = true ->
  JsString.strip_one codes (c :: l) = None.
Proof.
  intros H Hc. apply strip_one_head. eapply Forall_impl; [exact H|].
  intros w (a & Ha & Hd). exists a. split; [assumption|].
  by apply isDigit_ne.
Qed.

Lemma isDigits_spec s :
  JsString.isDigits s = true <->
  s <> "" /\ Forall (fun c => JsString.isDigit c = true) (list_ascii_of_string s).
Proof.
  unfold JsString.isDigits. destruct s as [|c s].
  - split; [discriminate | intros [H _]; congruence].
  - rewrite forallb_forall, Forall_forall.
    split.
    + intros H; split; [discriminate|]. intros x Hx. apply H.
      by apply list_elem_of_In.
    + intros [_ H] x Hx. apply H. by apply list_elem_of_In.
Qed.

(** A string of digits has no white space to lose. *)
Lemma trim_digits s : JsString.isDigits s = true -> JsString.trim s = s.
Proof.
  intros [Hne Hall]%isDigits_spec. unfold JsString.trim.
  rewrite trim_fixed; [apply string_of_list_ascii_of_string | |].
  - destruct s as [|c s]; [congruence|].
    cbn [list_ascii_of_string] in *.
    apply strip_digit; [apply whiteSpace_head|]. by inversion Hall.
  - destruct (rev (list_ascii_of_string s)) as [|c r] eqn:Hr.
    + apply (f_equal (@rev ascii)) in Hr. rewrite rev_involutive in Hr.
      destruct s; [congruence | discriminate].
    + apply strip_digit; [apply whiteSpaceRev_head|].
      rewrite Forall_forall in Hall. apply Hall.
      apply list_elem_of_In, in_rev. rewrite Hr. by left.
Qed.

(** ** The key normaliser *)

Lemma string_length_app (s t : string) :
  String.length (s +:+ t) = String.length s + String.length t.
Proof. induction s as [|c s IH]; simpl; [reflexivity | by rewrite IH]. Qed.

Lemma list_ascii_of_string_app (s t : string) :
  list_ascii_of_string (s +:+ t)
  = list_ascii_of_string s ++ list_ascii_of_string t.
Proof. induction s as [|c s IH]; simpl; [reflexivity | by rewrite IH]. Qed.

Lemma repeat_zero_length n : String.length (JsString.repeat "0" n) = n.
Proof.
  induction n as [|n IH]; simpl; [reflexivity|].
  rewrite string_length_app, IH. reflexivity.
Qed.

Lemma repeat_zero_digits n :
  Forall (fun c => JsString.isDigit c = true)
         (list_ascii_of_string (JsString.repeat "0" n)).
Proof.
  induction n as [|n IH]; simpl; [constructor|].
  rewrite list_ascii_of_string_app. constructor; [reflexivity | exact IH].
Qed.

Lemma isDigits_pad n t :
  JsString.isDigits t = true ->
  JsString.isDigits (JsString.repeat "0" n +:+ t) = true.
Proof.
  rewrite !isDigits_spec. intros [Hne Hall]. split.
  - destruct n; simpl; [assumption | discriminate].
  - rewrite list_ascii_of_string_app, Forall_app.
    split; [apply repeat_zero_digits | assumption].
Qed.

(** What the normaliser returns, by the two tests it makes on the trimmed
    value. *)
Lemma normalizeMatricula_cases raw :
  let t := JsString.trim raw in
  normalizeMatricula raw =
    if JsString.isDigits t && (String.length t <? 6)
    then JsString.repeat "0" (6 - String.length t) +:+ t
    else t.
Proof.
  intros t. unfold normalizeMatricula. fold t.
  destruct (JsString.isDigits t), (String.length t <? 6); reflexivity.
Qed.

(** C2. The normaliser trims the raw value; a trimmed value made of digits
    only (at least one, the test being [/^\d+$/]) and shorter than six
    characters is padded on the left with ['0'] to exactly six characters;
    every other trimmed value, not numeric or of six characters and more, is
    returned as it is, so that longer digit strings are not cut. *)
Theorem normalizeMatricula_rule (raw : string) :
  let t := JsString.trim raw in
  (JsString.isDigits t = true -> String.length t < 6 ->
     normalizeMatricula raw = JsString.repeat "0" (6 - String.length t) +:+ t
     /\ String.length (normalizeMatricula raw) = 6)
  /\ (JsString.isDigits t = false -> normalizeMatricula raw = t)
  /\ (6 <= String.length t -> normalizeMatricula raw = t).
Proof.
  intros t. pose proof (normalizeMatricula_cases raw) as H. fold t in H.
  cbv zeta in H. split; [|split].
  - intros Hd Hl. rewrite H, Hd.
    destruct (Nat.ltb_spec (String.length t) 6) as [_|]; [|lia]. simpl.
    split; [reflexivity|].
    rewrite string_length_app, repeat_zero_length. lia.
  - intros Hd. by rewrite H, Hd.
  - intros Hl. rewrite H.
    destruct (Nat.ltb_spec (String.length t) 6) as [|_]; [lia|].
    by rewrite andb_false_r.
Qed.

Lemma normalizeMatricula_rule_witness :
  (normalizeMatricula " 517 " = "000517"
   /\ String.length (normalizeMatricula " 517 ") = 6)
  /\ normalizeMatricula " AB12" = "AB12"
  /\ normalizeMatricula "1234567 " = "1234567".
Proof.
  split; [|split].
  - apply (proj1 (normalizeMatricula_rule " 517 ")); [reflexivity | simpl; lia].
  - apply (proj1 (proj2 (normalizeMatricula_rule " AB12"))); reflexivity.
  - apply (proj2 (proj2 (normalizeMatricula_rule "1234567 "))). simpl. lia.
Defined.

(** C9. Normalising twice is normalising once; a string of digits shorter than
    six characters is normalised to exactly six characters; ["517"] becomes
    ["000517"], while ["031517"], ["1234567"] and ["AB12"] stay as they are. *)
Theorem normalizeMatricula_idempotent (s : string) :
  normalizeMatricula (normalizeMatricula s) = normalizeMatricula s
  /\ (JsString.isDigits s = true -> String.length s < 6 ->
        String.length (normalizeMatricula s) = 6)
  /\ normalizeMatricula "517" = "000517"
  /\ normalizeMatricula "031517" = "031517"
  /\ normalizeMatricula "1234567" = "1234567"
  /\ normalizeMatricula "AB12" = "AB12".
Proof.
  split; [|split; [|repeat split; reflexivity]].
  - rewrite (normalizeMatricula_cases s). cbv zeta.
    set (t := JsString.trim s).
    destruct (JsString.isDigits t) eqn:Hd;
      [destruct (Nat.ltb_spec (String.length t) 6) as [Hl|Hl]|]; simpl.
    + set (r := JsString.repeat "0" (6 - String.length t) +:+ t).
      assert (Hr : JsString.isDigits r = true) by by apply isDigits_pad.
      assert (Hlen : String.length r = 6).
      { unfold r. rewrite string_length_app, repeat_zero_length. lia. }
      rewrite normalizeMatricula_cases. cbv zeta.
      rewrite (trim_digits r Hr), Hr, Hlen. reflexivity.
    + rewrite normalizeMatricula_cases. cbv zeta. unfold t.
      rewrite trim_idemp. fold t. rewrite Hd.
      destruct (Nat.ltb_spec (String.length t) 6); [lia | reflexivity].
    + rewrite normalizeMatricula_cases. cbv zeta. unfold t.
      rewrite trim_idemp. fold t. by rewrite Hd.
  - intros Hd Hl.
    pose proof (normalizeMatricula_rule s) as [H _]. cbv zeta in H.
    rewrite (trim_digits s Hd) in H. by destruct (H Hd Hl).
Qed.

Lemma normalizeMatricula_idempotent_witness :
  normalizeMatricula (normalizeMatricula "42") = normalizeMatricula "42"
  /\ String.length (normalizeMatricula "42") = 6.
Proof.
  pose proof (normalizeMatricula_idempotent "42") as (H1 & H2 & _).
  split; [exact H1 | apply H2; [reflexivity | simpl; lia]].
Defined.

(** ** Insertion-ordered maps *)

Section JsMapFacts.

Context {V : Type}.
Implicit Types (m : JsMap.t V) (k : string) (v : V).

Lemma get_set k k' v m :
  JsMap.get k' (JsMap.set k v m)
  = if decide (k' = k) then Some v else JsMap.get k' m.
Proof.
  induction m as [|[k0 v0] m IH]; simpl.
  - reflexivity.
  - destruct (decide (k = k0)) as [->|Hk]; simpl.
    + destruct (decide (k' = k0)); reflexivity.
    + rewrite IH. destruct (decide (k' = k0)) as [->|]; [|reflexivity].
      destruct (decide (k0 = k)); [congruence | reflexivity].
Qed.

Lemma get_None k m : JsMap.get k m = None <-> k ∉ JsMap.keys m.
Proof.
  unfold JsMap.keys. induction m as [|[k0 v0] m IH]; csimpl.
  - split; [intros _; apply not_elem_of_nil | reflexivity].
  - rewrite not_elem_of_cons. destruct (decide (k = k0)) as [->|Hk].
    + split; [discriminate | intros [? _]; congruence].
    + rewrite IH. tauto.
Qed.

Lemma get_Some_elem k v m : JsMap.get k m = Some v -> (k, v) ∈ m.
Proof.
  induction m as [|[k0 v0] m IH]; simpl; [discriminate|].
  destruct (decide (k = k0)) as [->|Hk].
  - intros [= ->]. left.
  - intros H. right. by apply IH.
Qed.

Lemma keys_set k v m :
  JsMap.keys (JsMap.set k v m)
  = if JsMap.has k m then JsMap.keys m else JsMap.keys m ++ [k].
Proof.
  unfold JsMap.keys, JsMap.has. induction m as [|[k0 v0] m IH]; csimpl.
  - reflexivity.
  - destruct (decide (k = k0)) as [->|Hk]; csimpl; [reflexivity|].
    rewrite IH. destruct (JsMap.get k m); reflexivity.
Qed.

Lemma has_true k m : JsMap.has k m = true <-> k ∈ JsMap.keys m.
Proof.
  unfold JsMap.has. destruct (JsMap.get k m) eqn:H.
  - split; [intros _ | reflexivity].
    destruct (decide (k ∈ JsMap.keys m)) as [|Hn]; [assumption|].
    apply get_None in Hn. congruence.
  - apply get_None in H. split; [discriminate | tauto].
Qed.

Lemma NoDup_keys_set k v m :
  NoDup (JsMap.keys m) -> NoDup (JsMap.keys (JsMap.set k v m)).
Proof.
  intros Hnd. rewrite keys_set. destruct (JsMap.has k m) eqn:Hh; [assumption|].
  apply NoDup_app. split; [assumption|]. split; [|apply NoDup_singleton].
  intros x Hx ->%list_elem_of_singleton.
  apply has_true in Hx. congruence.
Qed.

End JsMapFacts.

Lemma indexFile_NoDup rows : NoDup (JsMap.keys (indexFile rows)).
Proof.
  unfold indexFile.
  assert (H : forall m, NoDup (JsMap.keys m) ->
                        NoDup (JsMap.keys (foldl indexRow m rows))).
  { induction rows as [|row rows IH]; intros m Hm; simpl; [assumption|].
    apply IH. unfold indexRow.
    destruct (JsString.truthy (rowMatricula row)); [|assumption].
    by apply NoDup_keys_set. }
  apply H. constructor.
Qed.

(** A row without a truthy [MATRICULA] value leaves the map as it is. *)
Lemma indexRow_skip m row :
  JsString.truthy (rowMatricula row) = false -> indexRow m row = m.
Proof. unfold indexRow. by intros ->. Qed.

(** ** The reconciler as two passes *)

Lemma compareLeft_acc m2 acc e :
  compareLeft m2 acc e
  = {| t_matching := t_matching acc + countedLeft m2 e;
       t_nonMatching := t_nonMatching acc + length (pushedLeft m2 e);
       t_differences := t_differences acc ++ pushedLeft m2 e |}.
Proof.
  unfold countedLeft, pushedLeft, compareLeft. destruct e as [k row1].
  destruct acc as [a b ds]. simpl.
  destruct (JsMap.get k m2) as [row2|]; simpl.
  - destruct (strictNe (rowPoligono row1) (rowPoligono row2)
              || strictNe (rowCelda row1) (rowCelda row2)); simpl.
    + f_equal; lia.
    + rewrite app_nil_r. f_equal; lia.
  - f_equal; lia.
Qed.

Lemma compareRight_acc m1 acc e :
  compareRight m1 acc e
  = {| t_matching := t_matching acc;
       t_nonMatching := t_nonMatching acc + length (pushedRight m1 e);
       t_differences := t_differences acc ++ pushedRight m1 e |}.
Proof.
  unfold pushedRight, compareRight. destruct e as [k row2].
  destruct acc as [a b ds]. simpl.
  destruct (JsMap.has k m1); simpl.
  - rewrite app_nil_r. f_equal; lia.
  - f_equal; lia.
Qed.

Lemma foldl_compareLeft m2 l acc :
  foldl (compareLeft m2) acc l
  = {| t_matching := t_matching acc + sum_list (map (countedLeft m2) l);
       t_nonMatching :=
         t_nonMatching acc + length (flat_map (pushedLeft m2) l);
       t_differences := t_differences acc ++ flat_map (pushedLeft m2) l |}.
Proof.
  revert acc; induction l as [|e l IH]; intros acc; simpl.
  - destruct acc; simpl. rewrite app_nil_r. f_equal; lia.
  - rewrite IH, compareLeft_acc. simpl.
    rewrite length_app, app_assoc. f_equal; lia.
Qed.

Lemma foldl_compareRight m1 l acc :
  foldl (compareRight m1) acc l
  = {| t_matching := t_matching acc;
       t_nonMatching :=
         t_nonMatching acc + length (flat_map (pushedRight m1) l);
       t_differences := t_differences acc ++ flat_map (pushedRight m1) l |}.
Proof.
  revert acc; induction l as [|e l IH]; intros acc; simpl.
  - destruct acc; simpl. rewrite app_nil_r. f_equal; lia.
  - rewrite IH, compareRight_acc. simpl.
    rewrite length_app, app_assoc. f_equal; lia.
Qed.

(** The result of [compareFiles], pass by pass. *)
Lemma compareFiles_passes f1 f2 :
  let m1 := indexFile (data f1) in
  let m2 := indexFile (data f2) in
  differences (compareFiles f1 f2)
    = flat_map (pushedLeft m2) m1 ++ flat_map (pushedRight m1) m2
  /\ matching (compareFiles f1 f2) = sum_list (map (countedLeft m2) m1)
  /\ nonMatching (compareFiles f1 f2)
     = length (differences (compareFiles f1 f2)).
Proof.
  intros m1 m2. unfold compareFiles. fold m1 m2.
  rewrite foldl_compareRight, foldl_compareLeft. simpl.
  rewrite length_app. repeat split; lia.
Qed.

Lemma pushedLeft_key m2 e d : d ∈ pushedLeft m2 e -> matricula d = e.1.
Proof.
  unfold pushedLeft, compareLeft. destruct e as [k row1]. simpl.
  destruct (JsMap.get k m2) as [row2|]; simpl.
  - destruct (strictNe (rowPoligono row1) (rowPoligono row2)
              || strictNe (rowCelda row1) (rowCelda row2)); simpl.
    + by intros ->%list_elem_of_singleton.
    + by intros ?%elem_of_nil.
  - by intros ->%list_elem_of_singleton.
Qed.

Lemma pushedRight_key m1 e d : d ∈ pushedRight m1 e -> matricula d = e.1.
Proof.
  unfold pushedRight, compareRight. destruct e as [k row2]. simpl.
  destruct (JsMap.has k m1); simpl.
  - by intros ?%elem_of_nil.
  - by intros ->%list_elem_of_singleton.
Qed.

Lemma entriesFor_all k ds :
  (forall d, d ∈ ds -> matricula d = k) -> entriesFor k ds = ds.
Proof.
  unfold entriesFor. induction ds as [|d ds IH]; intros H; [reflexivity|].
  rewrite filter_cons_True by (apply H; left).
  f_equal. apply IH. intros d' Hd'. apply H. by right.
Qed.

Lemma entriesFor_none k ds :
  (forall d, d ∈ ds -> matricula d <> k) -> entriesFor k ds = [].
Proof.
  unfold entriesFor. induction ds as [|d ds IH]; intros H; [reflexivity|].
  rewrite filter_cons_False by (apply H; left).
  apply IH. intros d' Hd'. apply H. by right.
Qed.

Lemma entriesFor_app k ds1 ds2 :
  entriesFor k (ds1 ++ ds2) = entriesFor k ds1 ++ entriesFor k ds2.
Proof. apply filter_app. Qed.

(** In a pass over a map, the entries that carry [k] are those pushed in the
    round of [k]. *)
Lemma entriesFor_pass (f : string * Row -> list DiffEntry) (m : JsMap.t Row) k :
  (forall e d, d ∈ f e -> matricula d = e.1) ->
  NoDup (JsMap.keys m) ->
  entriesFor k (flat_map f m)
  = match JsMap.get k m with Some row => f (k, row) | None => [] end.
Proof.
  intros Hf. unfold JsMap.keys.
  induction m as [|[k0 row0] m IH]; csimpl; [reflexivity|].
  intros [Hk0 Hnd]%NoDup_cons. rewrite entriesFor_app.
  destruct (decide (k = k0)) as [->|Hk].
  - rewrite (entriesFor_all k0 (f (k0, row0))) by (intros d Hd; exact (Hf _ _ Hd)).
    rewrite (IH Hnd). apply get_None in Hk0. rewrite Hk0. apply app_nil_r.
  - rewrite (entriesFor_none k (f (k0, row0))).
    + by rewrite (IH Hnd).
    + intros d Hd. rewrite (Hf _ _ Hd). simpl. congruence.
Qed.

(** The entries of the comparison that carry a given key. *)
Lemma compareFiles_entriesFor f1 f2 k :
  let m1 := indexFile (data f1) in
  let m2 := indexFile (data f2) in
  entriesFor k (differences (compareFiles f1 f2))
  = match JsMap.get k m1 with
    | Some row1 => pushedLeft m2 (k, row1)
    | None =>
        match JsMap.get k m2 with
        | Some row2 => pushedRight m1 (k, row2)
        | None => []
        end
    end.
Proof.
  intros m1 m2. destruct (compareFiles_passes f1 f2) as (-> & _ & _).
  fold m1 m2. rewrite entriesFor_app.
  rewrite (entriesFor_pass (pushedLeft m2)), (entriesFor_pass (pushedRight m1));
    [|apply pushedRight_key | apply indexFile_NoDup
     |apply pushedLeft_key | apply indexFile_NoDup].
  destruct (JsMap.get k m1) as [row1|] eqn:H1.
  - destruct (JsMap.get k m2) as [row2|] eqn:H2; [|apply app_nil_r].
    unfold pushedRight, compareRight, JsMap.has. rewrite H1. apply app_nil_r.
  - reflexivity.
Qed.

(** ** Classification *)

Lemma strictNe_true a b : strictNe a b = true <-> a <> b.
Proof. unfold strictNe. rewrite negb_true_iff. apply String.eqb_neq. Qed.

Lemma strictNe_false a b : strictNe a b = false <-> a = b.
Proof. unfold strictNe. rewrite negb_false_iff. apply String.eqb_eq. Qed.

(** C1. For two datasets and a normalised id [k], the entries of the result
    that carry [k] are: one entry [actualizar_poligono] when both maps hold
    [k] and only the polygon code differs, one entry [actualizar_celda] when
    only the cell code differs, one entry [actualizar_ambos] when both differ,
    none when neither differs; one entry [nuevo_registro] when only the left
    map holds [k]; one entry [sin_cambios] when only the right map does. *)
Theorem compareFiles_classification (file1 file2 : FileData) (k : string) :
  let file1Map := indexFile (data file1) in
  let file2Map := indexFile (data file2) in
  let found := entriesFor k (differences (compareFiles file1 file2)) in
  (forall row1 row2,
      JsMap.get k file1Map = Some row1 ->
      JsMap.get k file2Map = Some row2 ->
      (rowPoligono row1 <> rowPoligono row2 -> rowCelda row1 = rowCelda row2 ->
         exists d, found = [d] /\ status d = actualizar_poligono)
      /\ (rowPoligono row1 = rowPoligono row2 -> rowCelda row1 <> rowCelda row2 ->
            exists d, found = [d] /\ status d = actualizar_celda)
      /\ (rowPoligono row1 <> rowPoligono row2 -> rowCelda row1 <> rowCelda row2 ->
            exists d, found = [d] /\ status d = actualizar_ambos)
      /\ (rowPoligono row1 = rowPoligono row2 -> rowCelda row1 = rowCelda row2 ->
            found = []))
  /\ (forall row1,
        JsMap.get k file1Map = Some row1 -> JsMap.get k file2Map = None ->
        exists d, found = [d] /\ status d = nuevo_registro)
  /\ (forall row2,
        JsMap.get k file1Map = None -> JsMap.get k file2Map = Some row2 ->
        exists d, found = [d] /\ status d = sin_cambios).
Proof.
  intros m1 m2 found.
  pose proof (compareFiles_entriesFor file1 file2 k) as Hfound.
  cbv zeta in Hfound. fold m1 m2 found in Hfound.
  split; [|split].
  - intros row1 row2 H1 H2. rewrite H1 in Hfound.
    unfold pushedLeft, compareLeft in Hfound. simpl in Hfound.
    rewrite H2 in Hfound. rewrite Hfound. clear Hfound.
    repeat split.
    + intros Hp%strictNe_true Hc%strictNe_false. rewrite Hp, Hc. simpl.
      eexists; split; reflexivity.
    + intros Hp%strictNe_false Hc%strictNe_true. rewrite Hp, Hc. simpl.
      eexists; split; reflexivity.
    + intros Hp%strictNe_true Hc%strictNe_true. rewrite Hp, Hc. simpl.
      eexists; split; reflexivity.
    + intros Hp%strictNe_false Hc%strictNe_false. rewrite Hp, Hc. reflexivity.
  - intros row1 H1 H2. rewrite H1 in Hfound.
    unfold pushedLeft, compareLeft in Hfound. simpl in Hfound.
    rewrite H2 in Hfound. rewrite Hfound.
    eexists; split; reflexivity.
  - intros row2 H1 H2. rewrite H1, H2 in Hfound.
    unfold pushedRight, compareRight, JsMap.has in Hfound.
    rewrite H1 in Hfound. rewrite Hfound.
    eexists; split; reflexivity.
Qed.

Lemma compareFiles_classification_witness :
  (exists d, sampleFound "000001" = [d] /\ status d = actualizar_poligono)
  /\ (exists d, sampleFound "000002" = [d] /\ status d = actualizar_celda)
  /\ (exists d, sampleFound "000003" = [d] /\ status d = actualizar_ambos)
  /\ sampleFound "000004" = []
  /\ (exists d, sampleFound "000005" = [d] /\ status d = nuevo_registro)
  /\ (exists d, sampleFound "000006" = [d] /\ status d = sin_cambios).
Proof.
  unfold sampleFound. refine (conj _ (conj _ (conj _ (conj _ (conj _ _))))).
  - destruct (proj1 (compareFiles_classification sampleLeft sampleRight "000001")
                (rowOf "1" "10" "20") (rowOf "000001" "11" "20")
                eq_refl eq_refl) as (H & _).
    apply H; [by vm_compute | reflexivity].
  - destruct (proj1 (compareFiles_classification sampleLeft sampleRight "000002")
                (rowOf "2" "10" "20") (rowOf "000002" "10" "21")
                eq_refl eq_refl) as (_ & H & _).
    apply H; [reflexivity | by vm_compute].
  - destruct (proj1 (compareFiles_classification sampleLeft sampleRight "000003")
                (rowOf "3" "10" "20") (rowOf "000003" "11" "21")
                eq_refl eq_refl) as (_ & _ & H & _).
    apply H; by vm_compute.
  - destruct (proj1 (compareFiles_classification sampleLeft sampleRight "000004")
                (rowOf "4" "10" "20") (rowOf "000004" "10" "20")
                eq_refl eq_refl) as (_ & _ & _ & H).
    apply H; reflexivity.
  - apply (proj1 (proj2
             (compareFiles_classification sampleLeft sampleRight "000005"))
             (rowOf "5" "10" "20")); reflexivity.
  - apply (proj2 (proj2
             (compareFiles_classification sampleLeft sampleRight "000006"))
             (rowOf "000006" "10" "20")); reflexivity.
Defined.

(** ** Completeness of the reconciliation *)

Lemma countedLeft_pushedLeft m2 e :
  length (pushedLeft m2 e) + countedLeft m2 e = 1.
Proof.
  unfold pushedLeft, countedLeft, compareLeft. destruct e as [k row1]. simpl.
  destruct (JsMap.get k m2) as [row2|]; simpl; [|reflexivity].
  destruct (strictNe (rowPoligono row1) (rowPoligono row2)
            || strictNe (rowCelda row1) (rowCelda row2)); reflexivity.
Qed.

(** Every key of either map comes out once: in one entry, or as one unit of
    the matching count; a key of neither map has no entry. *)
Lemma compareFiles_complete (file1 file2 : FileData) (k : string) :
  let file1Map := indexFile (data file1) in
  let file2Map := indexFile (data file2) in
  let found := entriesFor k (differences (compareFiles file1 file2)) in
  (forall row1, JsMap.get k file1Map = Some row1 ->
      length found + countedLeft file2Map (k, row1) = 1)
  /\ (forall row2, JsMap.get k file1Map = None ->
        JsMap.get k file2Map = Some row2 -> length found = 1)
  /\ (JsMap.get k file1Map = None -> JsMap.get k file2Map = None ->
        found = [])
  /\ matching (compareFiles file1 file2)
     = sum_list (map (countedLeft file2Map) file1Map)
  /\ nonMatching (compareFiles file1 file2)
     = length (differences (compareFiles file1 file2)).
Proof.
  intros m1 m2 found.
  pose proof (compareFiles_entriesFor file1 file2 k) as Hfound.
  cbv zeta in Hfound. fold m1 m2 found in Hfound.
  destruct (compareFiles_passes file1 file2) as (_ & Hm & Hn).
  fold m1 m2 in Hm. repeat split; [| | |exact Hm|exact Hn].
  - intros row1 H1. rewrite Hfound, H1. apply countedLeft_pushedLeft.
  - intros row2 H1 H2. rewrite Hfound, H1, H2.
    unfold pushedRight, compareRight, JsMap.has. by rewrite H1.
  - intros H1 H2. by rewrite Hfound, H1, H2.
Qed.

(** A row is left out of the map exactly when its raw identifier is falsy. *)
Lemma indexFile_skips rows row :
  JsString.truthy (rowMatricula row) = false ->
  indexFile (rows ++ [row]) = indexFile rows.
Proof.
  intros H. unfold indexFile. rewrite foldl_app. simpl.
  by apply indexRow_skip.
Qed.

(** C3, at the input that breaks it.  The identifier of [blankIdRow] is one
    blank: truthy as a raw value, empty once normalised.  [compareFiles] keeps
    the row under the key [""] and reports it as a new record, where
    [generateQueryScript] drops the same identifier after normalising it. *)
Theorem compareFiles_blank_id_kept :
  rowMatricula blankIdRow = Some " "
  /\ normalizeMatricula " " = ""
  /\ JsMap.keys (indexFile (data blankIdLeft)) = [""]
  /\ differences (compareFiles blankIdLeft emptyFile)
     = [ {| matricula := "";
            codigoPoligono :=
              {| archivo1 := "7"; archivo2 := "";
                 necesitaActualizar := true |};
            codigoCelda :=
              {| archivo1 := ""; archivo2 := "";
                 necesitaActualizar := true |};
            status := nuevo_registro |} ]
  /\ nonMatching (compareFiles blankIdLeft emptyFile) = 1
  /\ matriculas blankIdLeft = [].
Proof. repeat split; reflexivity. Qed.

(** ** The flags of an entry *)

Lemma strictNe_follows a1 a2 :
  flagFollowsValues
    {| archivo1 := a1; archivo2 := a2; necesitaActualizar := strictNe a1 a2 |}.
Proof. apply strictNe_true. Qed.

Lemma pushedLeft_flags m2 e d : d ∈ pushedLeft m2 e -> flagsByStatus d.
Proof.
  unfold pushedLeft, compareLeft. destruct e as [k row1]. simpl.
  destruct (JsMap.get k m2) as [row2|]; simpl.
  - pose proof (strictNe_follows (rowPoligono row1) (rowPoligono row2)) as Fp.
    pose proof (strictNe_follows (rowCelda row1) (rowCelda row2)) as Fc.
    destruct (strictNe (rowPoligono row1) (rowPoligono row2));
      destruct (strictNe (rowCelda row1) (rowCelda row2)); simpl;
      try (by intros ?%elem_of_nil);
      intros ->%list_elem_of_singleton; split; assumption.
  - intros ->%list_elem_of_singleton. unfold flagsByStatus. simpl. tauto.
Qed.

Lemma pushedRight_flags m1 e d : d ∈ pushedRight m1 e -> flagsByStatus d.
Proof.
  unfold pushedRight, compareRight. destruct e as [k row2]. simpl.
  destruct (JsMap.has k m1); simpl.
  - by intros ?%elem_of_nil.
  - intros ->%list_elem_of_singleton. unfold flagsByStatus. simpl. tauto.
Qed.

(** C4, as the code has it.  In an entry of a matched id each flag is true
    exactly when the two values of its attribute differ; in an entry
    [nuevo_registro] both flags are true and both right values empty, whatever
    the left values; in an entry [sin_cambios] both flags are false and both
    left values empty, whatever the right values. *)
Theorem compareFiles_flags (file1 file2 : FileData) (d : DiffEntry) :
  d ∈ differences (compareFiles file1 file2) -> flagsByStatus d.
Proof.
  destruct (compareFiles_passes file1 file2) as (-> & _ & _).
  rewrite elem_of_app, !list_elem_of_In, !in_flat_map.
  intros [(e & _ & Hd)|(e & _ & Hd)]; apply list_elem_of_In in Hd.
  - by apply pushedLeft_flags in Hd.
  - by apply pushedRight_flags in Hd.
Qed.

Lemma compareFiles_flags_witness :
  sampleEntry ∈ differences (compareFiles sampleLeft sampleRight)
  /\ flagsByStatus sampleEntry.
Proof.
  assert (H : sampleEntry ∈ differences (compareFiles sampleLeft sampleRight)).
  { vm_compute. left. }
  split; [exact H | exact (compareFiles_flags sampleLeft sampleRight _ H)].
Defined.

(** C4 as stated fails: the only row of [newOnlyLeft] has no cell code, the
    right dataset is empty, and the entry made for it has the flag of the
    cell code set although both of its values are empty. *)
Lemma compareFiles_flags_counterexample :
  ~ (forall d, d ∈ differences (compareFiles newOnlyLeft emptyFile) ->
       flagFollowsValues (codigoPoligono d)
       /\ flagFollowsValues (codigoCelda d)).
Proof.
  intros H.
  destruct (H {| matricula := "100000";
                 codigoPoligono :=
                   {| archivo1 := "7"; archivo2 := "";
                      necesitaActualizar := true |};
                 codigoCelda :=
                   {| archivo1 := ""; archivo2 := "";
                      necesitaActualizar := true |};
                 status := nuevo_registro |}) as [_ [Hc _]].
  - vm_compute. left.
  - by apply Hc.
Qed.

(** ** The update script *)

Lemma nonEmpty_true s : JsString.nonEmpty s = true <-> s <> "".
Proof. destruct s; simpl; split; congruence. Qed.

Lemma qualifies_test a :
  necesitaActualizar a && JsString.nonEmpty (archivo1 a) = true <-> qualifies a.
Proof. unfold qualifies. by rewrite andb_true_iff, nonEmpty_true. Qed.

Lemma isUpdateStatus_spec d : isUpdateStatus d = true <-> status d <> sin_cambios.
Proof. unfold isUpdateStatus. destruct (status d); simpl; split; congruence. Qed.

Lemma omap_id_map {A B} (f : A -> option B) (l : list A) :
  omap id (map f l) = omap f l.
Proof.
  induction l as [|x l IH]; csimpl; [reflexivity|].
  rewrite IH. by destruct (f x).
Qed.

Lemma length_omap_le {A B} (f : A -> option B) (l : list A) :
  length (omap f l) <= length l.
Proof.
  induction l as [|x l IH]; csimpl; [lia|].
  destruct (f x); simpl; lia.
Qed.

Lemma updates_spec d c :
  c ∈ updates d <->
  (c = "cod_poligono = " +:+ archivo1 (codigoPoligono d)
   /\ qualifies (codigoPoligono d))
  \/ (c = "cod_celda = " +:+ archivo1 (codigoCelda d)
      /\ qualifies (codigoCelda d)).
Proof.
  unfold updates. rewrite elem_of_app, <- !qualifies_test.
  destruct (necesitaActualizar (codigoPoligono d)
            && JsString.nonEmpty (archivo1 (codigoPoligono d)));
    destruct (necesitaActualizar (codigoCelda d)
              && JsString.nonEmpty (archivo1 (codigoCelda d)));
    rewrite ?list_elem_of_singleton, ?elem_of_nil; intuition congruence.
Qed.

Lemma updateStatement_None d :
  updateStatement d = None <->
  ~ qualifies (codigoPoligono d) /\ ~ qualifies (codigoCelda d).
Proof.
  unfold updateStatement, updates. rewrite <- !qualifies_test.
  destruct (necesitaActualizar (codigoPoligono d)
            && JsString.nonEmpty (archivo1 (codigoPoligono d)));
    destruct (necesitaActualizar (codigoCelda d)
              && JsString.nonEmpty (archivo1 (codigoCelda d)));
    simpl; intuition congruence.
Qed.

(** C6. The update script holds at most one statement for each entry whose
    status is not [sin_cambios], and none for the others: its statements are
    those of these entries, in order, an entry giving one or none.  The [SET]
    clauses of an entry are those of its attributes whose flag is set and
    whose left value is not empty.  An entry in which no attribute is so gives
    no statement; such is an entry [actualizar_poligono] with an empty left
    polygon code. *)
Theorem updateStatements_filtering (differences : list DiffEntry) :
  updateStatementList differences
    = omap updateStatement
        (filter (fun d => status d <> sin_cambios) differences)
  /\ length (updateStatementList differences)
     <= length (filter (fun d => status d <> sin_cambios) differences)
  /\ (forall d c,
        c ∈ updates d <->
        (c = "cod_poligono = " +:+ archivo1 (codigoPoligono d)
         /\ qualifies (codigoPoligono d))
        \/ (c = "cod_celda = " +:+ archivo1 (codigoCelda d)
            /\ qualifies (codigoCelda d)))
  /\ (forall d,
        updateStatement d = None <->
        ~ qualifies (codigoPoligono d) /\ ~ qualifies (codigoCelda d))
  /\ updateStatementList [emptyLeftEntry] = [].
Proof.
  assert (H : updateStatementList differences
              = omap updateStatement
                  (filter (fun d => status d <> sin_cambios) differences)).
  { unfold updateStatementList. rewrite omap_id_map. f_equal.
    induction differences as [|d ds IH]; [reflexivity|]. simpl.
    destruct (isUpdateStatus d) eqn:Hd.
    - apply isUpdateStatus_spec in Hd. rewrite filter_cons_True by assumption.
      by rewrite IH.
    - rewrite filter_cons_False; [assumption|].
      rewrite <- isUpdateStatus_spec. congruence. }
  split; [exact H|]. split; [rewrite H; apply length_omap_le|].
  split; [apply updates_spec|]. split; [apply updateStatement_None|].
  reflexivity.
Qed.

(** A normalised key never has exactly five digits, so the correction of
    [updateStatement] leaves it as it is. *)
Lemma isFiveDigits_normalized raw : isFiveDigits (normalizeMatricula raw) = false.
Proof.
  rewrite normalizeMatricula_cases. cbv zeta. set (t := JsString.trim raw).
  destruct (JsString.isDigits t) eqn:Hd;
    [destruct (Nat.ltb_spec (String.length t) 6) as [Hl|Hl]|]; simpl.
  - unfold isFiveDigits.
    rewrite string_length_app, repeat_zero_length.
    replace (6 - String.length t + String.length t) with 6 by lia.
    reflexivity.
  - unfold isFiveDigits.
    destruct (Nat.eqb_spec (String.length t) 5); [lia | reflexivity].
  - unfold isFiveDigits.
    destruct (Nat.eqb_spec (String.length t) 5) as [H5|]; [|reflexivity].
    simpl. unfold JsString.isDigits in Hd.
    destruct t; [discriminate | exact Hd].
Qed.

Lemma indexFile_keys rows k :
  k ∈ JsMap.keys (indexFile rows) -> exists raw, k = normalizeMatricula raw.
Proof.
  unfold indexFile.
  assert (H : forall m,
             (k ∈ JsMap.keys m -> exists raw, k = normalizeMatricula raw) ->
             k ∈ JsMap.keys (foldl indexRow m rows) ->
             exists raw, k = normalizeMatricula raw).
  { induction rows as [|row rows IH]; intros m Hm; simpl; [assumption|].
    apply IH. unfold indexRow.
    destruct (JsString.truthy (rowMatricula row)); [|assumption].
    rewrite keys_set. destruct (JsMap.has _ m); [assumption|].
    rewrite elem_of_app, list_elem_of_singleton.
    intros [?| ->]; [auto | eauto]. }
  apply H. by intros ?%elem_of_nil.
Qed.

Lemma compareFiles_keys file1 file2 d :
  d ∈ differences (compareFiles file1 file2) ->
  exists raw, matricula d = normalizeMatricula raw.
Proof.
  destruct (compareFiles_passes file1 file2) as (-> & _ & _).
  rewrite elem_of_app, !list_elem_of_In, !in_flat_map.
  intros [([k row] & He & Hd)|([k row] & He & Hd)];
    apply list_elem_of_In in Hd, He.
  - apply pushedLeft_key in Hd. rewrite Hd.
    apply (indexFile_keys (data file1)). unfold JsMap.keys.
    apply list_elem_of_fmap. by exists (k, row).
  - apply pushedRight_key in Hd. rewrite Hd.
    apply (indexFile_keys (data file2)). unfold JsMap.keys.
    apply list_elem_of_fmap. by exists (k, row).
Qed.

(** C10. A statement of the update script reads
    [UPDATE ... SET <clauses> WHERE instalacao = '<key>';]: the key stands
    between single quotes, and it is the normalised key itself for every entry
    of a comparison; a clause is the column name, [ = ] and the left value as
    it is, with no quote around it, so that the value [AB] is written bare. *)
Theorem updateStatement_quoting (d : DiffEntry) (stmt : string) :
  updateStatement d = Some stmt ->
  stmt = "UPDATE EDESURFLX_SGD.UTRANSFORMADORA_LT SET "
         +:+ String.concat ", " (updates d)
         +:+ " WHERE instalacao = '" +:+ matriculaCorregida d +:+ "';"
  /\ Forall (fun c => c = "cod_poligono = " +:+ archivo1 (codigoPoligono d)
                      \/ c = "cod_celda = " +:+ archivo1 (codigoCelda d))
            (updates d)
  /\ (forall file1 file2, d ∈ differences (compareFiles file1 file2) ->
        matriculaCorregida d = matricula d)
  /\ updateStatement textEntry
     = Some "UPDATE EDESURFLX_SGD.UTRANSFORMADORA_LT SET cod_poligono = AB WHERE instalacao = '000517';".
Proof.
  intros H. split; [|split; [|split]].
  - unfold updateStatement in H. fold (matriculaCorregida d) in H.
    destruct (0 <? length (updates d)); [|discriminate]. by injection H as <-.
  - apply Forall_forall. intros c Hc%updates_spec. tauto.
  - intros f1 f2 [raw Hraw]%compareFiles_keys.
    unfold matriculaCorregida. by rewrite Hraw, isFiveDigits_normalized.
  - reflexivity.
Qed.

Lemma updateStatement_quoting_witness :
  updateStatement sampleEntry
  = Some "UPDATE EDESURFLX_SGD.UTRANSFORMADORA_LT SET cod_poligono = 10 WHERE instalacao = '000001';"
  /\ matriculaCorregida sampleEntry = "000001".
Proof.
  assert (H : updateStatement sampleEntry
              = Some "UPDATE EDESURFLX_SGD.UTRANSFORMADORA_LT SET cod_poligono = 10 WHERE instalacao = '000001';")
    by reflexivity.
  split; [exact H|].
  destruct (updateStatement_quoting sampleEntry _ H) as (_ & _ & Hk & _).
  rewrite (Hk sampleLeft sampleRight); [reflexivity|]. vm_compute. left.
Defined.

(** ** Changing the sheet of a loaded file *)

(** Whatever the sheet asked for, the rows of the file stay those it was
    loaded with; only the name of the sheet changes. *)
Lemma reprocessFileWithSheet_file fileNumber sheetName st :
  currentFile fileNumber (reprocessFileWithSheet fileNumber sheetName st)
  = withHojaProcesada sheetName <$> currentFile fileNumber st.
Proof.
  unfold reprocessFileWithSheet.
  destruct fileNumber; simpl; destruct st as [[f1|] [f2|] ? ? ? ? ? ? ?];
    reflexivity.
Qed.

Lemma onValueChange_file fileNum value st :
  currentFile fileNum (onValueChange fileNum value st)
  = withHojaProcesada value <$> currentFile fileNum st.
Proof.
  unfold onValueChange.
  destruct fileNum; simpl; destruct st as [[f1|] [f2|] ? ? ? ? ? ? ?];
    reflexivity.
Qed.

(** C7, at the input that breaks it.  The workbook was loaded from its sheet
    [LPRA110]; the operator picks [PALA103] and applies it.  The file then
    says [PALA103], and its rows, their count and its columns are still those
    decoded from [LPRA110]: the sheet is renamed, nothing is rebuilt. *)
Theorem reprocessFileWithSheet_relabels :
  hojaProcesada <$> file1 relabelledState = Some "PALA103"
  /\ data <$> file1 relabelledState = Some (data workbookFile)
  /\ records <$> file1 relabelledState = Some (records workbookFile)
  /\ columns <$> file1 relabelledState = Some (columns workbookFile)
  /\ title <$> last (toasts relabelledState)
     = Some "Hoja cambiada exitosamente".
Proof. repeat split; reflexivity. Qed.

(** ** Scripts over no identifier *)

(** C8, as the code has it.  When the loaded file yields no identifier,
    [generateQueryScript] only reports an error: the query script on display,
    its flag and the completed steps are those of before. *)
Theorem generateQueryScript_no_ids (now : string) (st : AppState) (f : FileData) :
  file1 st = Some f ->
  matriculas f = [] ->
  generateQueryScript now st = toast noMatriculasToast st
  /\ queryScript (generateQueryScript now st) = queryScript st
  /\ isQueryScript (generateQueryScript now st) = isQueryScript st
  /\ completedSteps (generateQueryScript now st) = completedSteps st
  /\ toasts (generateQueryScript now st) = toasts st ++ [noMatriculasToast].
Proof.
  intros Hf Hm.
  assert (H : generateQueryScript now st = toast noMatriculasToast st).
  { unfold generateQueryScript. rewrite Hf, Hm. reflexivity. }
  rewrite H. repeat split; reflexivity.
Qed.

Lemma generateQueryScript_no_ids_witness :
  queryScript (generateQueryScript "2/11/2026, 10:00:00" emptyLoadedState) = ""
  /\ toasts (generateQueryScript "2/11/2026, 10:00:00" emptyLoadedState)
     = [noMatriculasToast].
Proof.
  destruct (generateQueryScript_no_ids "2/11/2026, 10:00:00" emptyLoadedState
              emptyFile eq_refl eq_refl) as (_ & Hq & _ & _ & Ht).
  split; [exact Hq | exact Ht].
Defined.

(** C8 as stated fails on the text-file path: [generateValidationScript] has
    no test on the number of identifiers.  For an uploaded file without any
    identifier it stores a script, whose [IN] list is empty, and reports
    nothing. *)
Lemma generateValidationScript_no_ids_counterexample :
  FileCompress.allInstalaciones [noIdsFile] = []
  /\ FileCompress.validationScript noIdsState
     <> FileCompress.validationScript noFilesState
  /\ FileCompress.toasts noIdsState = []
  /\ FileCompress.validationScriptLines "2/11/2026, 10:00:00" [noIdsFile]
     = [ "-- ===========================================";
         "-- SCRIPT DE VALIDACIÓN GENERADO POR FILECOMPRESS";
         "-- Fecha: 2/11/2026, 10:00:00";
         "-- Total archivos procesados: 1";
         "-- Total instalaciones a validar: 0";
         "-- ===========================================";
         "" ]
       ++ FileCompress.generateNormalValidationScript [].
Proof.
  split; [reflexivity|]. split; [|split; reflexivity].
  vm_compute. discriminate.
Qed.

(** ** Chunks of the identifier list *)

Section Chunks.

Context {A : Type}.
Implicit Types (l : list A) (c : list A).

Lemma slice_chunk l i :
  FileCompress.slice i (i + FileCompress.CHUNK_SIZE) l
  = take FileCompress.CHUNK_SIZE (drop i l).
Proof.
  unfold FileCompress.slice. f_equal. lia.
Qed.

(** The chunks the loop yields from the counter [i] on, when it is given the
    rounds it needs. *)
Lemma chunkLoop_lookup l fuel i j c :
  length l - i <= fuel ->
  FileCompress.chunkLoop fuel l i !! j = Some c ->
  c = take FileCompress.CHUNK_SIZE (drop (i + j * FileCompress.CHUNK_SIZE) l)
  /\ i + j * FileCompress.CHUNK_SIZE < length l.
Proof.
  revert i j. induction fuel as [|fuel IH]; intros i j Hf;
    cbn [FileCompress.chunkLoop].
  - intros H. by rewrite lookup_nil in H.
  - destruct (Nat.ltb_spec i (length l)) as [Hi|Hi].
    + destruct j as [|j]; cbn [lookup list_lookup].
      * intros [= <-]. rewrite slice_chunk, Nat.mul_0_l, Nat.add_0_r.
        by split.
      * intros H. apply IH in H.
        -- rewrite Nat.mul_succ_l.
           replace (i + (j * FileCompress.CHUNK_SIZE + FileCompress.CHUNK_SIZE))
             with (i + FileCompress.CHUNK_SIZE + j * FileCompress.CHUNK_SIZE)
             by lia.
           exact H.
        -- unfold FileCompress.CHUNK_SIZE. lia.
    + intros H. by rewrite lookup_nil in H.
Qed.

Lemma chunkLoop_concat l fuel i :
  length l - i <= fuel ->
  concat (FileCompress.chunkLoop fuel l i) = drop i l.
Proof.
  revert i. induction fuel as [|fuel IH]; intros i Hf; simpl.
  - symmetry. apply drop_ge. lia.
  - destruct (Nat.ltb_spec i (length l)) as [Hi|Hi]; simpl.
    + rewrite IH by (unfold FileCompress.CHUNK_SIZE; lia).
      rewrite slice_chunk, <- drop_drop. apply take_drop.
    + symmetry. by apply drop_ge.
Qed.

(** Rounds beyond those the loop needs change nothing. *)
Lemma chunkLoop_fuel l fuel fuel' i :
  length l - i <= fuel -> length l - i <= fuel' ->
  FileCompress.chunkLoop fuel l i = FileCompress.chunkLoop fuel' l i.
Proof.
  revert fuel' i. induction fuel as [|fuel IH]; intros [|fuel'] i H H';
    cbn [FileCompress.chunkLoop]; try reflexivity.
  - destruct (Nat.ltb_spec i (length l)); [lia | reflexivity].
  - destruct (Nat.ltb_spec i (length l)); [lia | reflexivity].
  - destruct (Nat.ltb_spec i (length l)); [|reflexivity].
    f_equal. apply IH; unfold FileCompress.CHUNK_SIZE; lia.
Qed.

(** The number [m] of chunks is the least with [length l - i <= m * 1000]. *)
Lemma chunkLoop_length l fuel i :
  length l - i <= fuel ->
  let m := length (FileCompress.chunkLoop fuel l i) in
  length l - i <= m * 1000 /\ (m - 1) * 1000 < length l - i \/ 
  (m = 0 /\ length l <= i).
Proof.
  revert i. induction fuel as [|fuel IH]; intros i Hf; simpl.
  - right. split; [reflexivity | lia].
  - destruct (Nat.ltb_spec i (length l)) as [Hi|Hi]; simpl.
    + left.
      destruct (IH (i + FileCompress.CHUNK_SIZE)) as [[H1 H2]|[H1 H2]];
        unfold FileCompress.CHUNK_SIZE in *; try lia.
    + right. split; [reflexivity | lia].
Qed.

End Chunks.

(** ** Counting the lines of a script *)

Section CountLines.

Context (test : string -> bool).

Lemma countLines_app l1 l2 :
  countLines test (l1 ++ l2) = countLines test l1 + countLines test l2.
Proof. unfold countLines. by rewrite List.filter_app, length_app. Qed.

Lemma countLines_none lines :
  Forall (fun l => test l = false) lines -> countLines test lines = 0.
Proof.
  unfold countLines. induction 1 as [|l lines Hl _ IH]; simpl; [reflexivity|].
  by rewrite Hl.
Qed.



(** The lines of an [IN] list start with their indentation and a quote. *)
Lemma countLines_inList indent comment items :
  (forall r, test (indent +:+ "'" +:+ r) = false) ->
  countLines test (FileCompress.inListLines indent comment items) = 0.
Proof.
  intros Hsp. apply countLines_none, Forall_forall. intros l Hl.
  unfold FileCompress.inListLines in Hl.
  apply list_elem_of_lookup in Hl as [i Hi].
  rewrite list_lookup_imap in Hi.
  destruct (items !! i) as [item|]; [|discriminate].
  injection Hi as <-. apply Hsp.
Qed.

Lemma countLines_inserts_none (items : list FileCompress.Item) :
  (forall r, test (String "I" r) = false) ->
  countLines test
    (map (fun item =>
            "INSERT INTO TEMP_INSTALACIONES VALUES ('"
            +:+ FileCompress.instalacao item
            +:+ "', '" +:+ FileCompress.item_circuito item +:+ "');")
         items) = 0.
Proof.
  intros HI. apply countLines_none, Forall_forall.
  intros l Hl. apply list_elem_of_fmap in Hl as (item & -> & _). apply HI.
Qed.

End CountLines.




(** ** The validation script *)

Ltac count_parts :=
  rewrite ?countLines_app;
  rewrite ?countLines_inList by (intros; reflexivity);
  rewrite ?countLines_inserts_none by (intros; reflexivity).

(** Evaluates the counts over the pieces of a script that are written out. *)
Ltac count_written :=
  repeat match goal with
         | |- context [countLines ?t (?x :: ?l)] =>
             let v := eval vm_compute in (countLines t (x :: l)) in
             change (countLines t (x :: l)) with v
         end.

Section ChunkLinesCounts.

Context (total n j : nat) (c : list FileCompress.Item).







End ChunkLinesCounts.


(** The chunks of a list: where each starts, how long it is, how many they
    are. *)
Lemma chunks_spec {A} (l : list A) :
  concat (FileCompress.chunks l) = l
  /\ (forall j c, FileCompress.chunks l !! j = Some c ->
        c = take 1000 (drop (j * 1000) l) /\ 0 < length c <= 1000)
  /\ (length l <= length (FileCompress.chunks l) * 1000)
  /\ (0 < length l -> (length (FileCompress.chunks l) - 1) * 1000 < length l).
Proof.
  unfold FileCompress.chunks.
  assert (Hf : length l - 0 <= length l) by lia.
  split; [|split; [|split]].
  - rewrite chunkLoop_concat by exact Hf. apply drop_0.
  - intros j c Hc. apply chunkLoop_lookup in Hc as [-> Hlt]; [|exact Hf].
    change FileCompress.CHUNK_SIZE with 1000 in *. rewrite Nat.add_0_l in *.
    split; [reflexivity|]. rewrite length_take, length_drop. lia.
  - destruct (chunkLoop_length l (length l) 0 Hf) as [[H _]|[_ H]]; lia.
  - intros Hpos.
    destruct (chunkLoop_length l (length l) 0 Hf) as [[_ H]|[_ H]]; lia.
Qed.






(** ** The scenarios of the specification *)

Example scenario_1 :
  compareFiles (fileOf "a.xlsx" "A" [rowOf "517" "10" "20"])
               (fileOf "b.xlsx" "B" [rowOf "000517" "10" "99"])
  = {| matching := 0; nonMatching := 1; total := 2;
       differences :=
         [ {| matricula := "000517";
              codigoPoligono :=
                {| archivo1 := "10"; archivo2 := "10";
                   necesitaActualizar := false |};
              codigoCelda :=
                {| archivo1 := "20"; archivo2 := "99";
                   necesitaActualizar := true |};
              status := actualizar_celda |} ] |}.
Proof. reflexivity. Qed.

Example scenario_2 :
  map status
    (differences (compareFiles (fileOf "a.xlsx" "A" [rowOf "100000" "1" "2"])
                               emptyFile))
  = [nuevo_registro].
Proof. reflexivity. Qed.

Example scenario_3 :
  compareFiles (fileOf "a.xlsx" "A" [rowOf "100000" "1" "2"])
               (fileOf "b.xlsx" "B" [rowOf "100000" "1" "2"])
  = {| matching := 1; nonMatching := 0; total := 2; differences := [] |}.
Proof. reflexivity. Qed.

Example scenario_4 :
  length (FileCompress.chunks
            (FileCompress.allInstalaciones [fileOfIds 1500])) = 2
  /\ countLines (isLine "UNION ALL")
       (FileCompress.validationScriptLines "2/11/2026, 10:00:00"
          [fileOfIds 1500]) = 1
  /\ countLines (isLine "DROP TABLE TEMP_INSTALACIONES;")
       (FileCompress.validationScriptLines "2/11/2026, 10:00:00"
          [fileOfIds 1500]) = 1.
Proof. repeat split; vm_compute; reflexivity. Qed.

(** * Further properties *)

(** ** The maps of the reconciler *)

Lemma indexRow_rowKey m row :
  indexRow m row
  = match rowKey row with Some k => JsMap.set k row m | None => m end.
Proof. unfold indexRow, rowKey. by destruct (JsString.truthy _). Qed.

Lemma indexFile_snoc rows row :
  indexFile (rows ++ [row]) = indexRow (indexFile rows) row.
Proof. unfold indexFile. by rewrite foldl_app. Qed.

(** X1. In the map of a file a key leads to the last row of the file that has
    it: a later row replaces an earlier one with the same normalised
    identifier, and rows without identifier are passed over. *)
Theorem indexFile_last_wins (rows : list Row) (k : string) :
  JsMap.get k (indexFile rows)
  = last (filter (fun row => rowKey row = Some k) rows).
Proof.
  induction rows as [|row rows IH] using rev_ind; [reflexivity|].
  rewrite indexFile_snoc, indexRow_rowKey, filter_app.
  destruct (rowKey row) as [k'|] eqn:Hk.
  - rewrite get_set. destruct (decide (k = k')) as [->|Hne].
    + rewrite filter_cons_True by exact Hk. by rewrite filter_nil, last_snoc.
    + rewrite filter_cons_False by congruence.
      by rewrite filter_nil, app_nil_r.
  - rewrite filter_cons_False by congruence.
    by rewrite filter_nil, app_nil_r.
Qed.

Lemma get_of_elem {V} (m : JsMap.t V) k v :
  NoDup (JsMap.keys m) -> (k, v) ∈ m -> JsMap.get k m = Some v.
Proof.
  unfold JsMap.keys. induction m as [|[k0 v0] m IH]; csimpl.
  - by intros _ ?%elem_of_nil.
  - intros [Hk0 Hnd]%NoDup_cons [Heq|Hin]%elem_of_cons.
    + injection Heq as -> ->. by rewrite decide_True.
    + destruct (decide (k = k0)) as [->|_]; [|by apply IH].
      destruct Hk0. apply list_elem_of_fmap. by exists (k0, v).
Qed.

Lemma length_indexFile rows : length (indexFile rows) <= length rows.
Proof.
  induction rows as [|row rows IH] using rev_ind; [reflexivity|].
  rewrite indexFile_snoc, indexRow_rowKey, length_app. simpl.
  destruct (rowKey row) as [k|]; [|lia].
  assert (H : length (JsMap.set k row (indexFile rows))
              <= S (length (indexFile rows))); [|lia].
  generalize (indexFile rows). intros m.
  induction m as [|[k0 v0] m IHm]; simpl; [lia|].
  destruct (decide (k = k0)); simpl; lia.
Qed.

(** ** What a round of the comparison appends *)

Lemma agrees_differs m2 k row1 row2 :
  JsMap.get k m2 = Some row2 ->
  strictNe (rowPoligono row1) (rowPoligono row2)
  || strictNe (rowCelda row1) (rowCelda row2)
  = negb (agrees m2 (k, row1)).
Proof.
  intros H. unfold agrees, strictNe. simpl. rewrite H.
  by rewrite negb_andb.
Qed.

Lemma pushedLeft_keys m2 e :
  map matricula (pushedLeft m2 e) = if agrees m2 e then [] else [e.1].
Proof.
  destruct e as [k row1]. unfold pushedLeft, compareLeft. simpl.
  destruct (JsMap.get k m2) as [row2|] eqn:H.
  - rewrite (agrees_differs m2 k row1 row2 H).
    by destruct (agrees m2 (k, row1)).
  - unfold agrees. simpl. by rewrite H.
Qed.

Lemma countedLeft_agrees m2 e :
  countedLeft m2 e = if agrees m2 e then 1 else 0.
Proof.
  destruct e as [k row1]. unfold countedLeft, compareLeft. simpl.
  destruct (JsMap.get k m2) as [row2|] eqn:H.
  - rewrite (agrees_differs m2 k row1 row2 H).
    by destruct (agrees m2 (k, row1)).
  - unfold agrees. simpl. by rewrite H.
Qed.

Lemma pushedRight_keys m1 e :
  map matricula (pushedRight m1 e) = if JsMap.has e.1 m1 then [] else [e.1].
Proof.
  destruct e as [k row2]. unfold pushedRight, compareRight. simpl.
  by destruct (JsMap.has k m1).
Qed.

Lemma map_flat_map_keys (f : string * Row -> list DiffEntry)
    (keep : string * Row -> bool) (m : JsMap.t Row) :
  (forall e, map matricula (f e) = if keep e then [e.1] else []) ->
  map matricula (flat_map f m) = map fst (List.filter keep m).
Proof.
  intros Hf. induction m as [|e m IH]; [reflexivity|]. simpl.
  rewrite map_app, Hf, IH. by destruct (keep e).
Qed.

Lemma sum_list_indicator {A} (p : A -> bool) (l : list A) :
  sum_list (map (fun x => if p x then 1 else 0) l) = length (List.filter p l).
Proof.
  induction l as [|x l IH]; [reflexivity|]. simpl.
  destruct (p x); simpl; lia.
Qed.

Lemma NoDup_filter_keys {V} (p : string * V -> bool) (m : JsMap.t V) :
  NoDup (JsMap.keys m) -> NoDup (map fst (List.filter p m)).
Proof.
  unfold JsMap.keys. induction m as [|e m IH]; csimpl; [constructor|].
  intros [Hk Hnd]%NoDup_cons. destruct (p e); csimpl; [|by apply IH].
  apply NoDup_cons. split; [|by apply IH].
  intros Hin. apply Hk. apply list_elem_of_fmap in Hin as ([k v] & -> & Hin).
  apply list_elem_of_In, filter_In in Hin as [Hin _].
  apply list_elem_of_fmap. exists (k, v). split; [reflexivity|].
  by apply list_elem_of_In.
Qed.

(** X2. The entries of a comparison come in the order of the maps: first the
    keys of file 1 that are missing from file 2 or differ there, in the order
    file 1 first showed them, then the keys only file 2 has, in the order of
    file 2; no key has two entries. *)
Theorem compareFiles_order (file1 file2 : FileData) :
  let file1Map := indexFile (data file1) in
  let file2Map := indexFile (data file2) in
  map matricula (differences (compareFiles file1 file2))
  = map fst (List.filter (fun e => negb (agrees file2Map e)) file1Map)
    ++ map fst (List.filter (fun e => negb (JsMap.has e.1 file1Map)) file2Map)
  /\ NoDup (map matricula (differences (compareFiles file1 file2))).
Proof.
  intros m1 m2.
  assert (H : map matricula (differences (compareFiles file1 file2))
              = map fst (List.filter (fun e => negb (agrees m2 e)) m1)
                ++ map fst (List.filter (fun e => negb (JsMap.has e.1 m1)) m2)).
  { destruct (compareFiles_passes file1 file2) as (-> & _ & _). fold m1 m2.
    rewrite map_app. f_equal; apply map_flat_map_keys; intros e.
    - rewrite pushedLeft_keys. by destruct (agrees m2 e).
    - rewrite pushedRight_keys. by destruct (JsMap.has e.1 m1). }
  split; [exact H|]. rewrite H. apply NoDup_app. split; [|split].
  - apply NoDup_filter_keys, indexFile_NoDup.
  - intros k Hk1 Hk2.
    apply list_elem_of_fmap in Hk1 as ([k1 v1] & -> & H1).
    apply list_elem_of_fmap in Hk2 as ([k2 v2] & Heq & H2). simpl in Heq.
    subst k2.
    apply list_elem_of_In, filter_In in H1 as [H1 _].
    apply list_elem_of_In, filter_In in H2 as [_ H2]. simpl in H2.
    apply negb_true_iff in H2.
    assert (Hin : k1 ∈ JsMap.keys m1).
    { apply list_elem_of_fmap. exists (k1, v1).
      split; [reflexivity | by apply list_elem_of_In]. }
    apply has_true in Hin. congruence.
  - apply NoDup_filter_keys, indexFile_NoDup.
Qed.

(** ** Counting the keys *)

Lemma length_filter_split {A} (p : A -> bool) (l : list A) :
  length (List.filter p l) + length (List.filter (fun x => negb (p x)) l)
  = length l.
Proof.
  induction l as [|x l IH]; [reflexivity|]. simpl.
  destruct (p x); simpl; lia.
Qed.

Lemma elem_of_filter_keys {V} (p : string * V -> bool) (m : JsMap.t V) k :
  k ∈ map fst (List.filter p m) <-> exists v, (k, v) ∈ m /\ p (k, v) = true.
Proof.
  rewrite list_elem_of_fmap. split.
  - intros ([k' v] & -> & Hin). apply list_elem_of_In, filter_In in Hin as [Hin Hp].
    exists v. split; [by apply list_elem_of_In | exact Hp].
  - intros (v & Hin & Hp). exists (k, v). split; [reflexivity|].
    apply list_elem_of_In, filter_In. split; [by apply list_elem_of_In | exact Hp].
Qed.

Lemma elem_of_keys {V} (m : JsMap.t V) k :
  k ∈ JsMap.keys m <-> exists v, (k, v) ∈ m.
Proof.
  unfold JsMap.keys. rewrite list_elem_of_fmap. split.
  - intros ([k' v] & -> & Hin). by exists v.
  - intros (v & Hin). by exists (k, v).
Qed.

(** The distinct keys of two maps: those of the first, then those only the
    second has. *)
Lemma distinct_keys {V} (m1 m2 : JsMap.t V) :
  NoDup (JsMap.keys m1) -> NoDup (JsMap.keys m2) ->
  length (remove_dups (JsMap.keys m1 ++ JsMap.keys m2))
  = length m1
    + length (List.filter (fun e => negb (JsMap.has e.1 m1)) m2).
Proof.
  intros H1 H2.
  rewrite <- (length_map fst (List.filter _ m2)).
  rewrite <- (length_fmap fst m1), <- length_app.
  apply Permutation_length, NoDup_Permutation.
  - apply NoDup_remove_dups.
  - apply NoDup_app. split; [exact H1|]. split; [|by apply NoDup_filter_keys].
    intros k Hk1 (v & _ & Hn)%elem_of_filter_keys. simpl in Hn.
    apply has_true in Hk1. rewrite Hk1 in Hn. discriminate.
  - intros k. rewrite elem_of_remove_dups, !elem_of_app, elem_of_filter_keys.
    fold (JsMap.keys m1). split.
    + intros [Hk|Hk]; [by left|].
      destruct (JsMap.has k m1) eqn:Hh; [left; by apply has_true|].
      right. apply elem_of_keys in Hk as [v Hv]. exists v.
      split; [exact Hv|]. simpl. by rewrite Hh.
    + intros [Hk|(v & Hv & _)]; [by left|]. right. apply elem_of_keys. by exists v.
Qed.

(** X3. [nonMatching] is the number of entries; [matching] is the number of
    keys of file 1 found in file 2 with the same two codes; together they
    count every key of the two maps once. *)
Theorem compareFiles_counts (file1 file2 : FileData) :
  let file1Map := indexFile (data file1) in
  let file2Map := indexFile (data file2) in
  let result := compareFiles file1 file2 in
  nonMatching result = length (differences result)
  /\ matching result = length (List.filter (agrees file2Map) file1Map)
  /\ matching result + nonMatching result
     = length (remove_dups (JsMap.keys file1Map ++ JsMap.keys file2Map)).
Proof.
  intros m1 m2 result.
  destruct (compareFiles_passes file1 file2) as (_ & Hm & Hn).
  destruct (compareFiles_order file1 file2) as [Ho _].
  fold m1 m2 result in Hm, Hn, Ho.
  assert (Hm' : matching result = length (List.filter (agrees m2) m1)).
  { rewrite Hm, <- sum_list_indicator. f_equal. apply map_ext.
    intros e. apply countedLeft_agrees. }
  split; [exact Hn|]. split; [exact Hm'|].
  rewrite Hn, Hm', <- (length_map matricula), Ho, length_app, !length_map.
  rewrite distinct_keys by apply indexFile_NoDup.
  pose proof (length_filter_split (agrees m2) m1). lia.
Qed.

(** ** A file against itself, and the two files exchanged *)

Lemma eqb_both_refl (a b : string) : String.eqb a a && String.eqb b b = true.
Proof. by rewrite !String.eqb_refl. Qed.

Lemma agrees_self (m : JsMap.t Row) e :
  NoDup (JsMap.keys m) -> e ∈ m -> agrees m e = true.
Proof.
  intros Hnd He. destruct e as [k row]. unfold agrees. simpl.
  rewrite (get_of_elem m k row Hnd He). apply eqb_both_refl.
Qed.

Lemma filter_all_true {A} (p : A -> bool) (l : list A) :
  (forall x, x ∈ l -> p x = true) -> List.filter p l = l.
Proof.
  induction l as [|x l IH]; intros H; [reflexivity|]. simpl.
  rewrite (H x) by left. f_equal. apply IH. intros y Hy. apply H. by right.
Qed.

Lemma filter_all_false {A} (p : A -> bool) (l : list A) :
  (forall x, x ∈ l -> p x = false) -> List.filter p l = [].
Proof.
  induction l as [|x l IH]; intros H; [reflexivity|]. simpl.
  rewrite (H x) by left. apply IH. intros y Hy. apply H. by right.
Qed.

(** X4. A file compared with itself has no difference: every key it holds
    counts as matching, whatever its rows are. *)
Theorem compareFiles_self (file : FileData) :
  differences (compareFiles file file) = []
  /\ nonMatching (compareFiles file file) = 0
  /\ matching (compareFiles file file)
     = length (JsMap.keys (indexFile (data file))).
Proof.
  set (m := indexFile (data file)).
  pose proof (indexFile_NoDup (data file)) as Hnd. fold m in Hnd.
  destruct (compareFiles_counts file file) as (Hn & Hm & _).
  destruct (compareFiles_order file file) as [Ho _].
  cbv zeta in Hn, Hm, Ho. fold m in Hm, Ho.
  assert (Hd : differences (compareFiles file file) = []).
  { apply (map_eq_nil matricula). rewrite Ho.
    rewrite !filter_all_false; [reflexivity | |].
    - intros [k row] He. simpl. apply negb_false_iff, has_true.
      apply elem_of_keys. by exists row.
    - intros e He. by rewrite agrees_self. }
  split; [exact Hd|]. split; [by rewrite Hn, Hd|].
  rewrite Hm, filter_all_true by (intros e He; by apply agrees_self).
  unfold JsMap.keys. by rewrite length_fmap.
Qed.

Lemma agrees_spec (m : JsMap.t Row) k row :
  agrees m (k, row) = true <->
  exists other, JsMap.get k m = Some other
                /\ rowPoligono row = rowPoligono other
                /\ rowCelda row = rowCelda other.
Proof.
  unfold agrees. simpl. destruct (JsMap.get k m) as [other|].
  - rewrite andb_true_iff, !String.eqb_eq. split.
    + intros [??]. by exists other.
    + by intros (? & [= <-] & ? & ?).
  - split; [discriminate | by intros (? & ? & _)].
Qed.

(** The keys on which two maps agree, read from either side. *)
Lemma agreed_keys_perm (m1 m2 : JsMap.t Row) :
  NoDup (JsMap.keys m1) -> NoDup (JsMap.keys m2) ->
  map fst (List.filter (agrees m2) m1) ≡ₚ map fst (List.filter (agrees m1) m2).
Proof.
  intros H1 H2. apply NoDup_Permutation; [by apply NoDup_filter_keys ..|].
  assert (Hside : forall (ma mb : JsMap.t Row), NoDup (JsMap.keys ma) ->
            NoDup (JsMap.keys mb) -> forall k,
            k ∈ map fst (List.filter (agrees mb) ma) ->
            k ∈ map fst (List.filter (agrees ma) mb)).
  { intros ma mb Ha Hb k (va & Hin & Hag)%elem_of_filter_keys.
    apply agrees_spec in Hag as (vb & Hget & Hp & Hc).
    apply elem_of_filter_keys. exists vb.
    split; [by apply get_Some_elem|]. apply agrees_spec. exists va.
    split; [by apply get_of_elem | by split]. }
  intros k. split; by apply Hside.
Qed.

Lemma strictNe_sym a b : strictNe a b = strictNe b a.
Proof. unfold strictNe. by rewrite String.eqb_sym. Qed.

(** X5. Exchanging the two files exchanges [nuevo_registro] and
    [sin_cambios] and nothing else: every key keeps its entry or its absence
    of entry, the update statuses stay, and the two counts are the same. *)
Theorem compareFiles_swap (file1 file2 : FileData) :
  matching (compareFiles file2 file1) = matching (compareFiles file1 file2)
  /\ nonMatching (compareFiles file2 file1)
     = nonMatching (compareFiles file1 file2)
  /\ forall k,
       map status (entriesFor k (differences (compareFiles file2 file1)))
       = map swapStatus
           (map status (entriesFor k (differences (compareFiles file1 file2)))).
Proof.
  set (m1 := indexFile (data file1)). set (m2 := indexFile (data file2)).
  pose proof (indexFile_NoDup (data file1)) as Hnd1.
  pose proof (indexFile_NoDup (data file2)) as Hnd2.
  fold m1 in Hnd1. fold m2 in Hnd2.
  destruct (compareFiles_counts file1 file2) as (_ & Hm12 & Hs12).
  destruct (compareFiles_counts file2 file1) as (_ & Hm21 & Hs21).
  cbv zeta in Hm12, Hs12, Hm21, Hs21. fold m1 m2 in Hm12, Hs12, Hm21, Hs21.
  assert (Hm : matching (compareFiles file2 file1)
               = matching (compareFiles file1 file2)).
  { rewrite Hm12, Hm21.
    rewrite <- (length_map fst (List.filter _ m2)),
            <- (length_map fst (List.filter _ m1)).
    symmetry. by apply Permutation_length, agreed_keys_perm. }
  split; [exact Hm|]. split.
  - assert (Hlen : length (remove_dups (JsMap.keys m2 ++ JsMap.keys m1))
                   = length (remove_dups (JsMap.keys m1 ++ JsMap.keys m2))).
    { apply Permutation_length, NoDup_Permutation;
        [apply NoDup_remove_dups ..|].
      intros k. rewrite !elem_of_remove_dups, !elem_of_app. tauto. }
    lia.
  - intros k.
    rewrite (compareFiles_entriesFor file1 file2 k),
            (compareFiles_entriesFor file2 file1 k).
    cbv zeta. fold m1 m2.
    destruct (JsMap.get k m1) as [row1|] eqn:H1;
      destruct (JsMap.get k m2) as [row2|] eqn:H2.
    + unfold pushedLeft, compareLeft. simpl. rewrite H1, H2.
      rewrite (strictNe_sym (rowPoligono row2)), (strictNe_sym (rowCelda row2)).
      destruct (strictNe (rowPoligono row1) (rowPoligono row2));
        destruct (strictNe (rowCelda row1) (rowCelda row2)); reflexivity.
    + unfold pushedLeft, pushedRight, compareLeft, compareRight, JsMap.has.
      simpl. by rewrite H2.
    + unfold pushedLeft, pushedRight, compareLeft, compareRight, JsMap.has.
      simpl. by rewrite H1.
    + reflexivity.
Qed.

Lemma agreed_or_absent (m1 m2 : JsMap.t Row) :
  length (List.filter (agrees m1) m2)
  + length (List.filter (fun e => negb (JsMap.has e.1 m1)) m2)
  <= length m2.
Proof.
  induction m2 as [|[k row] m IH]; simpl; [lia|].
  unfold agrees at 1, JsMap.has at 1. simpl.
  destruct (JsMap.get k m1); simpl; [destruct (_ && _); simpl; lia | lia].
Qed.

(** X6. When [records] is the number of rows, as the dataset builder sets it,
    [total] is at least the number of distinct keys plus the matched ones: a
    matched key is counted twice in [total], once for each file. *)
Theorem compareFiles_total (file1 file2 : FileData) :
  records file1 = length (data file1) ->
  records file2 = length (data file2) ->
  2 * matching (compareFiles file1 file2)
  + nonMatching (compareFiles file1 file2)
  <= total (compareFiles file1 file2).
Proof.
  intros Hr1 Hr2.
  set (m1 := indexFile (data file1)). set (m2 := indexFile (data file2)).
  destruct (compareFiles_counts file1 file2) as (_ & Hm12 & Hs12).
  destruct (compareFiles_swap file1 file2) as (Hsw & _ & _).
  destruct (compareFiles_counts file2 file1) as (_ & Hm21 & _).
  cbv zeta in Hm12, Hs12, Hm21. fold m1 m2 in Hm12, Hs12, Hm21.
  rewrite distinct_keys in Hs12 by apply indexFile_NoDup.
  pose proof (agreed_or_absent m1 m2) as Hle.
  pose proof (length_indexFile (data file1)) as Hl1.
  pose proof (length_indexFile (data file2)) as Hl2.
  fold m1 in Hl1. fold m2 in Hl2.
  change (total (compareFiles file1 file2)) with (records file1 + records file2).
  lia.
Qed.

Lemma compareFiles_total_witness :
  2 * matching (compareFiles sampleLeft sampleRight)
  + nonMatching (compareFiles sampleLeft sampleRight)
  <= total (compareFiles sampleLeft sampleRight).
Proof.
  apply compareFiles_total; reflexivity.
Defined.

(** ** Validation of a loaded file *)

Lemma length_filter_full {A} (p : A -> bool) (l : list A) :
  length (List.filter p l) = length l -> forall x, x ∈ l -> p x = true.
Proof.
  induction l as [|y l IH]; simpl; [by intros _ x ?%elem_of_nil|].
  pose proof (List.filter_length_le p l) as Hle.
  destruct (p y) eqn:Hy; simpl; intros Hlen x [->|Hx]%elem_of_cons;
    try lia; [exact Hy | apply IH; [lia | exact Hx]].
Qed.

(** X7. [validateFileData] reports nothing exactly when the file has a row,
    its first row has the three mapped columns, and every row has a
    [MATRICULA] value that is not empty, blank or ['N/A']. *)
Theorem validateFileData_passes (data : list Row) :
  validateFileData data = [] <->
  exists firstRow rest,
    data = firstRow :: rest
    /\ is_Some (firstRow !! "MATRICULA")
    /\ is_Some (firstRow !! "CODIGO POLIGONO")
    /\ is_Some (firstRow !! "CODIGO CELDA")
    /\ forall row, row ∈ data -> validRow row = true.
Proof.
  destruct data as [|firstRow rest].
  - simpl. split; [discriminate | by intros (? & ? & [=] & _)].
  - unfold validateFileData, hasColumn.
    set (data := firstRow :: rest).
    pose proof (List.filter_length_le validRow data) as Hle.
    split.
    + destruct (firstRow !! "MATRICULA") eqn:Hm; [|simpl; discriminate].
      destruct (firstRow !! "CODIGO POLIGONO") eqn:Hp; [|simpl; discriminate].
      destruct (firstRow !! "CODIGO CELDA") eqn:Hc; [|simpl; discriminate].
      cbn [negb app].
      destruct (Nat.eqb_spec (length (List.filter validRow data)) 0);
        [discriminate|].
      destruct (Nat.ltb_spec (length (List.filter validRow data)) (length data));
        [discriminate|].
      intros _. exists firstRow, rest. split; [reflexivity|].
      rewrite Hm, Hp, Hc. repeat split; try by eexists.
      apply length_filter_full. lia.
    + intros (f & r & [= <- <-] & [? ->] & [? ->] & [? ->] & Hall).
      cbn [negb app].
      rewrite (filter_all_true validRow data Hall).
      destruct (Nat.eqb_spec (length data) 0) as [H0|_]; [discriminate H0|].
      by rewrite Nat.ltb_irrefl.
Qed.

Lemma normalizeMatricula_nonempty raw :
  JsString.trim raw <> "" -> normalizeMatricula raw <> "".
Proof.
  intros Ht. rewrite normalizeMatricula_cases. cbv zeta.
  destruct (_ && _); [|exact Ht].
  intros H. apply (f_equal String.length) in H.
  rewrite string_length_app in H. simpl in H.
  destruct (JsString.trim raw); [congruence | simpl in H; lia].
Qed.

Lemma validRow_rowKey row :
  validRow row = true ->
  exists raw, row !! "MATRICULA" = Some raw
              /\ rowKey row = Some (normalizeMatricula raw)
              /\ normalizeMatricula raw <> "".
Proof.
  unfold validRow, rowKey, rowMatricula, JsString.or.
  intros [[Ht Hne]%andb_true_iff _]%andb_true_iff.
  rewrite Ht. destruct (row !! "MATRICULA") as [raw|]; [|discriminate].
  exists raw. split; [reflexivity|]. split; [by rewrite !Ht|].
  apply normalizeMatricula_nonempty. by apply strictNe_true.
Qed.

Lemma rowKey_in_keys rows row k :
  row ∈ rows -> rowKey row = Some k -> k ∈ JsMap.keys (indexFile rows).
Proof.
  intros Hin Hk.
  destruct (JsMap.get k (indexFile rows)) eqn:Hget.
  - apply has_true. unfold JsMap.has. by rewrite Hget.
  - rewrite indexFile_last_wins in Hget. apply last_None in Hget.
    assert (row ∈ filter (fun r => rowKey r = Some k) rows)
      by by apply list_elem_of_filter.
    rewrite Hget in H. by apply elem_of_nil in H.
Qed.

Lemma keys_have_rows rows k :
  k ∈ JsMap.keys (indexFile rows) ->
  exists row, row ∈ rows /\ rowKey row = Some k.
Proof.
  intros Hk%has_true. unfold JsMap.has in Hk.
  rewrite indexFile_last_wins in Hk.
  destruct (last _) as [row|] eqn:Hl; [|discriminate].
  apply last_Some_elem_of, list_elem_of_filter in Hl. exists row. tauto.
Qed.

(** X8. In a file that passes validation every row is stored by the
    reconciler, under a key that is not empty: the map of the file has no
    empty key. *)
Theorem validated_keys (data : list Row) :
  validateFileData data = [] ->
  (forall row, row ∈ data ->
     exists k, rowKey row = Some k /\ k <> ""
               /\ k ∈ JsMap.keys (indexFile data))
  /\ "" ∉ JsMap.keys (indexFile data).
Proof.
  intros (f & r & _ & _ & _ & _ & Hall)%validateFileData_passes. split.
  - intros row Hrow. destruct (validRow_rowKey row (Hall row Hrow))
      as (raw & _ & Hk & Hne).
    exists (normalizeMatricula raw). split; [exact Hk|]. split; [exact Hne|].
    by apply (rowKey_in_keys data row).
  - intros (row & Hrow & Hk)%keys_have_rows.
    destruct (validRow_rowKey row (Hall row Hrow)) as (raw & _ & Hk' & Hne).
    congruence.
Qed.

Lemma validated_keys_witness :
  "" ∉ JsMap.keys (indexFile (data sampleLeft)).
Proof.
  apply (validated_keys (data sampleLeft)). reflexivity.
Defined.

(** ** The identifiers of the query script *)

Lemma or_truthy_l a b : JsString.truthy a = true -> a ||| b = a.
Proof. unfold JsString.or. by intros ->. Qed.

Lemma rowIdentifier_rowMatricula row :
  JsString.truthy (rowMatricula row) = true ->
  rowIdentifier row = rowMatricula row.
Proof.
  intros H. unfold rowIdentifier. fold (rowMatricula row).
  by rewrite !(or_truthy_l (rowMatricula row)) by exact H.
Qed.

Lemma extractMatricula_rowKey row k :
  rowKey row = Some k -> extractMatricula row = Some k.
Proof.
  unfold rowKey, extractMatricula.
  destruct (JsString.truthy (rowMatricula row)) eqn:Ht; [|discriminate].
  by rewrite (rowIdentifier_rowMatricula row Ht), Ht.
Qed.

Lemma matriculas_elem f m :
  m ∈ matriculas f <->
  m <> "" /\ exists row, row ∈ data f /\ extractMatricula row = Some m.
Proof.
  unfold matriculas. rewrite list_elem_of_omap. split.
  - intros (o & Ho & Hm). apply list_elem_of_fmap in Ho as (row & -> & Hrow).
    destruct (JsString.truthy (extractMatricula row)) eqn:Ht; [|discriminate].
    rewrite Hm in Ht. simpl in Ht. apply nonEmpty_true in Ht.
    split; [exact Ht|]. by exists row.
  - intros (Hne & row & Hrow & Hm). exists (Some m). split.
    + apply list_elem_of_fmap. by exists row.
    + simpl. apply nonEmpty_true in Hne. by rewrite Hne.
Qed.

(** X9. The query script asks for every key the reconciler files a row of
    file 1 under, the empty key apart: an identifier missing from the query
    is never a key of the comparison. *)
Theorem matriculas_cover_keys (f : FileData) (k : string) :
  k ∈ JsMap.keys (indexFile (data f)) -> k <> "" -> k ∈ matriculas f.
Proof.
  intros (row & Hrow & Hk)%keys_have_rows Hne.
  apply matriculas_elem. split; [exact Hne|].
  exists row. split; [exact Hrow | by apply extractMatricula_rowKey].
Qed.

Lemma matriculas_cover_keys_witness : "000001" ∈ matriculas sampleLeft.
Proof.
  apply matriculas_cover_keys; [vm_compute; left | discriminate].
Defined.

(** X10. An identifier listed by the query script is never empty and is
    already normalised: normalising it again changes nothing.  The list is no
    longer than the file. *)
Theorem matriculas_normalized (f : FileData) :
  (forall m, m ∈ matriculas f -> m <> "" /\ normalizeMatricula m = m)
  /\ length (matriculas f) <= length (data f).
Proof.
  split.
  - intros m (Hne & row & _ & Hm)%matriculas_elem. split; [exact Hne|].
    unfold extractMatricula in Hm.
    destruct (JsString.truthy (rowIdentifier row)); [|discriminate].
    injection Hm as <-. apply normalizeMatricula_idempotent.
  - unfold matriculas.
    etrans; [apply length_omap_le|]. by rewrite length_map.
Qed.

(** X11. For a loaded file 1 that passes validation, [generateQueryScript]
    stores a script: it lists one identifier for each row of the file, the
    flag of the query script is set, step 1 is completed and the last notice
    is not an error. *)
Theorem generateQueryScript_validated (now : string) (st : AppState)
    (f : FileData) :
  file1 st = Some f ->
  validateFileData (data f) = [] ->
  let st' := generateQueryScript now st in
  length (matriculas f) = length (data f)
  /\ queryScript st' = queryScriptText now f (matriculas f)
  /\ isQueryScript st' = true
  /\ 1 ∈ completedSteps st'
  /\ (variant <$> last (toasts st')) = Some None
  /\ file1 st' = file1 st /\ file2 st' = file2 st
  /\ comparison st' = comparison st /\ scripts st' = scripts st.
Proof.
  intros Hf Hv st'.
  assert (Hlen : length (matriculas f) = length (data f)).
  { apply validateFileData_passes in Hv as (fr & r & _ & _ & _ & _ & Hall).
    unfold matriculas. generalize dependent (data f). clear.
    intros rows Hall. induction rows as [|row rows IH]; [reflexivity|].
    destruct (validRow_rowKey row) as (raw & _ & Hk & Hne);
      [apply Hall; left|].
    csimpl. rewrite (extractMatricula_rowKey row _ Hk). simpl.
    apply nonEmpty_true in Hne. rewrite Hne. simpl. f_equal.
    apply IH. intros r Hr. apply Hall. by right. }
  split; [exact Hlen|].
  assert (Hne : (length (matriculas f) =? 0) = false).
  { apply Nat.eqb_neq. rewrite Hlen.
    apply validateFileData_passes in Hv as (fr & r & -> & _). simpl. lia. }
  unfold st', generateQueryScript. rewrite Hf, Hne.
  unfold completeStep. simpl.
  destruct (bool_decide (1 ∈ completedSteps st)) eqn:H1; simpl;
    [apply bool_decide_eq_true in H1|];
    repeat split; try reflexivity; try exact H1; try exact Hf;
    try (by rewrite last_snoc); set_solver.
Qed.

Lemma generateQueryScript_validated_witness :
  length (matriculas workbookFile) = 2
  /\ isQueryScript (generateQueryScript "2/11/2026, 10:00:00" loadedState)
     = true.
Proof.
  destruct (generateQueryScript_validated "2/11/2026, 10:00:00" loadedState
              workbookFile eq_refl eq_refl) as (H1 & _ & H2 & _).
  split; [exact H1 | exact H2].
Defined.

(** ** Steps of the page *)

Lemma foldr_max_split (x : nat) (l : list nat) :
  foldr Nat.max x l = Nat.max x (foldr Nat.max 0 l).
Proof. induction l as [|y l IH]; simpl; lia. Qed.

Lemma foldr_max_elem (s : nat) (l : list nat) :
  s ∈ l -> s <= foldr Nat.max 0 l.
Proof.
  induction l as [|y l IH]; [by intros ?%elem_of_nil|].
  intros [->|H]%elem_of_cons; simpl; [lia|]. specialize (IH H). lia.
Qed.

(** X12. A breadcrumb leads to a step exactly when the step is not beyond the
    furthest step reached, the greatest of the current step and the completed
    ones; going there changes the current step only, and never brings a
    further step within reach. *)
Theorem canNavigateToStep_frontier (step : nat) (ps : PageState) :
  canNavigateToStep step ps = (step <=? maxStep ps)
  /\ completedSteps (appState (navigateTo step ps))
     = completedSteps (appState ps)
  /\ maxStep (navigateTo step ps) <= maxStep ps
  /\ (forall other, canNavigateToStep other (navigateTo step ps) = true ->
        canNavigateToStep other ps = true).
Proof.
  assert (Hcan : forall s p, canNavigateToStep s p = (s <=? maxStep p)).
  { intros s p. unfold canNavigateToStep.
    destruct (bool_decide (s ∈ completedSteps (appState p))) eqn:Hin;
      [|reflexivity].
    apply bool_decide_eq_true, foldr_max_elem in Hin.
    symmetry. apply Nat.leb_le. unfold maxStep.
    rewrite foldr_max_split. simpl. lia. }
  assert (Hmax : maxStep (navigateTo step ps) <= maxStep ps).
  { unfold navigateTo. rewrite Hcan.
    destruct (Nat.leb_spec step (maxStep ps)) as [Hle|]; [|reflexivity].
    unfold maxStep in *. simpl. rewrite foldr_max_split in Hle |- *.
    rewrite (foldr_max_split (currentStep ps)). lia. }
  split; [apply Hcan|]. split; [|split; [exact Hmax|]].
  - unfold navigateTo. by destruct (canNavigateToStep step ps).
  - intros other. rewrite !Hcan, !Nat.leb_le. lia.
Qed.

Lemma completeStep_spec (n : nat) (st : AppState) :
  n ∈ completedSteps (completeStep n st)
  /\ (forall s, s ∈ completedSteps st -> s ∈ completedSteps (completeStep n st))
  /\ (NoDup (completedSteps st) -> NoDup (completedSteps (completeStep n st))).
Proof.
  unfold completeStep.
  destruct (bool_decide (n ∈ completedSteps st)) eqn:Hin; simpl.
  - apply bool_decide_eq_true in Hin. by repeat split.
  - apply bool_decide_eq_false in Hin. repeat split.
    + set_solver.
    + set_solver.
    + intros Hnd. apply NoDup_app. repeat split; [exact Hnd | | apply NoDup_singleton].
      intros x Hx ->%list_elem_of_singleton. contradiction.
Qed.

(** X13. After [updateStep] the step is the current one and shows as
    completed; the steps completed before stay completed, and no step is
    entered twice in the list. *)
Theorem updateStep_completed (step : nat) (ps : PageState) :
  currentStep (updateStep step ps) = step
  /\ getStepStatus step (updateStep step ps) = completed
  /\ (forall s, getStepStatus s ps = completed ->
        getStepStatus s (updateStep step ps) = completed)
  /\ (NoDup (completedSteps (appState ps)) ->
        NoDup (completedSteps (appState (updateStep step ps)))).
Proof.
  destruct (completeStep_spec step (appState ps)) as (Hin & Hkeep & Hnd).
  assert (Hst : forall s p, getStepStatus s p = completed <->
                            s ∈ completedSteps (appState p)).
  { intros s p. unfold getStepStatus.
    destruct (bool_decide (s ∈ completedSteps (appState p))) eqn:H.
    - apply bool_decide_eq_true in H. tauto.
    - apply bool_decide_eq_false in H.
      destruct (currentStep p =? s); split; (discriminate || tauto). }
  split; [reflexivity|]. split; [by apply Hst|]. split; [|exact Hnd].
  intros s Hs%Hst. apply Hst. by apply Hkeep.
Qed.

(** ** Clearing a file *)

(** X14. [clearFile] drops the comparison and the update script only if one
    of the two files was already missing.  With both files loaded it removes
    the file and keeps the comparison and the script made from it, and
    [generateScripts] then still writes the statements of that comparison,
    for a file that is no longer there. *)
Theorem clearFile_keeps_comparison (fileNumber : FileNumber) (st : AppState)
    (f1 f2 : FileData) :
  file1 st = Some f1 ->
  file2 st = Some f2 ->
  currentFile fileNumber (clearFile fileNumber st) = None
  /\ comparison (clearFile fileNumber st) = comparison st
  /\ scripts (clearFile fileNumber st) = scripts st
  /\ forall now c,
       comparison st = Some c ->
       scripts (generateScripts now (clearFile File1 st))
       = updateScriptText now None (Some f2) c.
Proof.
  intros H1 H2. unfold clearFile. rewrite H1, H2.
  split; [by destruct fileNumber|]. split; [by destruct fileNumber|].
  split; [by destruct fileNumber|].
  intros now c Hc. unfold generateScripts. simpl. rewrite Hc.
  unfold completeStep. simpl.
  destruct (bool_decide (3 ∈ completedSteps st)); simpl; by rewrite H2.
Qed.

Lemma clearFile_keeps_comparison_witness :
  file1 (clearFile File1 comparedState) = None
  /\ comparison (clearFile File1 comparedState)
     = Some (compareFiles sampleLeft sampleRight).
Proof.
  destruct (clearFile_keeps_comparison File1 comparedState sampleLeft
              sampleRight eq_refl eq_refl) as (H1 & H2 & _).
  split; [exact H1 | exact H2].
Defined.

(** With a file already missing, the comparison and the script go. *)
Lemma clearFile_drops_comparison (fileNumber : FileNumber) (st : AppState) :
  file1 st = None \/ file2 st = None ->
  comparison (clearFile fileNumber st) = None
  /\ scripts (clearFile fileNumber st) = "".
Proof.
  unfold clearFile.
  intros [H|H]; rewrite H; destruct (file1 st), (file2 st), fileNumber;
    by split.
Qed.

(** ** The chunks and their headers *)

(** X15. The range a chunk header announces, from [j * 1000 + 1] to
    [min ((j + 1) * 1000) n], is the range of the positions of the
    identifiers of that chunk; every chunk before the last one is full. *)
Theorem chunk_ranges {A} (l : list A) (j : nat) (c : list A) :
  FileCompress.chunks l !! j = Some c ->
  Nat.min ((j + 1) * FileCompress.CHUNK_SIZE) (length l)
  = j * FileCompress.CHUNK_SIZE + length c
  /\ (j + 1 < length (FileCompress.chunks l) ->
      length c = FileCompress.CHUNK_SIZE)
  /\ (forall i x, c !! i = Some x ->
        l !! (j * FileCompress.CHUNK_SIZE + i) = Some x).
Proof.
  intros Hc. destruct (chunks_spec l) as (_ & Hch & _ & Hlow).
  destruct (Hch j c Hc) as (Heq & Hpos & _).
  assert (Hlen : length c = Nat.min 1000 (length l - j * 1000)).
  { rewrite Heq at 1. by rewrite length_take, length_drop. }
  change FileCompress.CHUNK_SIZE with 1000.
  split; [lia|]. split.
  - intros Hj. assert (0 < length l) by lia. specialize (Hlow H). lia.
  - intros i x Hi. rewrite Heq in Hi.
    apply lookup_take_Some in Hi as [Hi _]. by rewrite lookup_drop in Hi.
Qed.

Lemma chunk_ranges_witness :
  Nat.min ((1 + 1) * FileCompress.CHUNK_SIZE)
          (length (FileCompress.allInstalaciones [fileOfIds 1001]))
  = 1 * FileCompress.CHUNK_SIZE + 1.
Proof.
  destruct (chunk_ranges (FileCompress.allInstalaciones [fileOfIds 1001]) 1
              (drop 1000 (FileCompress.allInstalaciones [fileOfIds 1001])))
    as (H & _); [vm_compute; reflexivity|].
  rewrite H. f_equal.
Defined.

(** X16. The identifiers to validate are those of the files, file after file
    and in the order each file has them, none dropped and none merged; each
    carries the circuit of its file. *)
Theorem allInstalaciones_flat (fileList : list FileCompress.ProcessedFile) :
  map FileCompress.instalacao (FileCompress.allInstalaciones fileList)
  = concat (map FileCompress.instalaciones fileList)
  /\ length (FileCompress.allInstalaciones fileList)
     = sum_list (map (fun file => length (FileCompress.instalaciones file))
                     fileList)
  /\ forall item, item ∈ FileCompress.allInstalaciones fileList ->
       exists file, file ∈ fileList
         /\ FileCompress.instalacao item ∈ FileCompress.instalaciones file
         /\ FileCompress.item_circuito item = FileCompress.circuito file.
Proof.
  unfold FileCompress.allInstalaciones. split; [|split].
  - induction fileList as [|file fl IH]; [reflexivity|]. simpl.
    rewrite map_app, IH, map_map. simpl. by rewrite map_id.
  - induction fileList as [|file fl IH]; [reflexivity|]. simpl.
    by rewrite length_app, IH, length_map.
  - intros item Hin. apply list_elem_of_In, in_flat_map in Hin as (file & Hf & Hi).
    apply list_elem_of_In, list_elem_of_fmap in Hi as (inst & -> & Hinst).
    exists file. split; [by apply list_elem_of_In | by split].
Qed.

(** ** [FileCompress] as the page has it *)

(** X17. In this revision the validation script is never cut: whatever the
    number of identifiers, above 1000 too, it has one validation [SELECT]
    that lists them all, the summary that repeats the list once, no
    [UNION ALL] and no temporary table. *)
Theorem simple_script_never_chunks (now : string)
    (fileList : list FileCompress.ProcessedFile) :
  let ids := FileCompress.allInstalaciones fileList in
  let script := FileCompressPage.validationScriptLines now fileList in
  countLines (isLine "WHERE instalacao IN (") script = 1
  /\ countLines (isLine "    WHERE instalacao IN (") script = 1
  /\ countLines (isLine "UNION ALL") script = 0
  /\ countLines (isLine "CREATE GLOBAL TEMPORARY TABLE TEMP_INSTALACIONES (")
       script = 0
  /\ length script = 36 + 2 * length ids
  /\ exists before after,
       script = before ++ FileCompress.inListLines "    " true ids ++ after
       /\ last before = Some "WHERE instalacao IN ("
       /\ head after = Some ")".
Proof.
  intros ids script. unfold script, FileCompressPage.validationScriptLines.
  fold ids.
  split; [count_parts; count_written; lia|].
  split; [count_parts; count_written; lia|].
  split; [count_parts; count_written; lia|].
  split; [count_parts; count_written; lia|].
  split.
  - rewrite !length_app. unfold FileCompress.inListLines.
    rewrite !length_imap. simpl. lia.
  - eexists _, _. split; [reflexivity|]. split; reflexivity.
Qed.

Lemma foldl_add_acc {A} (f : A -> nat) (l : list A) (acc : nat) :
  foldl (fun total x => total + f x) acc l = acc + sum_list (map f l).
Proof.
  revert acc; induction l as [|x l IH]; intros acc; simpl; [lia|].
  rewrite IH. lia.
Qed.

(** X18. The total the message announces is the number of identifiers the
    validation script lists, and the message has one line for each file. *)
Theorem email_total (fileList : list FileCompress.ProcessedFile) :
  FileCompressPage.totalInstalaciones fileList
  = length (FileCompress.allInstalaciones fileList)
  /\ length (imap FileCompressPage.fileLine fileList) = length fileList.
Proof.
  split; [|apply length_imap].
  unfold FileCompressPage.totalInstalaciones. rewrite foldl_add_acc.
  destruct (allInstalaciones_flat fileList) as (_ & -> & _). reflexivity.
Qed.

(** ** The two revisions of the normaliser *)

Lemma substring_all (s : string) : String.substring 0 (String.length s) s = s.
Proof. induction s as [|c s IH]; simpl; [reflexivity | by rewrite IH]. Qed.

Lemma padStart_zeros (s : string) :
  padStart 6 "0" s
  = if String.length s <? 6
    then JsString.repeat "0" (6 - String.length s) +:+ s else s.
Proof.
  unfold padStart. simpl (String.length "0" =? 0). rewrite orb_false_r.
  destruct (Nat.leb_spec 6 (String.length s)) as [H|H];
    destruct (Nat.ltb_spec (String.length s) 6) as [H'|H']; try lia;
    [reflexivity|].
  rewrite <- (repeat_zero_length (6 - String.length s)) at 1.
  by rewrite substring_all.
Qed.

(** X19. The two revisions of the page normalise alike: on every value that
    [compareFiles] normalises, a truthy one, the declared function that pads
    with [padStart] returns what the inline code returns. *)
Theorem normalizers_agree (matricula : option string) :
  JsString.truthy matricula = true ->
  normalizeMatricula_padStart matricula
  = normalizeMatricula (default "" matricula).
Proof.
  intros Ht. unfold normalizeMatricula_padStart. rewrite Ht. simpl negb.
  cbv iota. rewrite normalizeMatricula_cases. cbv zeta.
  destruct (JsString.isDigits _); [|reflexivity].
  rewrite padStart_zeros. reflexivity.
Qed.

Lemma normalizers_agree_witness :
  normalizeMatricula_padStart (Some " 517 ") = "000517".
Proof.
  rewrite (normalizers_agree (Some " 517 ")); reflexivity.
Defined.

(** ** The choice of the sheet *)

Lemma find_and {A} (P Q : A -> bool) (l : list A) (x : A) :
  List.find P l = Some x -> Q x = true ->
  List.find (fun y => Q y && P y) l = Some x.
Proof.
  induction l as [|a l IH]; simpl; [discriminate|]. intros H HQ.
  destruct (P a) eqn:HP.
  - injection H as ->. by rewrite HQ.
  - rewrite andb_false_r. by apply IH.
Qed.

Lemma find_and_none {A} (P Q : A -> bool) (l : list A) :
  List.find P l = None -> List.find (fun y => Q y && P y) l = None.
Proof.
  induction l as [|a l IH]; simpl; [done|]. intros H.
  destruct (P a); [discriminate|]. rewrite andb_false_r. by apply IH.
Qed.

Lemma find_elem {A} (P : A -> bool) (l : list A) (x : A) :
  List.find P l = Some x -> x ∈ l /\ P x = true.
Proof.
  intros H. apply find_some in H as [H1 H2]. split; [|done].
  by apply list_elem_of_In.
Qed.

Lemma find_none_elem {A} (P : A -> bool) (l : list A) (x : A) :
  List.find P l = None -> x ∈ l -> P x = false.
Proof.
  intros H Hx. apply (find_none P l H). by apply list_elem_of_In.
Qed.

Lemma lookup_default_elem {A} (l : list A) (i : nat) (d : A) :
  i < length l -> default d (l !! i) ∈ l.
Proof.
  intros H. destruct (lookup_lt_is_Some_2 l i H) as [x Hx]. rewrite Hx.
  simpl. by eapply list_elem_of_lookup_2.
Qed.

Ltac listed :=
  solve [repeat first [apply list_elem_of_here | apply list_elem_of_further]].

Lemma headerName_nonempty (random : nat -> string) (i : nat) (c : Cell) :
  headerName random i c <> "".
Proof.
  unfold headerName, orDefault.
  destruct (cellText c) as [|a s] eqn:Ht; simpl; [|done].
  done.
Qed.

(** Rows read from a sheet. *)

Lemma normalizeMatricula_trim raw :
  normalizeMatricula (JsString.trim raw) = normalizeMatricula raw.
Proof. rewrite !normalizeMatricula_cases. cbv zeta. by rewrite trim_idemp. Qed.

Lemma cleanValue_key (value : Cell) :
  cleanValue value true <> "" ->
  cleanValue value true = JsString.trim (cellText value).
Proof.
  unfold cleanValue. destruct value; try done;
    (destruct (_ || _); [done|reflexivity]).
Qed.

Lemma addColumn_keeps (row : list Cell) (obj : Row) (colIndex : nat)
    (header key v : string) :
  obj !! key = Some v -> v <> "" ->
  addColumn row obj colIndex header !! key = Some v.
Proof.
  intros Hk Hv. unfold addColumn.
  destruct (unset obj header) eqn:Hu; [|exact Hk].
  assert (header <> key) as Hne.
  { intros ->. unfold unset in Hu. rewrite Hk in Hu.
    apply nonEmpty_true in Hv. by rewrite Hv in Hu. }
  destruct (default CEmpty (row !! colIndex));
    by rewrite lookup_insert_ne.
Qed.

Lemma addColumns_keeps (row : list Cell) (headers : list string)
    (colIndex : nat) (obj : Row) (key v : string) :
  obj !! key = Some v -> v <> "" ->
  addColumns row colIndex headers obj !! key = Some v.
Proof.
  revert colIndex obj.
  induction headers as [|header rest IH]; intros colIndex obj Hk Hv;
    simpl; [exact Hk|].
  apply IH; [|exact Hv]. by apply addColumn_keeps.
Qed.

Lemma setMapped_other (key key' : string) (mapped : option string)
    (headers : list string) (row : list Cell) (obj : Row) :
  key <> key' -> setMapped key' mapped headers row obj !! key = obj !! key.
Proof.
  intros Hne. unfold setMapped. destruct (JsString.truthy mapped); [|done].
  by rewrite lookup_insert_ne.
Qed.

Lemma setMapped_same (key h : string) (headers : list string)
    (row : list Cell) (obj : Row) :
  h <> "" ->
  setMapped key (Some h) headers row obj !! key
  = Some (cleanValue (cellAt row (indexOf h headers)) true).
Proof.
  intros Hh. unfold setMapped. apply nonEmpty_true in Hh. simpl.
  rewrite Hh. simpl. by rewrite lookup_insert_eq.
Qed.

Lemma find_app_first {A} (P : A -> bool) (pre post : list A) (x : A) :
  Forall (fun y => P y = false) pre -> P x = true ->
  List.find P (pre ++ x :: post) = Some x.
Proof.
  intros Hpre Hx. induction Hpre as [|y pre Hy _ IH]; simpl.
  - by rewrite Hx.
  - by rewrite Hy.
Qed.

Lemma indexOf_app_first (pre post : list string) (x : string) :
  x ∉ pre -> indexOf x (pre ++ x :: post) = Some (length pre).
Proof.
  induction pre as [|y pre IH]; simpl; intros Hx.
  - by rewrite decide_True.
  - rewrite decide_False by set_solver. rewrite IH by set_solver. done.
Qed.

(** Uploads. *)

Lemma foldl_toast (notices : list Toast) (st : AppState) :
  let st' := foldl (fun st t => toast t st) st notices in
  file1 st' = file1 st /\ file2 st' = file2 st
  /\ comparison st' = comparison st /\ scripts st' = scripts st
  /\ queryScript st' = queryScript st /\ isQueryScript st' = isQueryScript st
  /\ completedSteps st' = completedSteps st.
Proof.
  revert st. induction notices as [|t notices IH]; intros st; simpl; [done|].
  destruct (IH (toast t st)) as (-> & -> & -> & -> & -> & -> & ->). done.
Qed.

Lemma completeStep_keeps (n : nat) (st : AppState) :
  let st' := completeStep n st in
  file1 st' = file1 st /\ file2 st' = file2 st
  /\ comparison st' = comparison st /\ scripts st' = scripts st
  /\ queryScript st' = queryScript st /\ isQueryScript st' = isQueryScript st.
Proof. unfold completeStep. by case_bool_decide. Qed.

Section ReadingFacts.

Variable toLowerCase : string -> string.

(** What [toLowerCase] makes of the empty string. *)
Hypothesis toLowerCase_empty : toLowerCase "" = "".

Lemma specificName_empty : specificName toLowerCase "" = true.
Proof using toLowerCase_empty.
  unfold specificName. by rewrite toLowerCase_empty.
Qed.

(** X20. For a workbook with a sheet, and a [toLowerCase] that leaves the
    empty string empty, the sheet chosen is one of the workbook and the
    method reported is never [nombre_específico_con_validación]: the second
    step only runs when the first one left no name, and then the third step
    runs as well and reports what it finds as its own. *)
Theorem chooseSheet_methods (wb : Workbook) :
  SheetNames wb <> [] ->
  circuitSheet (chooseSheet toLowerCase wb) ∈ SheetNames wb
  /\ detectionMethod (chooseSheet toLowerCase wb)
     ∈ ["contenido_válido"; "nombre_específico_sin_validación";
        "segunda_hoja"; "primera_hoja"].
Proof using toLowerCase_empty.
  intros Hne. unfold chooseSheet, firstWhere.
  assert (Hfirst : default "" (SheetNames wb !! 0) ∈ SheetNames wb).
  { apply lookup_default_elem. destruct (SheetNames wb); [done|simpl; lia]. }
  assert (Hsecond : (1 <? length (SheetNames wb)) = true ->
                    default "" (SheetNames wb !! 1) ∈ SheetNames wb).
  { intros H. apply lookup_default_elem. by apply Nat.ltb_lt. }
  assert (Htail : forall c,
    circuitSheet c = "" ->
    let c4 :=
      if negb (JsString.nonEmpty (circuitSheet c))
         && (1 <? length (SheetNames wb))
      then {| circuitSheet := default "" (SheetNames wb !! 1);
              detectionMethod := "segunda_hoja" |}
      else c in
    let c5 :=
      if negb (JsString.nonEmpty (circuitSheet c4))
      then {| circuitSheet := default "" (SheetNames wb !! 0);
              detectionMethod := "primera_hoja" |}
      else c4 in
    circuitSheet c5 ∈ SheetNames wb
    /\ detectionMethod c5
       ∈ ["contenido_válido"; "nombre_específico_sin_validación";
          "segunda_hoja"; "primera_hoja"]).
  { intros c Hc. rewrite Hc. simpl.
    destruct (1 <? length (SheetNames wb)) eqn:Hlen; simpl.
    - destruct (JsString.nonEmpty (default "" (SheetNames wb !! 1))); simpl;
        (split; [auto|listed]).
    - rewrite Hc. simpl. split; [auto|listed]. }
  destruct (List.find (detectValidSheet toLowerCase wb) (SheetNames wb))
    as [n|] eqn:Hv.
  - destruct n as [|a n].
    + cbn [circuitSheet JsString.nonEmpty negb].
      rewrite (find_and _ (specificName toLowerCase) _ _ Hv
                 specificName_empty).
      cbn [circuitSheet JsString.nonEmpty negb].
      destruct (List.find (specificName toLowerCase) (SheetNames wb))
        as [m|] eqn:Hs.
      * destruct m as [|b m].
        -- exact (Htail {| circuitSheet := "";
                       detectionMethod := "nombre_específico_sin_validación" |}
                     eq_refl).
        -- simpl. apply find_elem in Hs as [Hs _]. split; [done|listed].
      * apply find_elem in Hv as [Hv _].
        pose proof specificName_empty as Hse.
        by rewrite (find_none_elem _ _ _ Hs Hv) in Hse.
    + simpl. apply find_elem in Hv as [Hv _]. split; [done|listed].
  - cbn [circuitSheet JsString.nonEmpty negb].
    rewrite (find_and_none _ (specificName toLowerCase) _ Hv).
    cbn [circuitSheet JsString.nonEmpty negb].
    destruct (List.find (specificName toLowerCase) (SheetNames wb))
      as [m|] eqn:Hs.
    + destruct m as [|b m].
      * exact (Htail {| circuitSheet := "";
                     detectionMethod := "nombre_específico_sin_validación" |}
                     eq_refl).
      * simpl. apply find_elem in Hs as [Hs _]. split; [done|listed].
    + exact (Htail {| circuitSheet := ""; detectionMethod := "" |} eq_refl).
Qed.

(** X21. The method reported is [contenido_válido] exactly when a sheet
    passes [detectValidSheet] and the first to pass has a name that is not
    empty; the sheet chosen is then that one, whatever its name and its
    place in the workbook. *)
Theorem chooseSheet_content_first (wb : Workbook) :
  detectionMethod (chooseSheet toLowerCase wb) = "contenido_válido" <->
  exists n,
    List.find (detectValidSheet toLowerCase wb) (SheetNames wb) = Some n
    /\ n <> "" /\ circuitSheet (chooseSheet toLowerCase wb) = n.
Proof.
  unfold chooseSheet, firstWhere.
  destruct (List.find (detectValidSheet toLowerCase wb) (SheetNames wb))
    as [[|a n]|] eqn:Hv.
  - split; [|intros (n & [= <-] & Hn & _); done].
    cbn [circuitSheet JsString.nonEmpty negb].
    repeat (case_match; cbn [circuitSheet detectionMethod JsString.nonEmpty
                               negb andb] in *); try discriminate.
  - split; [|done]. intros _. exists (String a n). done.
  - split; [|intros (n & [=] & _)].
    cbn [circuitSheet JsString.nonEmpty negb].
    repeat (case_match; cbn [circuitSheet detectionMethod JsString.nonEmpty
                               negb andb] in *); try discriminate.
Qed.

Lemma chooseSheet_elem (wb : Workbook) :
  SheetNames wb <> [] ->
  circuitSheet (chooseSheet toLowerCase wb) ∈ SheetNames wb.
Proof.
  intros Hne.
  assert (Hfirst : default "" (SheetNames wb !! 0) ∈ SheetNames wb).
  { apply lookup_default_elem. destruct (SheetNames wb); [done|simpl; lia]. }
  assert (Hsecond : (1 <? length (SheetNames wb)) = true ->
                    default "" (SheetNames wb !! 1) ∈ SheetNames wb).
  { intros H. apply lookup_default_elem. by apply Nat.ltb_lt. }
  assert (Hfind : forall P n,
            List.find P (SheetNames wb) = Some n -> n ∈ SheetNames wb).
  { intros P n H. by apply find_elem in H as [H _]. }
  unfold chooseSheet, firstWhere.
  repeat (case_match;
          cbn [circuitSheet detectionMethod JsString.nonEmpty negb andb]
            in *);
    try discriminate; eauto;
    match goal with
    | H : _ && (1 <? _) = true |- _ => apply andb_prop in H as [_ H]; eauto
    end.
Qed.


(** X22. A file that [processExcelFile] resolves to comes from the sheet it
    names, which is one of the workbook: it has one column for each cell of
    the first row of that sheet, none with an empty name, at most one record
    for each row under it, and [records] is the number of its rows. *)
Theorem processExcelFile_resolves (file : ExcelFile) (notices : list Toast)
    (f : FileData) :
  processExcelFile toLowerCase file = (notices, inr f) ->
  exists wb headerRow rest,
    workbook file = inr wb
    /\ sheetTable wb (hojaProcesada f) = inr (headerRow :: rest)
    /\ hojasDisponibles f = SheetNames wb
    /\ hojaProcesada f ∈ hojasDisponibles f
    /\ records f = length (data f)
    /\ length (data f) = length (List.filter rowHasContent rest)
    /\ length (data f) <= length rest
    /\ length (columns f) = length headerRow
    /\ Forall (fun h => h <> "") (columns f)
    /\ title <$> notices = ["Hoja detectada"].
Proof.
  unfold processExcelFile. intros H.
  destruct (workbook file) as [message|wb]; [discriminate|].
  destruct (length (SheetNames wb) =? 0) eqn:Hlen; [discriminate|].
  destruct (sheetTable wb (circuitSheet (chooseSheet toLowerCase wb)))
    as [message|[|headerRow rest]] eqn:Ht; try discriminate.
  injection H as <- <-. exists wb, headerRow, rest. cbn.
  repeat match goal with |- _ /\ _ => split end;
    rewrite ?length_map, ?length_imap; try done.
  - apply chooseSheet_elem. intros Hnil. by rewrite Hnil in Hlen.
  - apply filter_length_le.
  - apply Forall_forall. intros h [i [c [-> _]]]%elem_of_lookup_imap.
    apply headerName_nonempty.
Qed.

Lemma headerWith_nonempty (words : list string) (headers : list string)
    (h : string) :
  List.find (headerWith toLowerCase words) headers = Some h -> h <> "".
Proof.
  intros [_ H]%find_elem. unfold headerWith in H.
  apply andb_prop in H as [H _]. by apply nonEmpty_true.
Qed.

Lemma buildRow_matricula (headers : list string) (row : list Cell)
    (h : string) :
  mapped_matricula (mapColumns toLowerCase headers) = Some h ->
  cleanValue (cellAt row (indexOf h headers)) true <> "" ->
  let value := cellAt row (indexOf h headers) in
  let built := buildRow headers (mapColumns toLowerCase headers) row in
  built !! "MATRICULA" = Some (JsString.trim (cellText value))
  /\ rowKey built = Some (normalizeMatricula (cellText value)).
Proof.
  intros Hm Hc. cbv zeta.
  set (value := cellAt row (indexOf h headers)) in *.
  set (built := buildRow headers (mapColumns toLowerCase headers) row).
  assert (Hb : built !! "MATRICULA" = Some (JsString.trim (cellText value))).
  { unfold built, buildRow. rewrite <- (cleanValue_key _ Hc).
    apply addColumns_keeps; [|exact Hc].
    rewrite (setMapped_other "MATRICULA" "CODIGO CELDA") by discriminate.
    rewrite (setMapped_other "MATRICULA" "CODIGO POLIGONO") by discriminate.
    rewrite Hm.
    apply setMapped_same. exact (headerWith_nonempty _ _ _ Hm). }
  split; [exact Hb|].
  rewrite <- (cleanValue_key _ Hc) in Hb.
  unfold rowKey, rowMatricula. rewrite Hb.
  assert (Ht : JsString.truthy (Some (cleanValue value true)) = true).
  { simpl. by apply nonEmpty_true. }
  rewrite !(or_truthy_l _ _ Ht), Ht. simpl.
  by rewrite (cleanValue_key _ Hc), normalizeMatricula_trim.
Qed.


(** X23. The key the reconciler files a row of a workbook under is the
    normalised text of the cell in the column mapped as the identifier,
    whenever that cell is not blank and not one of the markers [N/A], [NULL]
    and [undefined]: the columns added afterwards do not replace it. *)
Theorem buildRow_key (headers : list string) (row : list Cell) (h : string) :
  mapped_matricula (mapColumns toLowerCase headers) = Some h ->
  cleanValue (cellAt row (indexOf h headers)) true <> "" ->
  let value := cellAt row (indexOf h headers) in
  let built := buildRow headers (mapColumns toLowerCase headers) row in
  built !! "MATRICULA" = Some (JsString.trim (cellText value))
  /\ rowKey built = Some (normalizeMatricula (cellText value)).
Proof. exact (buildRow_matricula headers row h). Qed.

Lemma mentions_word (words : list string) (word s : string) :
  word ∈ words -> includes word (toLowerCase s) = true ->
  mentions toLowerCase words s = true.
Proof.
  intros Hw Hi. unfold mentions. apply existsb_exists. exists word.
  split; [by apply list_elem_of_In|exact Hi].
Qed.

(** X24. The identifier column is the first header that contains
    [matricula], [instalacao], [codigo], [matrícula] or [id].  When the
    first such header is the one of the polygon code, which contains
    [codigo], that column is mapped twice, and every row with a value there
    gets its polygon code as its identifier. *)
Theorem mapColumns_codigo (pre post : list string) (h : string)
    (row : list Cell) :
  Forall (fun h' => headerWith toLowerCase matriculaWords h' = false
                    /\ headerWith toLowerCase poligonoWords h' = false) pre ->
  h <> "" ->
  includes "codigo" (toLowerCase h) = true ->
  includes "poligono" (toLowerCase h) = true ->
  cleanValue (default CEmpty (row !! length pre)) true <> "" ->
  let headers := pre ++ h :: post in
  let columnMapping := mapColumns toLowerCase headers in
  let built := buildRow headers columnMapping row in
  mapped_matricula columnMapping = Some h
  /\ mapped_poligono columnMapping = Some h
  /\ rowMatricula built = Some (rowPoligono built)
  /\ rowKey built
     = Some (normalizeMatricula
               (cellText (default CEmpty (row !! length pre)))).
Proof.
  intros Hpre Hh Hcod Hpol Hc. cbv zeta.
  set (headers := pre ++ h :: post).
  assert (Hm : headerWith toLowerCase matriculaWords h = true).
  { unfold headerWith. apply andb_true_intro. split; [by apply nonEmpty_true|].
    apply (mentions_word _ "codigo"); [listed|exact Hcod]. }
  assert (Hp : headerWith toLowerCase poligonoWords h = true).
  { unfold headerWith. apply andb_true_intro. split; [by apply nonEmpty_true|].
    apply (mentions_word _ "poligono"); [listed|exact Hpol]. }
  assert (Hfm : mapped_matricula (mapColumns toLowerCase headers) = Some h).
  { apply find_app_first; [|exact Hm].
    eapply Forall_impl; [exact Hpre|]. by intros h' [H _]. }
  assert (Hfp : mapped_poligono (mapColumns toLowerCase headers) = Some h).
  { apply find_app_first; [|exact Hp].
    eapply Forall_impl; [exact Hpre|]. by intros h' [_ H]. }
  assert (Hi : indexOf h headers = Some (length pre)).
  { apply indexOf_app_first. intros Hin.
    rewrite Forall_forall in Hpre. destruct (Hpre h Hin) as [H _].
    by rewrite H in Hm. }
  assert (Hc' : cleanValue (cellAt row (indexOf h headers)) true <> "")
    by (by rewrite Hi).
  destruct (buildRow_matricula headers row h Hfm Hc') as [Hb Hk].
  split; [exact Hfm|]. split; [exact Hfp|].
  rewrite Hi in Hb, Hk. simpl cellAt in Hb, Hk. split; [|exact Hk].
  rewrite <- (cleanValue_key _ Hc) in Hb.
  assert (Hq : buildRow headers (mapColumns toLowerCase headers) row
               !! "CODIGO POLIGONO"
               = Some (cleanValue (default CEmpty (row !! length pre)) true)).
  { unfold buildRow. apply addColumns_keeps; [|exact Hc].
    rewrite (setMapped_other "CODIGO POLIGONO" "CODIGO CELDA") by discriminate.
    rewrite Hfp. rewrite setMapped_same by exact Hh. by rewrite Hi. }
  assert (Ht : JsString.truthy
                 (Some (cleanValue (default CEmpty (row !! length pre)) true))
               = true).
  { simpl. by apply nonEmpty_true. }
  unfold rowMatricula, rowPoligono, orEmpty. rewrite Hb, Hq.
  rewrite !(or_truthy_l _ _ Ht), Ht. reflexivity.
Qed.

(** X25. An upload that succeeds stores the file in its slot and touches
    nothing that was made from the file it replaces: the other file, the
    comparison, the update script and the query script stay as they were.
    When the other file is there the page goes to step 2 and shows it as
    completed; otherwise the steps do not move. *)
Theorem handleFileUpload_resolved (fileNumber : FileNumber)
    (file : ExcelFile) (ps : PageState) (notices : list Toast)
    (f : FileData) :
  processExcelFile toLowerCase file = (notices, inr f) ->
  let ps' := handleFileUpload toLowerCase fileNumber (Some file) ps in
  let other (st : AppState) :=
    match fileNumber with File1 => file2 st | File2 => file1 st end in
  currentFile fileNumber (appState ps') = Some f
  /\ other (appState ps') = other (appState ps)
  /\ comparison (appState ps') = comparison (appState ps)
  /\ scripts (appState ps') = scripts (appState ps)
  /\ queryScript (appState ps') = queryScript (appState ps)
  /\ isQueryScript (appState ps') = isQueryScript (appState ps)
  /\ isProcessing (appState ps') = false
  /\ match other (appState ps) with
     | Some _ => currentStep ps' = 2 /\ getStepStatus 2 ps' = completed
     | None =>
         currentStep ps' = currentStep ps
         /\ completedSteps (appState ps') = completedSteps (appState ps)
     end.
Proof.
  intros Hp. cbv zeta. unfold handleFileUpload. rewrite Hp.
  destruct (foldl_toast notices (setIsProcessing true (appState ps)))
    as (H1 & H2 & H3 & H4 & H5 & H6 & H7).
  set (st1 := foldl (fun st t => toast t st)
                (setIsProcessing true (appState ps)) notices) in *.
  simpl in H1, H2, H3, H4, H5, H6, H7.
  set (note := {| title := "Archivo procesado exitosamente";
                  description := _; variant := None |}).
  destruct fileNumber.
  - set (st3 := toast note (setFile1 f st1)).
    destruct (file2 (appState ps)) eqn:Hother.
    + destruct (completeStep_keeps 2 st3) as (K1 & K2 & K3 & K4 & K5 & K6).
      destruct (completeStep_spec 2 st3) as (Hin & _).
      unfold getStepStatus. simpl. simpl in K1, K2, K3, K4, K5, K6.
      rewrite K1, K2, K3, K4, K5, K6, H2, H3, H4, H5, H6.
      by rewrite bool_decide_true by exact Hin.
    + simpl. by rewrite H2, H3, H4, H5, H6, H7.
  - set (st3 := toast note (setFile2 f st1)).
    destruct (file1 (appState ps)) eqn:Hother.
    + destruct (completeStep_keeps 2 st3) as (K1 & K2 & K3 & K4 & K5 & K6).
      destruct (completeStep_spec 2 st3) as (Hin & _).
      unfold getStepStatus. simpl. simpl in K1, K2, K3, K4, K5, K6.
      rewrite K1, K2, K3, K4, K5, K6, H1, H3, H4, H5, H6.
      by rewrite bool_decide_true by exact Hin.
    + simpl. by rewrite H1, H3, H4, H5, H6, H7.
Qed.

End ReadingFacts.

Lemma chooseSheet_methods_witness :
  circuitSheet (chooseSheet asciiLower sampleWorkbook)
  ∈ SheetNames sampleWorkbook
  /\ detectionMethod (chooseSheet asciiLower sampleWorkbook)
     ∈ ["contenido_válido"; "nombre_específico_sin_validación";
        "segunda_hoja"; "primera_hoja"].
Proof.
  apply (chooseSheet_methods asciiLower eq_refl sampleWorkbook).
  discriminate.
Defined.

Lemma processExcelFile_resolves_witness :
  exists f, processExcelFile asciiLower sampleUpload
            = ([sheetToast {| circuitSheet := "LPRA110";
                              detectionMethod := "contenido_válido" |}],
               inr f)
            /\ records f = 2 /\ hojaProcesada f = "LPRA110".
Proof.
  eexists. split; [vm_compute; reflexivity|].
  destruct (processExcelFile_resolves asciiLower sampleUpload _ _ eq_refl)
    as (wb & headerRow & rest & _ & _ & _ & _ & Hr & _).
  split; [exact Hr|reflexivity].
Defined.

Lemma buildRow_key_witness :
  rowKey (buildRow ["MATRICULA"; "CODIGO POLIGONO"; "CODIGO CELDA"]
            (mapColumns asciiLower
               ["MATRICULA"; "CODIGO POLIGONO"; "CODIGO CELDA"])
            [CValue " 517 "; CString "P1"; CString "C1"])
  = Some "000517".
Proof.
  apply (buildRow_key asciiLower
           ["MATRICULA"; "CODIGO POLIGONO"; "CODIGO CELDA"]
           [CValue " 517 "; CString "P1"; CString "C1"] "MATRICULA");
    [reflexivity | vm_compute; discriminate].
Defined.

Lemma mapColumns_codigo_witness :
  rowKey (buildRow codesFirst (mapColumns asciiLower codesFirst)
            [CValue "12"; CString "7"; CString "000123"])
  = Some "000012".
Proof.
  apply (mapColumns_codigo asciiLower [] ["CODIGO CELDA"; "MATRICULA"]
           "CODIGO POLIGONO" [CValue "12"; CString "7"; CString "000123"]);
    [constructor | discriminate | reflexivity | reflexivity
    | vm_compute; discriminate].
Defined.

Lemma handleFileUpload_resolved_witness :
  currentStep (handleFileUpload asciiLower File1 (Some sampleUpload) uploadPage)
  = 2.
Proof.
  destruct (handleFileUpload_resolved asciiLower File1 sampleUpload uploadPage
              _ _ eq_refl) as (_ & _ & _ & _ & _ & _ & _ & H).
  exact (proj1 H).
Defined.

(** ** The marker [N/A] *)

Lemma whiteSpace_no_slash : Forall (fun w => "/"%char ∉ w) JsString.whiteSpace.
Proof.
  repeat constructor; intros H; repeat (apply elem_of_cons in H as [H|H];
    [discriminate|]); by apply elem_of_nil in H.
Qed.

Lemma strip_one_length (codes : list (list ascii)) (l r : list ascii) :
  Forall (fun w => w <> []) codes ->
  JsString.strip_one codes l = Some r ->
  exists w, w ∈ codes /\ l = w ++ r /\ length r < length l.
Proof.
  intros Hne H. destruct (strip_one_Some codes l r H) as (w & Hw & ->).
  exists w. split; [exact Hw|]. split; [reflexivity|].
  rewrite Forall_forall in Hne. specialize (Hne w Hw).
  destruct w; [done|]. rewrite length_app. simpl. lia.
Qed.

Lemma whiteSpace_nonempty : Forall (fun w => w <> []) JsString.whiteSpace.
Proof. exact (head_nonempty _ _ whiteSpace_head). Qed.

Lemma removeSpecial_no_slash (fuel : nat) (l : list ascii) :
  length l <= fuel -> "/"%char ∉ removeSpecial fuel l.
Proof.
  revert l. induction fuel as [|fuel IH]; intros l Hl.
  - destruct l; [|simpl in Hl; lia]. simpl. apply not_elem_of_nil.
  - destruct l as [|c l']; [apply not_elem_of_nil|].
    cbn [removeSpecial].
    destruct (JsString.strip_one JsString.whiteSpace (c :: l')) as [r|] eqn:Hs.
    + destruct (strip_one_length _ _ _ whiteSpace_nonempty Hs)
        as (w & Hw & Heq & Hlen).
      rewrite Heq at 1 2. rewrite length_app.
      replace (length w + length r - length r) with (length w) by lia.
      rewrite take_app_length. intros [H|H]%elem_of_app.
      * pose proof whiteSpace_no_slash as Hn. rewrite Forall_forall in Hn.
        exact (Hn w Hw H).
      * revert H. apply IH. simpl in Hl, Hlen. lia.
    + destruct (isWord c || bool_decide (c = "-"%char)
                || bool_decide (c = "."%char)) eqn:Hk.
      * intros [<-|H]%elem_of_cons; [vm_compute in Hk; discriminate Hk|].
        revert H. apply IH. simpl in Hl. lia.
      * apply IH. simpl in Hl. lia.
Qed.

Lemma trim_elem (c : ascii) (s : string) :
  c ∈ list_ascii_of_string (JsString.trim s) -> c ∈ list_ascii_of_string s.
Proof.
  unfold JsString.trim. rewrite list_ascii_of_string_of_list_ascii.
  intros H.
  destruct (trimEnd_prefix (JsString.trimStart (list_ascii_of_string s)))
    as [k Hk].
  assert (H' : c ∈ JsString.trimStart (list_ascii_of_string s)).
  { rewrite Hk. apply elem_of_app. by left. }
  unfold JsString.trimStart in H'.
  destruct (strip_all_suffix JsString.whiteSpace
              (length (list_ascii_of_string s)) (list_ascii_of_string s))
    as [k' Hk'].
  rewrite Hk'. apply elem_of_app. by right.
Qed.

Lemma no_slash_not_NA (s : string) :
  "/"%char ∉ list_ascii_of_string s -> JsString.trim s <> "N/A".
Proof.
  intros Hn Ht. apply Hn, trim_elem. rewrite Ht. simpl.
  apply elem_of_cons. right. apply elem_of_cons. by left.
Qed.

Lemma cleanValue_not_NA (value : Cell) (isKeyColumn : bool) :
  JsString.trim (cleanValue value isKeyColumn) <> "N/A".
Proof.
  assert (He : JsString.trim "" <> "N/A") by (vm_compute; discriminate).
  unfold cleanValue. destruct value as [|s|t|t d]; [exact He| | |];
    cbn [cellText]; cbv zeta.
  all: match goal with
       | |- context [String.eqb ?x "N/A"] =>
           remember x as strValue eqn:Hs;
           destruct (String.eqb strValue "N/A") eqn:Hna; [exact He|];
           cbn [orb];
           destruct (String.eqb strValue "NULL"
                     || String.eqb strValue "undefined"); [exact He|]
       end.
  all: destruct isKeyColumn;
    [ rewrite Hs, trim_idemp, <- Hs; by apply String.eqb_neq
    | apply no_slash_not_NA; rewrite list_ascii_of_string_of_list_ascii;
      by apply removeSpecial_no_slash ].
Qed.

Lemma addColumns_Forall (P : string -> Prop) (row : list Cell)
    (headers : list string) (colIndex : nat) (obj : Row) :
  Forall (fun cell => isDate cell = false) row ->
  (forall value isKeyColumn, P (cleanValue value isKeyColumn)) ->
  map_Forall (fun _ v => P v) obj ->
  map_Forall (fun _ v => P v) (addColumns row colIndex headers obj).
Proof.
  intros Hrow HP. revert colIndex obj.
  induction headers as [|header rest IH]; intros colIndex obj Hobj; simpl;
    [exact Hobj|].
  apply IH. unfold addColumn. destruct (unset obj header); [|exact Hobj].
  destruct (default CEmpty (row !! colIndex)) as [|s|t|t d] eqn:Hv;
    try (apply map_Forall_insert_2; [apply HP|exact Hobj]).
  destruct (row !! colIndex) as [cell|] eqn:Hc; [|discriminate].
  simpl in Hv. subst cell. rewrite Forall_forall in Hrow.
  specialize (Hrow _ (list_elem_of_lookup_2 _ _ _ Hc)). discriminate.
Qed.

Lemma setMapped_Forall (P : string -> Prop) (key : string)
    (mapped : option string) (headers : list string) (row : list Cell)
    (obj : Row) :
  (forall value isKeyColumn, P (cleanValue value isKeyColumn)) ->
  map_Forall (fun _ v => P v) obj ->
  map_Forall (fun _ v => P v) (setMapped key mapped headers row obj).
Proof.
  intros HP Hobj. unfold setMapped. destruct (JsString.truthy mapped);
    [|exact Hobj].
  apply map_Forall_insert_2; [apply HP|exact Hobj].
Qed.

(** X26. A row read from a sheet without [Date] cells never holds the marker
    [N/A], under no key and with no blanks around it: [cleanValue] turns it
    into the empty text or drops its stroke.  On such rows the [N/A] test of
    [validateFileData] decides nothing. *)
Theorem buildRow_no_NA (headers : list string) (columnMapping : ColumnMapping)
    (row : list Cell) :
  Forall (fun cell => isDate cell = false) row ->
  let built := buildRow headers columnMapping row in
  (forall key v, built !! key = Some v -> JsString.trim v <> "N/A")
  /\ validRow built
     = JsString.truthy (built !! "MATRICULA")
       && strictNe (JsString.trim (default "" (built !! "MATRICULA"))) "".
Proof.
  intros Hrow built.
  assert (H : map_Forall (fun _ v => JsString.trim v <> "N/A") built).
  { unfold built, buildRow.
    apply (addColumns_Forall (fun v => JsString.trim v <> "N/A"));
      [exact Hrow|exact cleanValue_not_NA|].
    repeat apply (setMapped_Forall (fun v => JsString.trim v <> "N/A"));
      try exact cleanValue_not_NA.
    apply map_Forall_empty. }
  split; [exact H|].
  unfold validRow. destruct (built !! "MATRICULA") as [v|] eqn:Hv; [|done].
  specialize (H _ _ Hv). simpl default.
  apply String.eqb_neq in H. unfold strictNe at 2. rewrite H. simpl.
  by rewrite andb_true_r.
Qed.

Lemma buildRow_no_NA_witness :
  validRow (buildRow codesFirst (mapColumns asciiLower codesFirst)
              [CString "N/A"; CString "7"; CString " N/A "])
  = false.
Proof.
  rewrite (proj2 (buildRow_no_NA codesFirst (mapColumns asciiLower codesFirst)
                    [CString "N/A"; CString "7"; CString " N/A "]
                    ltac:(repeat constructor))).
  reflexivity.
Defined.
(** ** The script of a comparison *)

Lemma pushedLeft_update m2 e d :
  d ∈ pushedLeft m2 e -> isUpdateStatus d = true.
Proof.
  unfold pushedLeft, compareLeft. destruct e as [k row1]. simpl.
  destruct (JsMap.get k m2) as [row2|]; simpl.
  - destruct (strictNe (rowPoligono row1) (rowPoligono row2));
      destruct (strictNe (rowCelda row1) (rowCelda row2)); simpl;
      try (by intros ?%elem_of_nil);
      by intros ->%list_elem_of_singleton.
  - by intros ->%list_elem_of_singleton.
Qed.

Lemma pushedRight_no_update m1 e d :
  d ∈ pushedRight m1 e -> isUpdateStatus d = false.
Proof.
  unfold pushedRight, compareRight. destruct e as [k row2]. simpl.
  destruct (JsMap.has k m1); simpl.
  - by intros ?%elem_of_nil.
  - by intros ->%list_elem_of_singleton.
Qed.

Lemma elem_of_flat_map {A B} (f : A -> list B) (l : list A) (y : B) :
  y ∈ flat_map f l -> exists x, x ∈ l /\ y ∈ f x.
Proof.
  intros H. apply list_elem_of_In, in_flat_map in H as (x & Hx & Hy).
  exists x. split; by apply list_elem_of_In.
Qed.

(** X27. The update script of a comparison only concerns file 1: the entries
    it counts as updates are those of the keys of file 1 that file 2 lacks or
    holds with another code, in the order of file 1, and the keys only file 2
    has are the rest of [nonMatching].  The statements written are at most
    as many as the total the script announces. *)
Theorem generateScripts_targets (file1 file2 : FileData) :
  let file1Map := indexFile (data file1) in
  let file2Map := indexFile (data file2) in
  let result := compareFiles file1 file2 in
  let counted := List.filter isUpdateStatus (differences result) in
  map matricula counted
  = map fst (List.filter (fun e => negb (agrees file2Map e)) file1Map)
  /\ length counted
     + length (List.filter (fun e => negb (JsMap.has e.1 file1Map)) file2Map)
     = nonMatching result
  /\ length (updateStatementList (differences result)) <= length counted.
Proof.
  intros m1 m2 result counted.
  destruct (compareFiles_passes file1 file2) as (Hd & _ & Hn).
  fold m1 m2 result in Hd, Hn.
  assert (Hc : counted = flat_map (pushedLeft m2) m1).
  { unfold counted. rewrite Hd, List.filter_app.
    rewrite filter_all_true, filter_all_false, app_nil_r; [reflexivity| |].
    - intros d (e & _ & Hd')%elem_of_flat_map.
      by eapply pushedRight_no_update.
    - intros d (e & _ & Hd')%elem_of_flat_map.
      by eapply pushedLeft_update. }
  assert (Hk : map matricula counted
               = map fst (List.filter (fun e => negb (agrees m2 e)) m1)).
  { rewrite Hc. apply map_flat_map_keys. intros e.
    rewrite pushedLeft_keys. by destruct (agrees m2 e). }
  split; [exact Hk|]. split.
  - rewrite Hn, Hd, length_app, <- Hc. f_equal.
    rewrite <- (length_map fst
      (List.filter (fun e => negb (JsMap.has e.1 m1)) m2)).
    rewrite <- (map_flat_map_keys (pushedRight m1)), length_map; [done|].
    intros e. rewrite pushedRight_keys. by destruct (JsMap.has e.1 m1).
  - unfold updateStatementList. fold counted. rewrite omap_id_map.
    apply length_omap_le.
Qed.

(** ** The columns of a row *)

Lemma addColumn_is_Some (row : list Cell) (obj : Row) (colIndex : nat)
    (header key : string) :
  is_Some (addColumn row obj colIndex header !! key)
  <-> is_Some (obj !! key) \/ (key = header /\ unset obj header = true).
Proof.
  unfold addColumn. destruct (unset obj header) eqn:Hu.
  - assert (H : forall v, is_Some (<[header := v]> obj !! key)
                  <-> is_Some (obj !! key) \/ (key = header /\ true = true)).
    { intros v. rewrite lookup_insert_is_Some.
      destruct (decide (header = key)) as [->|Hne]; intuition congruence. }
    destruct (default CEmpty (row !! colIndex)); apply H.
  - intuition congruence.
Qed.

Lemma addColumns_is_Some (row : list Cell) (headers : list string)
    (colIndex : nat) (obj : Row) (key : string) :
  is_Some (addColumns row colIndex headers obj !! key)
  <-> is_Some (obj !! key)
      \/ (key ∈ headers /\ key ∉ objectPrototypeKeys).
Proof.
  revert colIndex obj.
  induction headers as [|header rest IH]; intros colIndex obj; simpl.
  - split; [by left|]. intros [H|[H _]]; [exact H|]. by apply elem_of_nil in H.
  - rewrite IH, addColumn_is_Some, elem_of_cons. unfold unset.
    destruct (obj !! header) as [v|] eqn:Hh.
    + split.
      * intros [[H|[-> _]]|[H1 H2]]; [by left| |by right; split; [right|]].
        left. by rewrite Hh.
      * intros [H|[[->|H1] H2]]; [by left; left| |by right].
        left. left. by rewrite Hh.
    + split.
      * intros [[H|[-> Hp]]|[H1 H2]]; [by left| |by right; split; [right|]].
        right. split; [by left|].
        apply negb_true_iff, bool_decide_eq_false in Hp. exact Hp.
      * intros [H|[[->|H1] H2]]; [by left; left| |by right].
        left. right. split; [reflexivity|].
        by apply negb_true_iff, bool_decide_eq_false.
Qed.

Lemma setMapped_is_Some (k : string) (mapped : option string)
    (headers : list string) (row : list Cell) (obj : Row) (key : string) :
  is_Some (setMapped k mapped headers row obj !! key)
  <-> is_Some (obj !! key) \/ (key = k /\ JsString.truthy mapped = true).
Proof.
  unfold setMapped. destruct (JsString.truthy mapped).
  - rewrite lookup_insert_is_Some.
    destruct (decide (k = key)) as [->|Hne]; intuition congruence.
  - intuition congruence.
Qed.

(** X28. The keys of a row read from a sheet do not depend on its cells: a
    row has [MATRICULA], [CODIGO POLIGONO] and [CODIGO CELDA] when the
    column is mapped, and every header that is not a property of
    [Object.prototype].  All the rows of a file have the same keys, so what
    [validateFileData] reads off the first row holds for each of them. *)
Theorem buildRow_keys (headers : list string) (columnMapping : ColumnMapping)
    (row : list Cell) (key : string) :
  (is_Some (buildRow headers columnMapping row !! key)
   <-> (key = "MATRICULA"
        /\ JsString.truthy (mapped_matricula columnMapping) = true)
       \/ (key = "CODIGO POLIGONO"
           /\ JsString.truthy (mapped_poligono columnMapping) = true)
       \/ (key = "CODIGO CELDA"
           /\ JsString.truthy (mapped_celda columnMapping) = true)
       \/ (key ∈ headers /\ key ∉ objectPrototypeKeys))
  /\ forall other,
       hasColumn key (buildRow headers columnMapping other)
       = hasColumn key (buildRow headers columnMapping row).
Proof.
  assert (H : forall r,
    is_Some (buildRow headers columnMapping r !! key)
    <-> (key = "MATRICULA"
         /\ JsString.truthy (mapped_matricula columnMapping) = true)
        \/ (key = "CODIGO POLIGONO"
            /\ JsString.truthy (mapped_poligono columnMapping) = true)
        \/ (key = "CODIGO CELDA"
            /\ JsString.truthy (mapped_celda columnMapping) = true)
        \/ (key ∈ headers /\ key ∉ objectPrototypeKeys)).
  { intros r. unfold buildRow.
    rewrite addColumns_is_Some, !setMapped_is_Some, lookup_empty.
    rewrite is_Some_alt. tauto. }
  split; [apply H|]. intros other. unfold hasColumn.
  pose proof (H row) as Hr. pose proof (H other) as Ho.
  rewrite <- Hr in Ho. rewrite !is_Some_alt in Ho.
  destruct (buildRow headers columnMapping other !! key);
    destruct (buildRow headers columnMapping row !! key); tauto.
Qed.
